(** * Release pipeline of the QGIS plugin (release.py): model and properties

    A shallow embedding of [release.py]: the repository manifest updater
    (an XML document, found-or-created entry, atomic write), the archive
    packager (listed files, walked directories, exclusion rules) and the
    release orchestrator.

    Conventions of the model.
    - A Python [str] is a Rocq [string]; its characters are the code points
      below 256.
    - A [pathlib.Path] is its normal-form string; the normalisation done by
      [Path(...)] belongs to the runtime ([PyRuntime]).
    - The plugin's working directory is only read by the script and is a
      snapshot in [Env]; the shared repository is the mutable [World].
    - The failures the outside can inject are the ones [release.py] guards
      with [except OSError]: those of [mkdir], [tree.write] and the rename. *)

From Stdlib Require Import Ascii String List Bool Arith Lia.
From stdpp Require Import base option list strings gmap.

Local Open Scope string_scope.

(** ** Python string methods *)

Module PyStr.

Definition chr (n : nat) : ascii := ascii_of_nat n.

Definition LF : ascii := chr 10.
Definition CR : ascii := chr 13.

(** [str.isspace] on one character (code points below 256). *)
Definition is_space (c : ascii) : bool :=
  existsb (Ascii.eqb c) (map chr [9; 10; 11; 12; 13; 28; 29; 30; 31; 32; 133; 160]).

(** The line boundaries of [str.splitlines] other than CR (code points
    below 256): LF, VT, FF, FS, GS, RS, NEL. *)
Definition is_linebreak (c : ascii) : bool :=
  existsb (Ascii.eqb c) (map chr [10; 11; 12; 28; 29; 30; 133]).

(** [s.startswith(p)] *)
Fixpoint startswith (p s : string) : bool :=
  match p, s with
  | EmptyString, _ => true
  | String a p', String b s' => Ascii.eqb a b && startswith p' s'
  | String _ _, EmptyString => false
  end.

(** [s.endswith(suf)] *)
Fixpoint endswith (suf s : string) : bool :=
  String.eqb s suf ||
  match s with
  | EmptyString => false
  | String _ s' => endswith suf s'
  end.

(** [sub in s] *)
Fixpoint contains (sub s : string) : bool :=
  startswith sub s ||
  match s with
  | EmptyString => false
  | String _ s' => contains sub s'
  end.

(** [s.lstrip()] *)
Fixpoint lstrip (s : string) : string :=
  match s with
  | EmptyString => EmptyString
  | String c s' => if is_space c then lstrip s' else s
  end.

(** [s.rstrip(chars)], the stripped set given as a predicate. *)
Fixpoint rstrip_by (p : ascii -> bool) (s : string) : string :=
  match s with
  | EmptyString => EmptyString
  | String c s' =>
      match rstrip_by p s' with
      | EmptyString => if p c then EmptyString else String c EmptyString
      | r => String c r
      end
  end.

(** [s.rstrip()] *)
Definition rstrip (s : string) : string := rstrip_by is_space s.

(** [s.rstrip(chars)] *)
Definition rstrip_chars (chars s : string) : string :=
  rstrip_by (fun c => existsb (Ascii.eqb c) (list_ascii_of_string chars)) s.

(** [s.strip()] *)
Definition strip (s : string) : string := rstrip (lstrip s).

(** The scan of [s.replace(old, new)] for a non-empty [old]: [skip] counts
    the characters of a match that are still to be dropped. *)
Fixpoint replace_scan (old new : string) (skip : nat) (s : string) : string :=
  match s with
  | EmptyString => EmptyString
  | String c s' =>
      match skip with
      | S k => replace_scan old new k s'
      | O =>
          if startswith old s
          then new +:+ replace_scan old new (String.length old - 1) s'
          else String c (replace_scan old new 0 s')
      end
  end.

(** With an empty [old], [new] is put before every character and at the
    end. *)
Fixpoint replace_empty (new s : string) : string :=
  match s with
  | EmptyString => new
  | String c s' => new +:+ String c (replace_empty new s')
  end.

(** [s.replace(old, new)] *)
Definition replace (old new s : string) : string :=
  match old with
  | EmptyString => replace_empty new s
  | String _ _ => replace_scan old new 0 s
  end.

(** [s.splitlines(keepends=True)]: [cur] is the line read so far. *)
Fixpoint splitlines_from (cur s : string) : list string :=
  match s with
  | EmptyString =>
      match cur with EmptyString => [] | String _ _ => [cur] end
  | String c s' =>
      if Ascii.eqb c CR then
        match s' with
        | String d s'' =>
            if Ascii.eqb d LF
            then (cur +:+ String CR (String LF EmptyString)) :: splitlines_from EmptyString s''
            else (cur +:+ String CR EmptyString) :: splitlines_from EmptyString s'
        | EmptyString => [cur +:+ String CR EmptyString]
        end
      else if is_linebreak c
      then (cur +:+ String c EmptyString) :: splitlines_from EmptyString s'
      else splitlines_from (cur +:+ String c EmptyString) s'
  end.

Definition splitlines (s : string) : list string := splitlines_from EmptyString s.

(** ["".join(parts)] *)
Definition join (parts : list string) : string :=
  fold_right String.append EmptyString parts.

(** What reading a file opened in text mode with the default [newline=None]
    returns: every CRLF and every lone CR comes back as LF. *)
Fixpoint universal_newlines (s : string) : string :=
  match s with
  | EmptyString => EmptyString
  | String c s' =>
      if Ascii.eqb c CR then
        match s' with
        | String d s'' =>
            if Ascii.eqb d LF
            then String LF (universal_newlines s'')
            else String LF (universal_newlines s')
        | EmptyString => String LF EmptyString
        end
      else String c (universal_newlines s')
  end.

End PyStr.

Arguments PyStr.replace : simpl never.
Arguments PyStr.rstrip_chars : simpl never.
Arguments PyStr.strip : simpl never.

(** ** Lists searched by a predicate *)

(** Index of the first element that satisfies [p]: what [next(...)] over a
    generator, or [Element.find], picks. *)
Fixpoint find_index {A} (p : A -> bool) (l : list A) : option nat :=
  match l with
  | [] => None
  | x :: l' => if p x then Some 0 else S <$> find_index p l'
  end.

(** ** The metadata record *)

Record PluginMetadata := mkPluginMetadata {
  (* [release] section *)
  plugin_package_name : string;
  files_to_package : list string;
  dirs_to_package : list string;
  translation_dir : string;
  excluded_dirs : list string;
  excluded_extensions : list string;
  (* [general] section *)
  name : string;
  version : string;
  changelog : string;
  description : string;
  qgis_minimum_version : string;
  author : string;
  email : string;
  url_base : string
}.

(** [metadata["name"] = release_name] *)
Definition set_name (n : string) (md : PluginMetadata) : PluginMetadata :=
  {| plugin_package_name := plugin_package_name md;
     files_to_package := files_to_package md;
     dirs_to_package := dirs_to_package md;
     translation_dir := translation_dir md;
     excluded_dirs := excluded_dirs md;
     excluded_extensions := excluded_extensions md;
     name := n;
     version := version md;
     changelog := changelog md;
     description := description md;
     qgis_minimum_version := qgis_minimum_version md;
     author := author md;
     email := email md;
     url_base := url_base md |}.

(** ** XML elements (xml.etree.ElementTree) *)

Module ET.

(** An element: tag, attribute dictionary (in insertion order), text
    ([None] until set) and children. *)
#[local] Set Warnings "-register-all".
Inductive Element : Type :=
  mkElement (tag : string) (attrib : list (string * string))
            (text : option string) (children : list Element).

Definition tag (e : Element) : string := let 'mkElement t _ _ _ := e in t.
Definition attrib (e : Element) : list (string * string) := let 'mkElement _ a _ _ := e in a.
Definition text (e : Element) : option string := let 'mkElement _ _ x _ := e in x.
Definition children (e : Element) : list Element := let 'mkElement _ _ _ c := e in c.

Definition with_children (e : Element) (c : list Element) : Element :=
  mkElement (tag e) (attrib e) (text e) c.

(** [d.get(k)] on a dictionary kept as an association list. *)
Fixpoint dict_get (k : string) (d : list (string * string)) : option string :=
  match d with
  | [] => None
  | (k', v) :: d' => if String.eqb k' k then Some v else dict_get k d'
  end.

(** [d[k] = v]: the value of an existing key is replaced where it stands, a
    new key goes to the end. *)
Fixpoint dict_set (k v : string) (d : list (string * string)) : list (string * string) :=
  match d with
  | [] => [(k, v)]
  | (k', v') :: d' =>
      if String.eqb k' k then (k, v) :: d' else (k', v') :: dict_set k v d'
  end.

(** [e.get(key)] *)
Definition get (e : Element) (key : string) : option string := dict_get key (attrib e).

(** [e.set(key, value)] *)
Definition set (key value : string) (e : Element) : Element :=
  mkElement (tag e) (dict_set key value (attrib e)) (text e) (children e).

(** [e.text = value] *)
Definition set_text (value : string) (e : Element) : Element :=
  mkElement (tag e) (attrib e) (Some value) (children e).

Definition has_tag (t : string) (e : Element) : bool := String.eqb (tag e) t.

(** A path of [Element.find] that is a plain tag name: not empty and free
    of the characters that the path syntax of [ElementPath] gives a meaning
    to ([*] for every child, [.] for the element itself, [/] for a step,
    brackets for a predicate, braces for a namespace). *)
Definition path_char (c : ascii) : bool :=
  existsb (Ascii.eqb c)
    (list_ascii_of_string "/*.[]()@=!:{}'") ||
  Ascii.eqb c (ascii_of_nat 34) || PyStr.is_space c.

Fixpoint no_path_char (t : string) : bool :=
  match t with
  | EmptyString => true
  | String c t' => negb (path_char c) && no_path_char t'
  end.

Definition plain_tag (t : string) : bool :=
  negb (String.eqb t "") && no_path_char t.

(** [parent.find(t)] for a plain tag name [t]: position of the first direct
    child with that tag. (A path that is no plain tag name selects by the
    path syntax, which this does not describe; the script passes the eight
    plain names of [essential_tags] and [pyqgis_plugin] only.) *)
Definition find (parent : Element) (t : string) : option nat :=
  find_index (has_tag t) (children parent).

(** [parent.findall(t)] for a plain tag name. *)
Definition findall (parent : Element) (t : string) : list Element :=
  List.filter (has_tag t) (children parent).

(** [parent.findtext(t)]: the text of [parent.find(t)]. *)
Definition findtext (parent : Element) (t : string) : option string :=
  match find parent t with
  | Some i => match children parent !! i with Some c => text c | None => None end
  | None => None
  end.

(** [SubElement(parent, t, **attrs)]: the new child is appended. *)
Definition SubElement (parent : Element) (t : string) (attrs : list (string * string))
  : Element :=
  with_children parent (children parent ++ [mkElement t attrs None []]).

(** A mutation made through a reference to the [i]-th child shows in the
    parent. *)
Definition on_child (i : nat) (f : Element -> Element) (parent : Element) : Element :=
  with_children parent (alter f i (children parent)).

End ET.

Import ET.

(** ** Repository manifest updater: the document *)

Definition essential_tags : list string :=
  ["version"; "changelog"; "description"; "qgis_minimum_version";
   "author_name"; "email"; "file_name"; "download_url"].

(** The test of the generator in [_find_or_create_plugin_node]: a
    [pyqgis_plugin] child whose [name] attribute is [plugin_name]. *)
Definition is_plugin_node (plugin_name : string) (node : Element) : bool :=
  has_tag "pyqgis_plugin" node &&
  match get node "name" with
  | Some n => String.eqb n plugin_name
  | None => false
  end.

(** The entry created for an unknown plugin: the [name] attribute and the
    essential child tags, all without text. *)
Definition new_plugin_node (plugin_name : string) : Element :=
  fold_left (fun node t => SubElement node t [])
            essential_tags
            (mkElement "pyqgis_plugin" [("name", plugin_name)] None []).

(** [_find_or_create_plugin_node]: the root after the call and the position
    of the plugin's node among the root's children. *)
Definition _find_or_create_plugin_node (root : Element) (plugin_name : string)
  : Element * nat :=
  match find_index (is_plugin_node plugin_name) (children root) with
  | Some i => (root, i)
  | None =>
      (with_children root (children root ++ [new_plugin_node plugin_name]),
       length (children root))
  end.

(** [_update_xml_tag] *)
Definition _update_xml_tag (tag_name value : string) (parent_node : Element) : Element :=
  match find parent_node tag_name with
  | Some i => on_child i (set_text value) parent_node
  | None =>
      with_children parent_node
        (children parent_node ++ [mkElement tag_name [] (Some value) []])
  end.

Definition zip_filename (plugin_name : string) : string :=
  PyStr.replace " " "_" plugin_name +:+ ".zip".

(** [_update_plugin_node_details] *)
Definition _update_plugin_node_details (metadata : PluginMetadata) (plugin_node : Element)
  : Element :=
  let version_ := version metadata in
  let plugin_name := name metadata in
  let n1 := set "version" version_ plugin_node in
  let n2 := _update_xml_tag "version" version_ n1 in
  let n3 := _update_xml_tag "description" (description metadata) n2 in
  let n4 := _update_xml_tag "changelog" (changelog metadata) n3 in
  let n5 := _update_xml_tag "qgis_minimum_version" (qgis_minimum_version metadata) n4 in
  let n6 := _update_xml_tag "author_name" (author metadata) n5 in
  let n7 := _update_xml_tag "email" (email metadata) n6 in
  let clean_plugin_name := PyStr.replace " " "_" plugin_name in
  let new_zip_filename := clean_plugin_name +:+ ".zip" in
  let n8 := _update_xml_tag "file_name" new_zip_filename n7 in
  let new_url := PyStr.rstrip_chars "/" (url_base metadata) +:+ "/" +:+ new_zip_filename in
  _update_xml_tag "download_url" new_url n8.

(** Steps 3 and 4 of [update_repository_file]: find or create the plugin's
    node, then populate it; the node is a child of the root, so the root
    sees the change. *)
Definition update_plugin_entry (metadata : PluginMetadata) (root : Element) : Element :=
  let '(root1, i) := _find_or_create_plugin_node root (name metadata) in
  on_child i (_update_plugin_node_details metadata) root1.

(** The entries of the manifest for one plugin name. *)
Definition entries_for (plugin_name : string) (root : Element) : list Element :=
  List.filter (is_plugin_node plugin_name) (children root).

(** The fields of an entry that the manifest format names. *)
Definition entry_fields (node : Element) : list (option string) :=
  get node "version" :: map (findtext node) essential_tags.

(** ** Paths (normal-form POSIX strings) *)

Definition is_absolute (p : string) : bool := PyStr.startswith "/" p.

(** [a / b] of pathlib, on normal forms: an absolute right operand wins, the
    empty path is ["."]. *)
Definition joinpath (a b : string) : string :=
  if is_absolute b then b
  else if String.eqb a "." then b
  else if String.eqb b "." then a
  else if PyStr.endswith "/" a then a +:+ b
  else a +:+ "/" +:+ b.

(** The part of a path before its last separator, if it has one. *)
Fixpoint dirname (p : string) : option string :=
  match p with
  | EmptyString => None
  | String c p' =>
      match dirname p' with
      | Some d => Some (String c d)
      | None => if Ascii.eqb c "/" then Some EmptyString else None
      end
  end.

(** [p.parent] of pathlib, on normal forms. *)
Definition parent (p : string) : string :=
  match dirname p with
  | Some EmptyString => "/"
  | Some d => d
  | None => "."
  end.

(** [os.path.join(a, b)] *)
Definition os_path_join (a b : string) : string :=
  if PyStr.startswith "/" b then b
  else if String.eqb a "" || PyStr.endswith "/" a then a +:+ b
  else a +:+ "/" +:+ b.

(** ** The runtime the script runs on *)

(** The result of [urllib.parse.urlparse], the fields the script reads. *)
Record ParseResult := mkParseResult {
  scheme : string;
  netloc : string;
  path : string
}.

(** Library functions whose results the script only passes on. *)
Class PyRuntime := {
  urlparse : string -> ParseResult;
  unquote : string -> string;
  url2pathname : string -> string;
  (** [str(Path(s))]: the normal form of a path string *)
  Path : string -> string;
  (** the bytes [tree.write(..., encoding="utf-8", xml_declaration=True)]
      produces for a root element *)
  xml_write : Element -> string;
  (** [DefET.parse]: [None] stands for [ParseError] *)
  xml_parse : string -> option Element;
  (** whether [defusedxml] refuses the document for what it declares (an
      entity, an external reference): [DefET.parse] then raises
      [EntitiesForbidden] or the like, a [ValueError], whatever the parser
      would have made of the document *)
  xml_forbidden : string -> bool
}.

(** ** Exceptions, outcomes and the world *)

Inductive Exn : Type :=
  | ReleaseScriptError (msg : string)
  | OSError (msg : string)
  | ParseError
  (** [ValueError] and its subclasses: [EntitiesForbidden] of [defusedxml],
      [UnicodeDecodeError] *)
  | ValueError (msg : string)
  (** the subclasses of [configparser.Error] that [config.read] raises *)
  | ConfigparserError (msg : string).

Inductive Outcome (A : Type) : Type :=
  | Returned (a : A)
  | Raised (e : Exn).
Arguments Returned {A} a.
Arguments Raised {A} e.

(** What [zipf.write] and [zipf.writestr] add to an archive. *)
Inductive ZipEntry : Type :=
  | ZWrite (filename arcname : string)
  | ZWritestr (arcname data : string).

Inductive FileData : Type :=
  | Text (content : string)
  | Archive (entries : list ZipEntry).

(** The warnings [release.py] logs. *)
Inductive Warning : Type :=
  | MasterFileNotFound (xml_path : string)
  | FileNotFound (file_path : string)
  | DirectoryNotFound (dir_path : string)
  | TranslationDirNotFound (i18n_dir : string).

(** A directory as [os.walk] sees it: the names of its files and its
    sub-directories. *)
#[local] Set Warnings "-register-all".
Inductive dirtree : Type :=
  DirTree (file_names : list string) (subdirs : list (string * dirtree)).

Definition file_names (t : dirtree) : list string := let 'DirTree f _ := t in f.
Definition subdirs (t : dirtree) : list (string * dirtree) := let 'DirTree _ d := t in d.

(** The shared repository and the warnings: what a run changes. Of the log
    the model keeps the records of level WARNING, the calls of
    [logger.warning], in their order; the messages of the other levels
    ([logger.info], [logger.exception], [logger.critical]) are not kept, so
    nothing below is a statement about them. *)
Record World := mkWorld {
  files : gmap string FileData;
  dirs : gset string;
  warnings : list Warning
}.

(** What can go wrong while the temporary file is made and written:
    [tempfile.mkstemp] raises [OSError(e)] and makes no file, or
    [tree.write] raises [OSError(e)] after [written] reached the file. *)
Inductive WriteFault : Type :=
  | MkstempFails (e : string)
  | WriteFails (written e : string).

(** How a run of [lrelease] ends: with exit status 0, with another exit
    status ([subprocess.run(check=True)] raises [CalledProcessError]), or
    not at all because the program is not found ([subprocess.run] raises
    [FileNotFoundError(e)]). *)
Inductive RunResult : Type :=
  | Completed
  | ExitNonZero
  | CommandNotFound (e : string).

(** What a run reads and what the outside decides. The working directory is
    given as the packaging finds it: [lrelease] writes a [.qm] file next to
    each [.ts] file it compiles, and these files are part of [src_dirs];
    the reads before the compilation ([is_dir], [glob("*.ts")]) do not
    depend on them. *)
Record Env := mkEnv {
  (** the working directory: files by path (content as stored on disk) and
      directories by path *)
  src_files : gmap string string;
  src_dirs : gmap string dirtree;
  (** the result of the metadata reader, [get_plugin_metadata()] *)
  configured : Outcome PluginMetadata;
  (** the random part of the name [tempfile.mkstemp] picks *)
  mkstemp_token : string;
  (** [Some (made, e)]: [mkdir(parents=True)] raises [OSError(e)] after it
      has made the first [made] of the directories on the path (a parent
      that is a regular file, a permission) *)
  mkdir_error : option (nat * string);
  (** what fails while the temporary file is made and written *)
  write_error : option WriteFault;
  (** [Some e]: the rename raises [OSError(e)] *)
  replace_error : option string;
  (** how [lrelease] ends on a translation file *)
  lrelease : string -> RunResult
}.

(** Computations that read and change the world and may raise. *)
Definition M (A : Type) : Type := World -> Outcome A * World.

Definition ret {A} (a : A) : M A := fun w => (Returned a, w).

Definition raise {A} (e : Exn) : M A := fun w => (Raised e, w).

Definition bind {A B} (m : M A) (k : A -> M B) : M B :=
  fun w =>
    match m w with
    | (Returned a, w') => k a w'
    | (Raised e, w') => (Raised e, w')
    end.

Declare Scope py_scope.
Delimit Scope py_scope with py.
Notation "x <- m ;; k" := (bind m (fun x => k))
  (at level 100, m at next level, right associativity) : py_scope.
Notation "m ;; k" := (bind m (fun _ => k))
  (at level 100, right associativity) : py_scope.
Local Open Scope py_scope.

Definition lift {A} (o : Outcome A) : M A := fun w => (o, w).

(** [try: body except OSError as e: handler(e)] *)
Definition except_OSError {A} (body : M A) (handler : string -> M A) : M A :=
  fun w =>
    match body w with
    | (Raised (OSError e), w') => handler e w'
    | r => r
    end.

(** [try: body except DefET.ParseError: handler] *)
Definition except_ParseError {A} (body : M A) (handler : M A) : M A :=
  fun w =>
    match body w with
    | (Raised ParseError, w') => handler w'
    | r => r
    end.

(** [try: body finally: cleanup] *)
Definition finally {A} (body : M A) (cleanup : M unit) : M A :=
  fun w =>
    match body w with
    | (r, w') =>
        match cleanup w' with
        | (Returned _, w'') => (r, w'')
        | (Raised e, w'') => (Raised e, w'')
        end
    end.

(** [for x in l: s = body(x, s)] *)
Fixpoint for_each {A S} (l : list A) (body : A -> S -> M S) (s : S) : M S :=
  match l with
  | [] => ret s
  | x :: l' => s' <- body x s ;; for_each l' body s'
  end.

Definition set_files (f : gmap string FileData) (w : World) : World :=
  mkWorld f (dirs w) (warnings w).

Definition logger_warning (msg : Warning) : M unit :=
  fun w => (Returned tt, mkWorld (files w) (dirs w) (warnings w ++ [msg])).

(** The file system calls of the script. *)

(** All directories on the way to [p], [p] included. *)
Fixpoint path_prefixes (seen p : string) : list string :=
  match p with
  | EmptyString => [seen]
  | String c p' =>
      if Ascii.eqb c "/" && negb (String.eqb seen "")
      then seen :: path_prefixes (seen +:+ "/") p'
      else path_prefixes (seen +:+ String c EmptyString) p'
  end.

(** [p.mkdir(parents=True, exist_ok=True)]: the directories on the path are
    made from the top; a failure leaves those in place that were made
    before it. *)
Definition mkdir_parents (env : Env) (p : string) : M unit :=
  fun w =>
    match mkdir_error env with
    | Some (made, e) =>
        (Raised (OSError e),
         mkWorld (files w) (dirs w ∪ list_to_set (take made (path_prefixes "" p)))
           (warnings w))
    | None =>
        match files w !! p with
        | Some _ => (Raised (OSError "File exists"), w)
        | None =>
            (Returned tt,
             mkWorld (files w) (dirs w ∪ list_to_set (path_prefixes "" p)) (warnings w))
        end
    end.

(** [p.exists()] in the shared repository *)
Definition repo_exists (p : string) (w : World) : bool :=
  bool_decide (is_Some (files w !! p)) || bool_decide (p ∈ dirs w).

(** [tempfile.mkstemp(dir=d, prefix=pre, suffix=suf)] followed by
    [os.close]: an empty file with a new name in [d], or an [OSError] and
    no file (the directory is not there or cannot be written to). *)
Definition mkstemp (env : Env) (d pre suf : string) : M string :=
  fun w =>
    match write_error env with
    | Some (MkstempFails e) => (Raised (OSError e), w)
    | _ =>
        let tmp_name := os_path_join d (pre +:+ mkstemp_token env +:+ suf) in
        (Returned tmp_name, set_files (<[tmp_name := Text ""]> (files w)) w)
    end.

(** [Path(src).replace(dst)] *)
Definition path_replace (env : Env) (src dst : string) : M unit :=
  fun w =>
    match replace_error env with
    | Some e => (Raised (OSError e), w)
    | None =>
        match files w !! src with
        | Some data => (Returned tt, set_files (<[dst := data]> (delete src (files w))) w)
        | None => (Raised (OSError "No such file or directory"), w)
        end
    end.

(** [Path(p).unlink(missing_ok=True)] *)
Definition unlink_missing_ok (p : string) : M unit :=
  fun w => (Returned tt, set_files (delete p (files w)) w).

(** [try: body except ReleaseScriptError: handler] *)
Definition except_ReleaseScriptError {A} (body : M A) (handler : string -> M A) : M A :=
  fun w =>
    match body w with
    | (Raised (ReleaseScriptError msg), w') => handler msg w'
    | r => r
    end.

(** [os.walk(top)], top-down: a directory's own triple
    [(root, dirs, files)] comes before those of its sub-directories. *)
Fixpoint os_walk (top : string) (t : dirtree) : list (string * list string * list string) :=
  match t with
  | DirTree fs ds =>
      (top, map fst ds, fs)
        :: flat_map (fun d => os_walk (os_path_join top (fst d)) (snd d)) ds
  end.

(** ** The script *)

Section Release.

Context `{PyRuntime}.

Definition file_scheme_msg : string :=
  "`download_url_base` must use the file:// scheme.".

(** [_file_url_to_path] *)
Definition _file_url_to_path (url : string) : Outcome string :=
  let parsed := urlparse url in
  if negb (String.eqb (scheme parsed) "file") then
    Raised (ReleaseScriptError file_scheme_msg)
  else
    let path_part := url2pathname (unquote (path parsed)) in
    if negb (String.eqb (netloc parsed) "")
    then Returned (Path ("//" +:+ netloc parsed +:+ path_part))
    else Returned (Path path_part).

(** [_get_repository_path] *)
Definition _get_repository_path (env : Env) (metadata : PluginMetadata) : M string :=
  shared_repo_path <- lift (_file_url_to_path (url_base metadata)) ;;
  let master_xml_path := joinpath shared_repo_path (Path "plugins.xml") in
  except_OSError
    (mkdir_parents env shared_repo_path)
    (fun e =>
       raise (ReleaseScriptError
                ("Could not access or create shared repository directory: " +:+ e))) ;;
  ret master_xml_path.

(** [DefET.parse(xml_path)] followed by [getroot()] *)
Definition DefET_parse (xml_path : string) : M Element :=
  fun w =>
    match files w !! xml_path with
    | Some (Text content) =>
        if xml_forbidden content then (Raised (ValueError "EntitiesForbidden"), w)
        else
          match xml_parse content with
          | Some root => (Returned root, w)
          | None => (Raised ParseError, w)
          end
    | Some (Archive _) => (Raised ParseError, w)
    | None => (Raised (OSError "Is a directory"), w)
    end.

(** [_load_or_create_xml_tree]: the tree is given by its root. *)
Definition _load_or_create_xml_tree (xml_path : string) : M Element :=
  fun w =>
    if repo_exists xml_path w then
      except_ParseError
        (DefET_parse xml_path)
        (raise (ReleaseScriptError ("Error parsing " +:+ xml_path +:+ ".")))
        w
    else
      (logger_warning (MasterFileNotFound xml_path) ;;
       ret (mkElement "plugins" [] None [])) w.

(** [tree.write(tmp_name, encoding="utf-8", xml_declaration=True)] *)
Definition tree_write (env : Env) (tree : Element) (file : string) : M unit :=
  fun w =>
    match write_error env with
    | Some (WriteFails written e) =>
        (Raised (OSError e), set_files (<[file := Text written]> (files w)) w)
    | _ =>
        (Returned tt, set_files (<[file := Text (xml_write tree)]> (files w)) w)
    end.

(** The name [_write_plugin_xml] gets from [mkstemp]. *)
Definition tmp_name_for (env : Env) (destination_path : string) : string :=
  os_path_join (parent destination_path) ("plugins.xml." +:+ mkstemp_token env +:+ ".tmp").

(** [_write_plugin_xml] *)
Definition _write_plugin_xml (env : Env) (tree : Element) (destination_path : string)
  : M unit :=
  let repo_path := parent destination_path in
  tmp_name <- mkstemp env repo_path "plugins.xml." ".tmp" ;;
  finally
    (except_OSError
       (tree_write env tree tmp_name ;;
        path_replace env tmp_name destination_path)
       (fun e =>
          raise (ReleaseScriptError
                   ("Failed to write/update `" +:+ destination_path +:+
                    "`. Check permissions on `" +:+ repo_path +:+ "`: " +:+ e))))
    (unlink_missing_ok tmp_name).

(** [update_repository_file] *)
Definition update_repository_file (env : Env) (metadata : PluginMetadata) : M unit :=
  let plugin_name := name metadata in
  except_ParseError
    (master_xml_path <- _get_repository_path env metadata ;;
     root <- _load_or_create_xml_tree master_xml_path ;;
     let '(root1, i) := _find_or_create_plugin_node root plugin_name in
     let root2 := on_child i (_update_plugin_node_details metadata) root1 in
     _write_plugin_xml env root2 master_xml_path)
    (raise (ReleaseScriptError "Error processing repository XML.")).

(** *** Packaging *)

Definition is_name_line (line : string) : bool :=
  PyStr.startswith "name=" (PyStr.strip line).

Definition clean_line (plugin_name line : string) : string :=
  if is_name_line line
  then "name=" +:+ plugin_name +:+ String PyStr.LF EmptyString
  else line.

(** [Path("metadata.txt").open(encoding="utf-8")] and [f.read()]: text
    mode, so the newlines of the file are translated. *)
Definition read_metadata_txt (env : Env) : M string :=
  match src_files env !! Path "metadata.txt" with
  | Some on_disk => ret (PyStr.universal_newlines on_disk)
  | None => raise (OSError "No such file or directory: 'metadata.txt'")
  end.

(** [_get_clean_metadata_content] *)
Definition _get_clean_metadata_content (env : Env) (plugin_name : string) : M string :=
  original_content <- read_metadata_txt env ;;
  let lines := PyStr.splitlines original_content in
  let new_lines := map (clean_line plugin_name) lines in
  ret (PyStr.join new_lines).

(** [p.exists()] in the working directory *)
Definition src_exists (env : Env) (p : string) : bool :=
  bool_decide (is_Some (src_files env !! p)) || bool_decide (is_Some (src_dirs env !! p)).

(** [_add_files_to_zip]; the archive object is passed along. *)
Definition _add_files_to_zip (env : Env) (files_ : list string) (plugin_zip_dir : string)
    (clean_metadata_content : string) (zipf : list ZipEntry) : M (list ZipEntry) :=
  for_each files_
    (fun file_str zipf =>
       if String.eqb file_str "metadata.txt" then
         let arcname := joinpath (Path plugin_zip_dir) (Path "metadata.txt") in
         ret (zipf ++ [ZWritestr arcname clean_metadata_content])%list
       else
         let file_path := Path file_str in
         if src_exists env file_path then
           let arcname := joinpath (Path plugin_zip_dir) file_path in
           ret (zipf ++ [ZWrite file_path arcname])%list
         else
           logger_warning (FileNotFound file_path) ;;
           ret zipf)
    zipf.

(** [any(excluded in root for excluded in excluded_dirs)] *)
Definition dir_excluded (excluded_dirs_ : list string) (root : string) : bool :=
  existsb (fun excluded => PyStr.contains excluded root) excluded_dirs_.

(** [any(file.endswith(ext) for ext in excluded_extensions)] *)
Definition ext_excluded (excluded_extensions_ : list string) (file : string) : bool :=
  existsb (fun ext => PyStr.endswith ext file) excluded_extensions_.

(** The entry [_add_directories_to_zip] writes for [file] found in [root]. *)
Definition dir_entry (plugin_zip_dir root file : string) : ZipEntry :=
  let file_path := joinpath (Path root) (Path file) in
  let arcname := joinpath (Path plugin_zip_dir) file_path in
  ZWrite file_path arcname.

(** [_add_directories_to_zip] *)
Definition _add_directories_to_zip (env : Env) (dirs_ : list string)
    (plugin_zip_dir : string) (excluded_dirs_ excluded_extensions_ : list string)
    (zipf : list ZipEntry) : M (list ZipEntry) :=
  for_each dirs_
    (fun dir_str zipf =>
       let dir_path := Path dir_str in
       match src_dirs env !! dir_path with
       | None =>
           logger_warning (DirectoryNotFound dir_path) ;;
           ret zipf
       | Some t =>
           for_each (os_walk dir_path t)
             (fun '(root, _, files_) zipf =>
                if dir_excluded excluded_dirs_ root then ret zipf
                else
                  for_each files_
                    (fun file zipf =>
                       if ext_excluded excluded_extensions_ file then ret zipf
                       else ret (zipf ++ [dir_entry plugin_zip_dir root file])%list)
                    zipf)
             zipf
       end)
    zipf.

Definition name_mismatch_msg (plugin_zip_dir clean_plugin_name : string) : string :=
  "Name mismatch: The hardcoded 'plugin_zip_dir' ('" +:+ plugin_zip_dir +:+
  "') must match the 'name' from 'metadata.txt' with spaces replaced " +:+
  "by underscores ('" +:+ clean_plugin_name +:+ "').".

(** [with zipfile.ZipFile(zip_path, mode="w", ...) as zipf: body] for a
    [zip_path] in [directory]: without the directory the file cannot be
    opened and [FileNotFoundError] is raised; otherwise the file is created
    empty, and holds what [body] added when the block is left. *)
Definition with_ZipFile (directory zip_path : string)
    (body : list ZipEntry -> M (list ZipEntry)) : M unit :=
  fun w =>
    if negb (bool_decide (directory ∈ dirs w)) then
      (Raised (OSError ("No such file or directory: '" +:+ zip_path +:+ "'")), w)
    else
      let w0 := set_files (<[zip_path := Archive []]> (files w)) w in
      match body [] w0 with
      | (Returned zipf, w1) =>
          (Returned tt, set_files (<[zip_path := Archive zipf]> (files w1)) w1)
      | (Raised e, w1) => (Raised e, w1)
      end.

(** [package_plugin] *)
Definition package_plugin (env : Env) (metadata : PluginMetadata) : M unit :=
  let plugin_name := name metadata in
  let clean_plugin_name := PyStr.replace " " "_" plugin_name in
  let plugin_zip_dir := plugin_package_name metadata in
  let files_to_zip := files_to_package metadata in
  let dirs_to_zip := dirs_to_package metadata in
  if negb (String.eqb plugin_zip_dir clean_plugin_name) then
    raise (ReleaseScriptError (name_mismatch_msg plugin_zip_dir clean_plugin_name))
  else
    clean_metadata_content <- _get_clean_metadata_content env plugin_name ;;
    shared_repo_path <- lift (_file_url_to_path (url_base metadata)) ;;
    let zip_path := joinpath shared_repo_path (Path (clean_plugin_name +:+ ".zip")) in
    with_ZipFile shared_repo_path zip_path
      (fun zipf =>
         zipf <- _add_files_to_zip env files_to_zip plugin_zip_dir
                   clean_metadata_content zipf ;;
         _add_directories_to_zip env dirs_to_zip plugin_zip_dir
           (excluded_dirs metadata) (excluded_extensions metadata) zipf).

(** *** Running *)

(** [run_command(["lrelease", ts_file])]: only [CalledProcessError] is
    caught and turned into a [ReleaseScriptError]; the [FileNotFoundError]
    of a program that is not found is not caught. *)
Definition run_command (env : Env) (ts_file : string) : M unit :=
  match lrelease env ts_file with
  | Completed => ret tt
  | ExitNonZero =>
      raise (ReleaseScriptError ("Command 'lrelease " +:+ ts_file +:+ "' failed."))
  | CommandNotFound e => raise (OSError e)
  end.

(** [i18n_dir.glob("*.ts")]: the entries of the directory whose names end
    with [.ts]. [glob] yields them in the order the directory lists them;
    here the files come before the directories. *)
Definition glob_ts (i18n_dir : string) (t : dirtree) : list string :=
  map (fun n => joinpath i18n_dir (Path n))
      (List.filter (PyStr.endswith ".ts") (file_names t ++ map fst (subdirs t))).

(** [compile_translations] *)
Definition compile_translations (env : Env) (metadata : PluginMetadata) : M unit :=
  let i18n_dir := Path (translation_dir metadata) in
  match src_dirs env !! i18n_dir with
  | None => logger_warning (TranslationDirNotFound i18n_dir)
  | Some t =>
      for_each (glob_ts i18n_dir t)
        (fun ts_file (_ : unit) =>
           except_ReleaseScriptError
             (run_command env ts_file)
             (fun _ =>
                raise (ReleaseScriptError
                         ("Failed to compile '" +:+ ts_file +:+
                          "'. Is 'lrelease' in your PATH?"))))
        tt
  end.

Definition release_name_of (original_name : string) : string :=
  PyStr.strip (PyStr.replace "(dev)" "" original_name).

Definition empty_name_msg : string :=
  "Plugin name cannot be empty after removing '(dev)' marker.".

(** [run_release_process] *)
Definition run_release_process (env : Env) : M unit :=
  metadata <- lift (configured env) ;;
  let original_name := name metadata in
  let release_name := release_name_of original_name in
  if String.eqb release_name "" then
    raise (ReleaseScriptError empty_name_msg)
  else
    let metadata :=
      if negb (String.eqb original_name release_name)
      then set_name release_name metadata
      else metadata in
    update_repository_file env metadata ;;
    compile_translations env metadata ;;
    package_plugin env metadata ;;
    _ <- lift (_file_url_to_path (url_base metadata)) ;;
    ret tt.

(** [main]: the exit code; an exception other than [ReleaseScriptError]
    is not caught. *)
Definition main (env : Env) : M nat :=
  fun w =>
    match run_release_process env w with
    | (Returned _, w') => (Returned 0, w')
    | (Raised (ReleaseScriptError _), w') => (Returned 1, w')
    | (Raised e, w') => (Raised e, w')
    end.

End Release.

(** The values [_update_plugin_node_details] gives to the version attribute
    and to the eight child tags. *)
Definition expected_fields (metadata : PluginMetadata) : list (option string) :=
  [ Some (version metadata);
    Some (version metadata);
    Some (changelog metadata);
    Some (description metadata);
    Some (qgis_minimum_version metadata);
    Some (author metadata);
    Some (email metadata);
    Some (zip_filename (name metadata));
    Some (PyStr.rstrip_chars "/" (url_base metadata) +:+ "/" +:+ zip_filename (name metadata)) ].

(** ** Inputs used in the examples *)

Definition demo_metadata : PluginMetadata :=
  {| plugin_package_name := "My_Plugin";
     files_to_package := ["metadata.txt"; "__init__.py"; "missing.txt"];
     dirs_to_package := ["modules"; "i18n"];
     translation_dir := "i18n";
     excluded_dirs := ["__pycache__"];
     excluded_extensions := [".pyc"; ".ts"];
     name := "My Plugin";
     version := "1.2.0";
     changelog := "Fixes";
     description := "A plugin";
     qgis_minimum_version := "3.0";
     author := "UTEC";
     email := "dev@example.org";
     url_base := "file:///srv/repo/" |}.

(** An entry as an earlier release of another plugin left it. *)
Definition other_entry : Element :=
  mkElement "pyqgis_plugin" [("name", "Other Plugin"); ("version", "0.9")] None
    [ mkElement "version" [] (Some "0.9") [];
      mkElement "file_name" [] (Some "Other_Plugin.zip") [];
      mkElement "download_url" [] (Some "file:///srv/repo/Other_Plugin.zip") [] ].

(** An entry of an earlier release of the demo plugin. *)
Definition stale_entry : Element :=
  mkElement "pyqgis_plugin" [("name", "My Plugin"); ("version", "1.1.0")] None
    [ mkElement "version" [] (Some "1.1.0") [];
      mkElement "changelog" [] None [] ].

Definition demo_manifest : Element :=
  mkElement "plugins" [] None [other_entry; stale_entry].

(** A manifest that has two entries of the demo plugin. *)
Definition duplicate_manifest : Element :=
  mkElement "plugins" [] None [stale_entry; other_entry; stale_entry].

(** A runtime for the examples: URLs of the shape [scheme:rest] with an
    optional [//netloc] before the path, nothing to unquote, paths that need
    no more than their trailing slashes removed, XML written without
    escapes, and a parser that reads back the documents of the examples. *)
Fixpoint split_at (sep : ascii) (seen s : string) : option (string * string) :=
  match s with
  | EmptyString => None
  | String c s' =>
      if Ascii.eqb c sep then Some (seen, s')
      else split_at sep (seen +:+ String c EmptyString) s'
  end.

Definition demo_urlparse (url : string) : ParseResult :=
  match split_at ":" "" url with
  | Some (sch, String "/" (String "/" rest)) =>
      match split_at "/" "" rest with
      | Some (host, p) => mkParseResult sch host (String "/" p)
      | None => mkParseResult sch rest ""
      end
  | Some (sch, rest) => mkParseResult sch "" rest
  | None => mkParseResult "" "" url
  end.

Fixpoint demo_xml_write (e : Element) : string :=
  match e with
  | mkElement t a x c =>
      "<" +:+ t +:+
      PyStr.join (map (fun kv => " " +:+ fst kv +:+ "='" +:+ snd kv +:+ "'") a) +:+ ">" +:+
      default "" x +:+
      PyStr.join (map demo_xml_write c) +:+
      "</" +:+ t +:+ ">"
  end.

(** The documents of the examples: the manifests and their updates. *)
Definition demo_documents : list Element :=
  [ mkElement "plugins" [] None [];
    demo_manifest;
    duplicate_manifest;
    update_plugin_entry demo_metadata (mkElement "plugins" [] None []);
    update_plugin_entry demo_metadata demo_manifest;
    update_plugin_entry demo_metadata duplicate_manifest ].

Definition demo_xml_parse (content : string) : option Element :=
  List.find (fun doc => String.eqb content (demo_xml_write doc)) demo_documents.

Definition demo_Path (s : string) : string :=
  match PyStr.rstrip_chars "/" s with
  | EmptyString => if String.eqb s "" then "." else "/"
  | p => p
  end.

Definition demo_runtime : PyRuntime :=
  {| urlparse := demo_urlparse;
     unquote := fun s => s;
     url2pathname := fun s => s;
     Path := demo_Path;
     xml_write := demo_xml_write;
     xml_parse := demo_xml_parse;
     xml_forbidden := PyStr.contains "<!ENTITY" |}.

Definition demo_tree : dirtree :=
  DirTree ["context.py"; "context.pyc"]
    [ ("__pycache__", DirTree ["context.cpython-312.pyc"; "notes.txt"]
                        [("deep", DirTree ["inner.py"] [])]);
      ("ui", DirTree ["dialog.py"] []) ].

Definition demo_metadata_txt : string :=
  "[general]" +:+ String PyStr.CR (String PyStr.LF "") +:+
  "name=My Plugin (dev)" +:+ String PyStr.CR (String PyStr.LF "") +:+
  "version=1.2.0" +:+ String PyStr.CR (String PyStr.LF "").

Definition demo_env : Env :=
  {| src_files := {[ "metadata.txt" := demo_metadata_txt; "__init__.py" := "" ]};
     src_dirs := {[ "modules" := demo_tree ]};
     configured := Returned demo_metadata;
     mkstemp_token := "k3x9q_ab";
     mkdir_error := None;
     write_error := None;
     replace_error := None;
     lrelease := fun _ => Completed |}.

(** The shared repository with a manifest from an earlier run. *)
Definition demo_world : World :=
  {| files := {[ "/srv/repo/plugins.xml" := Text "<plugins></plugins>" ]};
     dirs := {[ "/srv"; "/srv/repo" ]};
     warnings := [] |}.

(** The outside of a run whose [tree.write] fails half way. *)
Definition failing_write_env : Env :=
  {| src_files := ∅; src_dirs := ∅; configured := Returned demo_metadata;
     mkstemp_token := "k3x9q_ab";
     mkdir_error := None;
     write_error := Some (WriteFails "<?xml version='1.0'" "No space left on device");
     replace_error := None;
     lrelease := fun _ => Completed |}.


(** The demo plugin with a base URL that is not a [file://] URL. *)
Definition http_metadata : PluginMetadata :=
  {| plugin_package_name := "My_Plugin";
     files_to_package := files_to_package demo_metadata;
     dirs_to_package := dirs_to_package demo_metadata;
     translation_dir := "i18n";
     excluded_dirs := excluded_dirs demo_metadata;
     excluded_extensions := excluded_extensions demo_metadata;
     name := "My Plugin";
     version := "1.2.0";
     changelog := "Fixes";
     description := "A plugin";
     qgis_minimum_version := "3.0";
     author := "UTEC";
     email := "dev@example.org";
     url_base := "https://example.org/plugins" |}.

(** The same, with a package name that does not fit the plugin's name. *)
Definition mismatch_metadata : PluginMetadata :=
  {| plugin_package_name := "Other";
     files_to_package := files_to_package demo_metadata;
     dirs_to_package := dirs_to_package demo_metadata;
     translation_dir := "i18n";
     excluded_dirs := excluded_dirs demo_metadata;
     excluded_extensions := excluded_extensions demo_metadata;
     name := "My Plugin";
     version := "1.2.0";
     changelog := "Fixes";
     description := "A plugin";
     qgis_minimum_version := "3.0";
     author := "UTEC";
     email := "dev@example.org";
     url_base := "https://example.org/plugins" |}.

(** A configuration whose name carries the development marker. *)
Definition dev_metadata : PluginMetadata := set_name "My Plugin (dev)" demo_metadata.

Definition dev_env : Env :=
  {| src_files := src_files demo_env;
     src_dirs := src_dirs demo_env;
     configured := Returned dev_metadata;
     mkstemp_token := "k3x9q_ab";
     mkdir_error := None;
     write_error := None;
     replace_error := None;
     lrelease := fun _ => Completed |}.

(** ** What the packager is to do, in the words of its contract *)

Definition log_warnings (l : list Warning) (w : World) : World :=
  mkWorld (files w) (dirs w) (warnings w ++ l).

(** Every directory of a tree with its path, the top included. *)
Fixpoint subtrees (top : string) (t : dirtree) : list (string * dirtree) :=
  match t with
  | DirTree _ ds =>
      (top, t) :: flat_map (fun d => subtrees (os_path_join top (fst d)) (snd d)) ds
  end.

(** The names in a directory listing hold no separator. *)
Definition name_ok (n : string) : bool := negb (PyStr.contains "/" n).

Fixpoint wf_dirtree (t : dirtree) : bool :=
  match t with
  | DirTree fs ds =>
      forallb name_ok fs &&
      forallb (fun d => name_ok (fst d) && wf_dirtree (snd d)) ds
  end.

Section PackagerContract.

Context `{PyRuntime}.

(** What one item of [files_to_package] adds to the archive. *)
Definition listed_file_entries (env : Env) (plugin_zip_dir clean_metadata_content : string)
    (file_str : string) : list ZipEntry :=
  if String.eqb file_str "metadata.txt" then
    [ZWritestr (joinpath (Path plugin_zip_dir) (Path "metadata.txt"))
       clean_metadata_content]
  else if src_exists env (Path file_str) then
    [ZWrite (Path file_str) (joinpath (Path plugin_zip_dir) (Path file_str))]
  else [].

(** The warning one item of [files_to_package] causes. *)
Definition listed_file_warnings (env : Env) (file_str : string) : list Warning :=
  if String.eqb file_str "metadata.txt" then []
  else if src_exists env (Path file_str) then []
  else [FileNotFound (Path file_str)].

(** The files met on the walks of the listed directories, each with the
    path of the directory it is in, in the order they are met. *)
Definition encountered (env : Env) (dirs_ : list string) : list (string * string) :=
  flat_map
    (fun dir_str =>
       match src_dirs env !! Path dir_str with
       | Some t =>
           flat_map (fun '(root, _, files_) => map (pair root) files_)
                    (os_walk (Path dir_str) t)
       | None => []
       end)
    dirs_.

(** The condition of the contract: no excluded directory name occurs in
    the path of the containing directory, and the file name ends with no
    excluded extension. *)
Definition kept (excluded_dirs_ excluded_extensions_ : list string)
    (met : string * string) : bool :=
  negb (dir_excluded excluded_dirs_ (fst met)) &&
  negb (ext_excluded excluded_extensions_ (snd met)).

(** The warnings for the listed directories that are not there. *)
Definition missing_dir_warnings (env : Env) (dirs_ : list string) : list Warning :=
  flat_map
    (fun dir_str =>
       match src_dirs env !! Path dir_str with
       | Some _ => []
       | None => [DirectoryNotFound (Path dir_str)]
       end)
    dirs_.

(** C9 in its own words: the lines of the file's content, each name line
    replaced, every other line as it is in the file. *)
Definition claimed_clean_content (plugin_name on_disk : string) : string :=
  PyStr.join (map (clean_line plugin_name) (PyStr.splitlines on_disk)).

End PackagerContract.

Definition lf : string := String PyStr.LF "".
Definition cr : string := String PyStr.CR "".
Definition crlf : string := String PyStr.CR (String PyStr.LF "").

(** Whether a character ends a line for [str.splitlines]. *)
Definition ends_line (c : ascii) : bool := Ascii.eqb c PyStr.CR || PyStr.is_linebreak c.

(** A line as [str.splitlines(keepends=True)] gives them: characters that
    end no line, then nothing more or one line ending (CR LF counts as
    one), and not empty. *)
Fixpoint is_line (l : string) : bool :=
  match l with
  | EmptyString => false
  | String c l' =>
      if ends_line c
      then String.eqb l' "" || (Ascii.eqb c PyStr.CR && String.eqb l' lf)
      else String.eqb l' "" || is_line l'
  end.

(** A piece of text in which no line ends. *)
Fixpoint plain (s : string) : bool :=
  match s with
  | EmptyString => true
  | String c s' => negb (ends_line c) && plain s'
  end.

(** The characters of a string changed one by one. *)
Fixpoint map_chars (f : ascii -> ascii) (s : string) : string :=
  match s with
  | EmptyString => EmptyString
  | String c s' => String (f c) (map_chars f s')
  end.

Definition underscore_for_space (c : ascii) : ascii :=
  if Ascii.eqb c " " then "_"%char else c.

(** [k] slashes. *)
Fixpoint slashes (k : nat) : string :=
  match k with
  | O => EmptyString
  | S k' => String "/" (slashes k')
  end.

(** Whether a string has a white-space character at one of its ends. *)
Definition starts_with_space (s : string) : bool :=
  match s with
  | EmptyString => false
  | String c _ => PyStr.is_space c
  end.

Fixpoint ends_with_space (s : string) : bool :=
  match s with
  | EmptyString => false
  | String c EmptyString => PyStr.is_space c
  | String _ s' => ends_with_space s'
  end.


(** The outside of a run whose rename fails. *)
Definition failing_rename_env : Env :=
  {| src_files := ∅; src_dirs := ∅; configured := Returned demo_metadata;
     mkstemp_token := "k3x9q_ab";
     mkdir_error := None;
     write_error := None;
     replace_error := Some "Permission denied";
     lrelease := fun _ => Completed |}.

(** ** The metadata reader *)

Module Str.

(** [c.lower()] on one character (code points below 256): the letters A to
    Z and the capital letters of Latin-1. *)
Definition lower_char (c : ascii) : ascii :=
  let n := nat_of_ascii c in
  if Nat.leb 65 n && Nat.leb n 90 then ascii_of_nat (n + 32)
  else if Nat.leb 192 n && Nat.leb n 222 && negb (Nat.eqb n 215) then ascii_of_nat (n + 32)
  else c.

(** [s.lower()] *)
Fixpoint lower (s : string) : string :=
  match s with
  | EmptyString => EmptyString
  | String c s' => String (lower_char c) (lower s')
  end.

(** [s.split()]: [cur] is the token read so far. *)
Fixpoint split_from (cur s : string) : list string :=
  match s with
  | EmptyString =>
      match cur with EmptyString => [] | String _ _ => [cur] end
  | String c s' =>
      if PyStr.is_space c then
        match cur with
        | EmptyString => split_from EmptyString s'
        | String _ _ => cur :: split_from EmptyString s'
        end
      else split_from (cur +:+ String c EmptyString) s'
  end.

Definition split (s : string) : list string := split_from EmptyString s.

(** [s.split(sep)] for a separator of one character. *)
Fixpoint split_on_from (sep : ascii) (cur s : string) : list string :=
  match s with
  | EmptyString => [cur]
  | String c s' =>
      if Ascii.eqb c sep then cur :: split_on_from sep EmptyString s'
      else split_on_from sep (cur +:+ String c EmptyString) s'
  end.

Definition split_on (sep : ascii) (s : string) : list string :=
  split_on_from sep EmptyString s.

End Str.

(** What [config.read] leaves in a [ConfigParser]: the options of the
    [DEFAULT] section and those of the other sections, the option names in
    lower case. *)
Record ConfigParser := mkConfigParser {
  _defaults : gmap string string;
  _sections : gmap string (gmap string string)
}.

Inductive ConfigError : Type :=
  | NoSectionError (section : string)
  | NoOptionError (opt section : string).

(** [config.get(section, option)] with [interpolation=None]: the option is
    looked up in lower case, in the section first and in [DEFAULT] next. *)
Definition config_get (config : ConfigParser) (section opt : string)
  : string + ConfigError :=
  match
    match _sections config !! section with
    | Some sectiondict => Some sectiondict
    | None => if String.eqb section "DEFAULT" then Some ∅ else None
    end
  with
  | None => inr (NoSectionError section)
  | Some sectiondict =>
      let opt := Str.lower opt in
      match sectiondict !! opt with
      | Some value => inl value
      | None =>
          match _defaults config !! opt with
          | Some value => inl value
          | None => inr (NoOptionError opt section)
          end
      end
  end.

(** The options [get_plugin_metadata] reads, in the order it reads them. *)
Definition required_options : list (string * string) :=
  [ ("release", "plugin_package_name"); ("release", "files_to_package");
    ("release", "dirs_to_package"); ("release", "translation_dir");
    ("release", "excluded_dirs"); ("release", "excluded_extensions");
    ("general", "name"); ("general", "version"); ("general", "changelog");
    ("general", "description"); ("general", "qgisMinimumVersion");
    ("general", "author"); ("general", "email"); ("general", "download_url_base") ].

Definition config_error_msg (e : ConfigError) : string :=
  match e with
  | NoSectionError section =>
      "Could not find required section '[" +:+ section +:+ "]' in metadata.txt."
  | NoOptionError opt section =>
      "Missing required key '" +:+ opt +:+ "' in section '[" +:+ section +:+
      "]' in metadata.txt."
  end.

(** Sequencing of reads that may raise. *)
Definition and_then {A B} (r : A + ConfigError) (k : A -> B + ConfigError)
  : B + ConfigError :=
  match r with
  | inl a => k a
  | inr e => inr e
  end.

(** The dictionary display of [get_plugin_metadata]: its values are
    evaluated from top to bottom. *)
Definition read_metadata (config : ConfigParser) : PluginMetadata + ConfigError :=
  and_then (config_get config "release" "plugin_package_name") (fun v1 =>
  and_then (config_get config "release" "files_to_package") (fun v2 =>
  and_then (config_get config "release" "dirs_to_package") (fun v3 =>
  and_then (config_get config "release" "translation_dir") (fun v4 =>
  and_then (config_get config "release" "excluded_dirs") (fun v5 =>
  and_then (config_get config "release" "excluded_extensions") (fun v6 =>
  and_then (config_get config "general" "name") (fun v7 =>
  and_then (config_get config "general" "version") (fun v8 =>
  and_then (config_get config "general" "changelog") (fun v9 =>
  and_then (config_get config "general" "description") (fun v10 =>
  and_then (config_get config "general" "qgisMinimumVersion") (fun v11 =>
  and_then (config_get config "general" "author") (fun v12 =>
  and_then (config_get config "general" "email") (fun v13 =>
  and_then (config_get config "general" "download_url_base") (fun v14 =>
  inl {| plugin_package_name := v1;
         files_to_package := Str.split v2;
         dirs_to_package := Str.split v3;
         translation_dir := v4;
         excluded_dirs := Str.split v5;
         excluded_extensions := Str.split v6;
         name := v7;
         version := v8;
         changelog := v9;
         description := v10;
         qgis_minimum_version := v11;
         author := v12;
         email := v13;
         url_base := v14 |})))))))))))))).

(** What [config.read(metadata_path, encoding="utf-8")] does: it fills the
    parser, or it raises (a [configparser.Error] for a file that is no INI
    file, a [UnicodeDecodeError] for one that is not UTF-8). A parser stands
    for the read that filled it. *)
Inductive ConfigRead : Type :=
  | ReadOk (config : ConfigParser)
  | ReadRaises (e : Exn).

Coercion ReadOk : ConfigParser >-> ConfigRead.

(** [get_plugin_metadata]: [metadata_exists] is [metadata_path.exists()],
    [read] what [config.read(metadata_path)] does. The read is not inside
    the [try], so what it raises is raised by the function. *)
Definition get_plugin_metadata (metadata_exists : bool) (read : ConfigRead)
  : Outcome PluginMetadata :=
  if negb metadata_exists then
    Raised (ReleaseScriptError "Metadata file not found at 'metadata.txt'")
  else
    match read with
    | ReadRaises e => Raised e
    | ReadOk config =>
        match read_metadata config with
        | inl metadata => Returned metadata
        | inr e => Raised (ReleaseScriptError (config_error_msg e))
        end
    end.

(** A token of a list-valued option: not empty, no white space in it. *)
Fixpoint no_space (s : string) : bool :=
  match s with
  | EmptyString => true
  | String c s' => negb (PyStr.is_space c) && no_space s'
  end.

Definition is_token (s : string) : bool :=
  negb (String.eqb s "") && no_space s.

(** A value that is empty or holds white space only. *)
Fixpoint blank (s : string) : bool :=
  match s with
  | EmptyString => true
  | String c s' => PyStr.is_space c && blank s'
  end.

(** The tokens of a list, one space between two of them. *)
Fixpoint unwords (tokens : list string) : string :=
  match tokens with
  | [] => EmptyString
  | [t] => t
  | t :: rest => t +:+ " " +:+ unwords rest
  end.

(** The value of an option as the file gives it: in the section, else in
    [DEFAULT]. *)
Definition option_value (config : ConfigParser) (section opt : string)
  : option string :=
  match config_get config section opt with
  | inl value => Some value
  | inr _ => None
  end.

(** A configuration of the demo plugin. *)
Definition demo_config : ConfigParser :=
  {| _defaults := ∅;
     _sections :=
       {[ "general" :=
            {[ "name" := "My Plugin (dev)"; "version" := "1.2.0"; "changelog" := "Fixes";
               "description" := "A plugin"; "qgisminimumversion" := "3.0";
               "author" := "UTEC"; "email" := "dev@example.org";
               "download_url_base" := "file:///srv/repo/" ]};
          "release" :=
            {[ "plugin_package_name" := "My_Plugin";
               "files_to_package" := "metadata.txt __init__.py" +:+ lf +:+ "missing.txt";
               "dirs_to_package" := "modules i18n";
               "translation_dir" := "i18n";
               "excluded_dirs" := "__pycache__";
               "excluded_extensions" := ".pyc .ts" ]} ]} |}.

(** The same without the [email] key. *)
Definition demo_config_without_email : ConfigParser :=
  {| _defaults := ∅;
     _sections :=
       {[ "general" :=
            {[ "name" := "My Plugin (dev)"; "version" := "1.2.0"; "changelog" := "Fixes";
               "description" := "A plugin"; "qgisminimumversion" := "3.0";
               "author" := "UTEC";
               "download_url_base" := "file:///srv/repo/" ]};
          "release" := default ∅ (_sections demo_config !! "release") ]} |}.
(** The first of the given options that cannot be read, with the error
    reading it raises. *)
Fixpoint first_error (config : ConfigParser) (options : list (string * string))
  : option ConfigError :=
  match options with
  | [] => None
  | (section, opt) :: rest =>
      match config_get config section opt with
      | inr e => Some e
      | inl _ => first_error config rest
      end
  end.

(** Two elements that differ in their text at most. *)
Definition same_but_text (c c' : Element) : Prop :=
  tag c' = tag c /\ attrib c' = attrib c /\ children c' = children c.

(** The root [_load_or_create_xml_tree] makes when there is no manifest. *)
Definition empty_manifest : Element := mkElement "plugins" [] None [].

(** A repository that holds nothing yet. *)
Definition empty_world : World := {| files := ∅; dirs := ∅; warnings := [] |}.

(** A working directory with two translations, and the outside of a run in
    which the second does not compile, and of one without [lrelease]. *)
Definition ts_dirs : gmap string dirtree :=
  {[ "i18n" := DirTree ["de.ts"; "de.qm"; "fr.ts"; "README"] [] ]}.

Definition failing_lrelease_env : Env :=
  {| src_files := src_files demo_env;
     src_dirs := ts_dirs;
     configured := Returned demo_metadata;
     mkstemp_token := "k3x9q_ab";
     mkdir_error := None;
     write_error := None;
     replace_error := None;
     lrelease := fun ts_file =>
       if String.eqb ts_file "i18n/fr.ts" then ExitNonZero else Completed |}.

Definition missing_lrelease_env : Env :=
  {| src_files := src_files demo_env;
     src_dirs := ts_dirs;
     configured := Returned demo_metadata;
     mkstemp_token := "k3x9q_ab";
     mkdir_error := None;
     write_error := None;
     replace_error := None;
     lrelease := fun _ => CommandNotFound "No such file or directory: 'lrelease'" |}.


(** A repository whose manifest declares an entity. *)
Definition entity_world : World :=
  {| files := {[ "/srv/repo/plugins.xml" :=
                   Text "<!DOCTYPE plugins [<!ENTITY a 'b'>]><plugins></plugins>" ]};
     dirs := {[ "/srv"; "/srv/repo" ]};
     warnings := [] |}.

(** A repository whose manifest is not XML. *)
Definition broken_world : World :=
  {| files := {[ "/srv/repo/plugins.xml" := Text "<plugins><pyqgis_plugin" ]};
     dirs := {[ "/srv"; "/srv/repo" ]};
     warnings := [] |}.

(** ** The packaging and the whole run *)

Section ReleaseRun.

Context `{PyRuntime}.

(** The text [package_plugin] puts in the archive as [metadata.txt]. *)
Definition cleaned_metadata (plugin_name on_disk : string) : string :=
  PyStr.join (map (clean_line plugin_name)
                  (PyStr.splitlines (PyStr.universal_newlines on_disk))).

(** The path of the archive [package_plugin] writes. *)
Definition archive_path (shared_repo_path : string) (metadata : PluginMetadata) : string :=
  joinpath shared_repo_path (Path (PyStr.replace " " "_" (name metadata) +:+ ".zip")).

(** The entries of the archive: the listed files, then the files met in the
    listed directories that pass the filter. *)
Definition archive_entries (env : Env) (metadata : PluginMetadata) (clean : string)
  : list ZipEntry :=
  (flat_map (listed_file_entries env (plugin_package_name metadata) clean)
     (files_to_package metadata) ++
   map (fun met => dir_entry (plugin_package_name metadata) (fst met) (snd met))
     (List.filter (kept (excluded_dirs metadata) (excluded_extensions metadata))
        (encountered env (dirs_to_package metadata))))%list.

(** The warnings of the packaging. *)
Definition archive_warnings (env : Env) (metadata : PluginMetadata) : list Warning :=
  (flat_map (listed_file_warnings env) (files_to_package metadata) ++
   missing_dir_warnings env (dirs_to_package metadata))%list.

(** The warning of [compile_translations]. *)
Definition translation_warnings (env : Env) (metadata : PluginMetadata) : list Warning :=
  match src_dirs env !! Path (translation_dir metadata) with
  | Some _ => []
  | None => [TranslationDirNotFound (Path (translation_dir metadata))]
  end.

(** The error [compile_translations] raises for a file that does not
    compile. *)
Definition compile_failed_msg (ts_file : string) : string :=
  "Failed to compile '" +:+ ts_file +:+ "'. Is 'lrelease' in your PATH?".

(** The name of the file [lrelease] writes for a translation file: [.qm]
    in place of the last three characters, [.ts]. *)
Definition qm_name (ts_name : string) : string :=
  String.substring 0 (String.length ts_name - 3) ts_name +:+ ".qm".

(** Whether [lrelease] does not complete on a file, and what
    [compile_translations] raises for it then. *)
Definition not_compiled (env : Env) (ts_file : string) : bool :=
  match lrelease env ts_file with
  | Completed => false
  | _ => true
  end.

Definition compile_exception (env : Env) (ts_file : string) : Exn :=
  match lrelease env ts_file with
  | CommandNotFound e => OSError e
  | _ => ReleaseScriptError (compile_failed_msg ts_file)
  end.

End ReleaseRun.

(** The [PATH] [run_command] gives to the subprocess: the directory of the
    interpreter is put in front of the [PATH] of the environment unless it
    is one of its entries, and is the whole [PATH] where the environment
    has none. *)
Definition subprocess_path (pathsep : ascii) (python_bin_dir : string)
    (env_path : option string) : string :=
  match env_path with
  | Some path =>
      if negb (existsb (String.eqb python_bin_dir) (Str.split_on pathsep path))
      then python_bin_dir +:+ String pathsep path
      else path
  | None => python_bin_dir
  end.

(** [c not in s] *)
Fixpoint no_char (c : ascii) (s : string) : bool :=
  match s with
  | EmptyString => true
  | String a s' => negb (Ascii.eqb a c) && no_char c s'
  end.

(** The demo plugin with a package name that does not fit its name. *)
Definition misnamed_metadata : PluginMetadata :=
  {| plugin_package_name := "Other";
     files_to_package := files_to_package demo_metadata;
     dirs_to_package := dirs_to_package demo_metadata;
     translation_dir := translation_dir demo_metadata;
     excluded_dirs := excluded_dirs demo_metadata;
     excluded_extensions := excluded_extensions demo_metadata;
     name := name demo_metadata;
     version := version demo_metadata;
     changelog := changelog demo_metadata;
     description := description demo_metadata;
     qgis_minimum_version := qgis_minimum_version demo_metadata;
     author := author demo_metadata;
     email := email demo_metadata;
     url_base := url_base demo_metadata |}.

(** A run configured with it. *)
Definition misnamed_env : Env :=
  {| src_files := src_files demo_env;
     src_dirs := src_dirs demo_env;
     configured := Returned misnamed_metadata;
     mkstemp_token := "k3x9q_ab";
     mkdir_error := None;
     write_error := None;
     replace_error := None;
     lrelease := fun _ => Completed |}.

(** * Properties *)

Local Open Scope list_scope.

(** ** Appending strings *)

Lemma append_cons (c : ascii) (a b : string) : String c a +:+ b = String c (a +:+ b).
Proof. reflexivity. Qed.

Lemma append_assoc (a b c : string) : (a +:+ b) +:+ c = a +:+ (b +:+ c).
Proof.
  induction a as [|x a IH]; [reflexivity|]. rewrite !append_cons. now rewrite IH.
Qed.

Lemma append_nil_r (a : string) : a +:+ "" = a.
Proof. induction a as [|x a IH]; [reflexivity|]. rewrite append_cons. now rewrite IH. Qed.

(** ** Python string methods *)

Example replace_spaces : PyStr.replace " " "_" "My Plugin Name" = "My_Plugin_Name".
Proof. reflexivity. Qed.

Example replace_marker : PyStr.strip (PyStr.replace "(dev)" "" "Demo (dev)") = "Demo".
Proof. reflexivity. Qed.

Example replace_marker_twice :
  PyStr.strip (PyStr.replace "(dev)" "" " (dev) My (dev)Plugin ") = "My Plugin".
Proof. reflexivity. Qed.

Example replace_nested_marker : PyStr.replace "(dev)" "" "(d(dev)ev)" = "(dev)".
Proof. reflexivity. Qed.

Example replace_empty_old : PyStr.replace "" "-" "abc" = "-a-b-c-".
Proof. reflexivity. Qed.

Example rstrip_slashes : PyStr.rstrip_chars "/" "file:///srv/repo//" = "file:///srv/repo".
Proof. reflexivity. Qed.

Example splitlines_mixed :
  PyStr.splitlines ("a" +:+ crlf +:+ "b" +:+ lf +:+ cr +:+ "c")
  = ["a" +:+ crlf; "b" +:+ lf; cr; "c"].
Proof. reflexivity. Qed.

Example universal_newlines_mixed :
  PyStr.universal_newlines ("a" +:+ crlf +:+ "b" +:+ cr +:+ "c" +:+ lf)
  = "a" +:+ lf +:+ "b" +:+ lf +:+ "c" +:+ lf.
Proof. reflexivity. Qed.

(** Replacing the space by the underscore changes the spaces one by one. *)
Lemma replace_space_underscore (s : string) :
  PyStr.replace " " "_" s = map_chars underscore_for_space s.
Proof.
  unfold PyStr.replace. induction s as [|c s IH]; [reflexivity|].
  cbn [PyStr.replace_scan map_chars PyStr.startswith]. rewrite andb_true_r.
  unfold underscore_for_space at 1. rewrite Ascii.eqb_sym.
  destruct (Ascii.eqb c " "); simpl; now rewrite IH.
Qed.

(** A string without the old text is not changed by [replace]. *)
Lemma replace_absent (old new s : string) :
  old <> "" -> PyStr.contains old s = false -> PyStr.replace old new s = s.
Proof.
  intros Hold. unfold PyStr.replace. destruct old as [|o old]; [easy|].
  induction s as [|c s IH]; [reflexivity|].
  cbn [PyStr.contains]. intros Hc. apply orb_false_iff in Hc. destruct Hc as [Hhead Htail].
  cbn [PyStr.replace_scan]. rewrite Hhead. now rewrite IH.
Qed.

(** [rstrip] takes characters of the set off the end, and only those. *)
Lemma rstrip_by_cons (p : ascii -> bool) (c : ascii) (s : string) :
  PyStr.rstrip_by p (String c s)
  = match PyStr.rstrip_by p s with
    | EmptyString => if p c then EmptyString else String c EmptyString
    | String d r => String c (String d r)
    end.
Proof. reflexivity. Qed.

Lemma rstrip_by_idempotent (p : ascii -> bool) (s : string) :
  PyStr.rstrip_by p (PyStr.rstrip_by p s) = PyStr.rstrip_by p s.
Proof.
  induction s as [|c s IH]; [reflexivity|]. rewrite rstrip_by_cons.
  destruct (PyStr.rstrip_by p s) as [|d r] eqn:Hr.
  - destruct (p c) eqn:Hc; [reflexivity|]. rewrite rstrip_by_cons. simpl. now rewrite Hc.
  - rewrite rstrip_by_cons. now rewrite IH.
Qed.

Lemma endswith_cons (suf : string) (c : ascii) (s : string) :
  PyStr.endswith suf (String c s)
  = String.eqb (String c s) suf || PyStr.endswith suf s.
Proof. reflexivity. Qed.

Lemma rstrip_slash_spec (s : string) :
  exists k,
    s = PyStr.rstrip_chars "/" s +:+ slashes k /\
    PyStr.endswith "/" (PyStr.rstrip_chars "/" s) = false.
Proof.
  unfold PyStr.rstrip_chars. simpl list_ascii_of_string.
  induction s as [|c s (k & Hk & Hend)].
  - exists 0. split; reflexivity.
  - cbn [PyStr.rstrip_by].
    destruct (PyStr.rstrip_by (fun c0 => existsb (Ascii.eqb c0) ["/"%char]) s) as [|d r] eqn:Hr.
    + cbn [existsb]. rewrite orb_false_r.
      destruct (Ascii.eqb_spec c "/") as [->|Hc].
      * exists (S k). split; [|reflexivity].
        change (String "/" s = String "/" ("" +:+ slashes k)). f_equal. exact Hk.
      * exists k. split; [rewrite append_cons; f_equal; exact Hk|].
        cbn [PyStr.endswith]. apply Ascii.eqb_neq in Hc.
        cbn [String.eqb]. rewrite Hc. reflexivity.
    + exists k. split; [rewrite append_cons; f_equal; exact Hk|].
      rewrite endswith_cons, Hend.
      cbn [String.eqb]. now destruct (Ascii.eqb c "/").
Qed.

(** [strip] leaves no white space at either end, and changes nothing in a
    string that has none there. *)
Lemma lstrip_no_leading (s : string) : starts_with_space (PyStr.lstrip s) = false.
Proof.
  induction s as [|c s IH]; [reflexivity|]. simpl.
  destruct (PyStr.is_space c) eqn:Hc; [exact IH|]. simpl. exact Hc.
Qed.

Lemma rstrip_no_trailing (s : string) : ends_with_space (PyStr.rstrip s) = false.
Proof.
  unfold PyStr.rstrip. induction s as [|c s IH]; [reflexivity|].
  rewrite rstrip_by_cons.
  destruct (PyStr.rstrip_by PyStr.is_space s) as [|d r].
  - destruct (PyStr.is_space c) eqn:Hc; [reflexivity|]. simpl. exact Hc.
  - exact IH.
Qed.

Lemma rstrip_keeps_head (s : string) :
  starts_with_space s = false -> starts_with_space (PyStr.rstrip s) = false.
Proof.
  unfold PyStr.rstrip. destruct s as [|c s]; [reflexivity|].
  intros Hc. change (PyStr.is_space c = false) in Hc. rewrite rstrip_by_cons.
  destruct (PyStr.rstrip_by PyStr.is_space s); [rewrite Hc|]; exact Hc.
Qed.

Lemma strip_trimmed (s : string) :
  starts_with_space (PyStr.strip s) = false /\ ends_with_space (PyStr.strip s) = false.
Proof.
  unfold PyStr.strip. split.
  - apply rstrip_keeps_head, lstrip_no_leading.
  - apply rstrip_no_trailing.
Qed.

Lemma lstrip_fixed (s : string) : starts_with_space s = false -> PyStr.lstrip s = s.
Proof. destruct s as [|c s]; [reflexivity|]. simpl. now intros ->. Qed.

Lemma rstrip_fixed (s : string) : ends_with_space s = false -> PyStr.rstrip s = s.
Proof.
  unfold PyStr.rstrip. induction s as [|c s IH]; [reflexivity|].
  rewrite rstrip_by_cons. destruct s as [|d r].
  - simpl. now intros ->.
  - intros Hend. rewrite IH by exact Hend. reflexivity.
Qed.

Lemma strip_fixed (s : string) :
  starts_with_space s = false -> ends_with_space s = false -> PyStr.strip s = s.
Proof.
  intros Hs He. unfold PyStr.strip. rewrite (lstrip_fixed _ Hs). now apply rstrip_fixed.
Qed.

(** ** Searching and altering lists *)

Lemma find_index_alter {A} (p : A -> bool) (f : A -> A) (i : nat) (l : list A) :
  (forall x, p (f x) = p x) ->
  find_index p (alter f i l) = find_index p l.
Proof.
  intros Hp. revert i. unfold alter.
  induction l as [|x l IH]; intros [|i]; simpl; try reflexivity.
  - now rewrite Hp.
  - now rewrite IH.
Qed.

Lemma find_index_lookup {A} (p : A -> bool) (l : list A) (i : nat) :
  find_index p l = Some i -> exists x, l !! i = Some x /\ p x = true.
Proof.
  revert i. induction l as [|x l IH]; intros i; simpl; [discriminate|].
  destruct (p x) eqn:Hx.
  - intros [= <-]. exists x. split; [reflexivity | assumption].
  - destruct (find_index p l) as [k|]; simpl; [|discriminate].
    intros [= <-]. destruct (IH k eq_refl) as (y & Hy & Hpy). now exists y.
Qed.

Lemma find_index_first {A} (p : A -> bool) (l : list A) (i j : nat) (x : A) :
  find_index p l = Some i -> l !! j = Some x -> p x = true -> i <= j.
Proof.
  revert i j. induction l as [|y l IH]; intros i j; simpl; [discriminate|].
  destruct (p y) eqn:Hy.
  - intros [= <-] _ _. lia.
  - destruct (find_index p l) as [k|] eqn:Hk; simpl; [|discriminate].
    intros [= <-]. destruct j as [|j]; simpl.
    + intros [= ->]. congruence.
    + intros Hj Hx. specialize (IH k j eq_refl Hj Hx). lia.
Qed.

Lemma find_index_None {A} (p : A -> bool) (l : list A) :
  find_index p l = None -> List.filter p l = [].
Proof.
  induction l as [|x l IH]; simpl; [reflexivity|].
  destruct (p x); [discriminate|].
  destruct (find_index p l); [discriminate|]. intros _. now apply IH.
Qed.

Lemma find_index_app {A} (p : A -> bool) (l1 l2 : list A) :
  find_index p (l1 ++ l2) =
  match find_index p l1 with
  | Some i => Some i
  | None => (fun j => length l1 + j) <$> find_index p l2
  end.
Proof.
  induction l1 as [|x l1 IH]; simpl.
  - now destruct (find_index p l2).
  - destruct (p x); [reflexivity|]. rewrite IH.
    destruct (find_index p l1); [reflexivity|].
    now destruct (find_index p l2).
Qed.

Lemma alter_fixed {A} (f : A -> A) (i : nat) (l : list A) (x : A) :
  l !! i = Some x -> f x = x -> alter f i l = l.
Proof.
  revert i. unfold alter.
  induction l as [|y l IH]; intros [|i]; simpl; try discriminate.
  - intros [= ->] Hf. now rewrite Hf.
  - intros Hi Hf. f_equal. now apply IH.
Qed.


Lemma filter_alter_one {A} (p : A -> bool) (f : A -> A) (i : nat) (l : list A) (x : A) :
  find_index p l = Some i -> l !! i = Some x ->
  length (List.filter p l) <= 1 -> p (f x) = true ->
  List.filter p (alter f i l) = [f x] /\ List.filter p l = [x].
Proof.
  revert i. unfold alter.
  induction l as [|y l IH]; intros i; simpl; [discriminate|].
  destruct (p y) eqn:Hy.
  - intros [= <-] [= ->]. simpl. intros Hlen Hfx. rewrite Hfx.
    destruct (List.filter p l); simpl in *; [split; reflexivity | lia].
  - destruct (find_index p l) as [k|] eqn:Hk; simpl; [|discriminate].
    intros [= <-]. simpl. rewrite Hy. intros Hx Hlen Hfx. now apply IH.
Qed.

Lemma filter_alter_other {A} (p : A -> bool) (f : A -> A) (i : nat) (l : list A) :
  (forall x, l !! i = Some x -> p x = false /\ p (f x) = false) ->
  List.filter p (alter f i l) = List.filter p l.
Proof.
  revert i. unfold alter.
  induction l as [|y l IH]; intros [|i]; simpl; try reflexivity.
  - intros Hx. destruct (Hx y eq_refl) as [-> ->]. reflexivity.
  - intros Hx. rewrite IH by assumption. reflexivity.
Qed.

(** ** Elements *)

Lemma with_children_id (e : Element) : with_children e (children e) = e.
Proof. now destruct e. Qed.

Lemma set_text_fixed (v : string) (c : Element) : text c = Some v -> set_text v c = c.
Proof. destruct c; simpl. now intros ->. Qed.

Lemma has_tag_set_text (t v : string) (c : Element) :
  has_tag t (set_text v c) = has_tag t c.
Proof. reflexivity. Qed.

Lemma has_tag_true (t : string) (c : Element) : has_tag t c = true <-> tag c = t.
Proof. unfold has_tag. apply String.eqb_eq. Qed.

Lemma dict_get_set_same (k v : string) (d : list (string * string)) :
  dict_get k (dict_set k v d) = Some v.
Proof.
  induction d as [|[k' v'] d IH]; simpl.
  - now rewrite String.eqb_refl.
  - destruct (String.eqb k' k) eqn:E; simpl.
    + now rewrite String.eqb_refl.
    + now rewrite E.
Qed.

Lemma dict_get_set_other (k k' v : string) (d : list (string * string)) :
  k <> k' -> dict_get k' (dict_set k v d) = dict_get k' d.
Proof.
  intros Hne. induction d as [|[k0 v0] d IH]; simpl.
  - apply String.eqb_neq in Hne. now rewrite Hne.
  - destruct (String.eqb k0 k) eqn:E; simpl.
    + apply String.eqb_eq in E. subst k0.
      apply String.eqb_neq in Hne. now rewrite Hne.
    + now rewrite IH.
Qed.

Lemma dict_set_fixed (k v : string) (d : list (string * string)) :
  dict_get k d = Some v -> dict_set k v d = d.
Proof.
  induction d as [|[k0 v0] d IH]; simpl; [discriminate|].
  destruct (String.eqb k0 k) eqn:E.
  - apply String.eqb_eq in E. now intros [= ->]; subst.
  - intros Hd. now rewrite IH.
Qed.

Lemma attrib_update_xml_tag (t v : string) (p : Element) :
  attrib (_update_xml_tag t v p) = attrib p.
Proof. unfold _update_xml_tag. now destruct (find p t). Qed.

Lemma tag_update_xml_tag (t v : string) (p : Element) :
  tag (_update_xml_tag t v p) = tag p.
Proof. unfold _update_xml_tag. now destruct (find p t). Qed.

(** After [_update_xml_tag], looking the tag up gives the value. *)
Lemma findtext_update_same (t v : string) (p : Element) :
  findtext (_update_xml_tag t v p) t = Some v.
Proof.
  unfold _update_xml_tag, findtext, find.
  destruct (find_index (has_tag t) (children p)) as [i|] eqn:Hi; simpl.
  - rewrite find_index_alter by apply has_tag_set_text. rewrite Hi.
    destruct (find_index_lookup _ _ _ Hi) as (c & Hc & _).
    rewrite list_lookup_alter_eq, Hc. reflexivity.
  - rewrite find_index_app, Hi. simpl.
    unfold has_tag at 1. simpl. rewrite String.eqb_refl. simpl.
    rewrite Nat.add_0_r.
    rewrite lookup_app_r by lia. now rewrite Nat.sub_diag.
Qed.

(** The other tags keep their text. *)
Lemma findtext_update_other (t t' v : string) (p : Element) :
  t <> t' -> findtext (_update_xml_tag t v p) t' = findtext p t'.
Proof.
  intros Hne. unfold _update_xml_tag, findtext, find.
  destruct (find_index (has_tag t) (children p)) as [i|] eqn:Hi; simpl.
  - rewrite find_index_alter by apply has_tag_set_text.
    destruct (find_index (has_tag t') (children p)) as [j|] eqn:Hj; [|reflexivity].
    destruct (find_index_lookup _ _ _ Hi) as (c & Hc & Htc).
    destruct (find_index_lookup _ _ _ Hj) as (c' & Hc' & Htc').
    destruct (decide (i = j)) as [->|Hij].
    + rewrite Hc in Hc'. injection Hc' as ->.
      apply has_tag_true in Htc, Htc'. congruence.
    + now rewrite list_lookup_alter_ne.
  - rewrite find_index_app.
    destruct (find_index (has_tag t') (children p)) as [j|] eqn:Hj.
    + destruct (find_index_lookup _ _ _ Hj) as (c' & Hc' & _).
      rewrite lookup_app_l; [reflexivity|]. now apply lookup_lt_Some in Hc'.
    + simpl. unfold has_tag at 1. simpl.
      apply String.eqb_neq in Hne. now rewrite Hne.
Qed.

(** An update that changes nothing. *)
Lemma update_xml_tag_fixed (t v : string) (p : Element) :
  findtext p t = Some v -> _update_xml_tag t v p = p.
Proof.
  unfold _update_xml_tag, findtext, find, on_child.
  destruct (find_index (has_tag t) (children p)) as [i|]; [|discriminate].
  destruct (children p !! i) as [c|] eqn:Hc; [|discriminate].
  intros Ht. rewrite (alter_fixed _ _ _ c Hc (set_text_fixed _ _ Ht)).
  apply with_children_id.
Qed.

Lemma get_update_xml_tag (t v k : string) (p : Element) :
  get (_update_xml_tag t v p) k = get p k.
Proof. unfold get. now rewrite attrib_update_xml_tag. Qed.

Lemma findtext_set (k v t : string) (p : Element) :
  findtext (set k v p) t = findtext p t.
Proof. reflexivity. Qed.

Lemma set_fixed (k v : string) (p : Element) : get p k = Some v -> set k v p = p.
Proof.
  unfold get, set. intros Hk. rewrite dict_set_fixed by assumption. now destruct p.
Qed.

(** ** The fields of an updated entry *)

Ltac tag_neq := let E := fresh in intros E; discriminate E.

Ltac read_field :=
  repeat first
    [ rewrite findtext_update_same
    | rewrite findtext_update_other by tag_neq ].

Lemma details_fields (metadata : PluginMetadata) (node : Element) :
  entry_fields (_update_plugin_node_details metadata node) = expected_fields metadata.
Proof.
  unfold entry_fields, expected_fields, essential_tags, _update_plugin_node_details,
    zip_filename.
  cbv zeta. simpl map. rewrite !get_update_xml_tag.
  unfold get at 1. simpl attrib. rewrite dict_get_set_same.
  set (n1 := set "version" (version metadata) node).
  repeat (apply (f_equal2 cons); [symmetry; read_field; reflexivity | ]).
  reflexivity.
Qed.

(** ** Finding or creating the plugin's entry *)

Lemma is_plugin_node_true (n : string) (e : Element) :
  is_plugin_node n e = true <-> tag e = "pyqgis_plugin" /\ get e "name" = Some n.
Proof.
  unfold is_plugin_node. rewrite andb_true_iff, has_tag_true.
  destruct (get e "name") as [m|].
  - rewrite String.eqb_eq. split; intros [Ht Hn]; split; congruence.
  - split; intros [Ht Hn]; discriminate.
Qed.

Lemma is_plugin_node_unique (n m : string) (e : Element) :
  is_plugin_node n e = true -> is_plugin_node m e = true -> n = m.
Proof. rewrite !is_plugin_node_true. intros [_ Hn] [_ Hm]. congruence. Qed.

Lemma tag_details (metadata : PluginMetadata) (x : Element) :
  tag (_update_plugin_node_details metadata x) = tag x.
Proof.
  unfold _update_plugin_node_details. cbv zeta. now rewrite !tag_update_xml_tag.
Qed.

Lemma get_name_details (metadata : PluginMetadata) (x : Element) :
  get (_update_plugin_node_details metadata x) "name" = get x "name".
Proof.
  unfold _update_plugin_node_details. cbv zeta. rewrite !get_update_xml_tag.
  unfold get, set. simpl. now apply dict_get_set_other.
Qed.

(** Populating a node does not change which plugin it is the entry of. *)
Lemma is_plugin_node_details (n : string) (metadata : PluginMetadata) (x : Element) :
  is_plugin_node n (_update_plugin_node_details metadata x) = is_plugin_node n x.
Proof.
  unfold is_plugin_node, has_tag. now rewrite tag_details, get_name_details.
Qed.

Lemma is_plugin_node_new (n : string) : is_plugin_node n (new_plugin_node n) = true.
Proof.
  apply is_plugin_node_true. split; reflexivity.
Qed.

(** Populating a populated node changes nothing. *)
Lemma details_idempotent (metadata : PluginMetadata) (x : Element) :
  _update_plugin_node_details metadata (_update_plugin_node_details metadata x)
  = _update_plugin_node_details metadata x.
Proof.
  pose proof (details_fields metadata x) as Hf.
  remember (_update_plugin_node_details metadata x) as y eqn:Hy. clear Hy.
  unfold entry_fields, expected_fields, essential_tags, zip_filename in Hf.
  simpl map in Hf.
  injection Hf as Hv H1 H2 H3 H4 H5 H6 H7 H8.
  unfold _update_plugin_node_details. cbv zeta.
  rewrite (set_fixed _ _ _ Hv).
  rewrite (update_xml_tag_fixed _ _ _ H1).
  rewrite (update_xml_tag_fixed _ _ _ H3).
  rewrite (update_xml_tag_fixed _ _ _ H2).
  rewrite (update_xml_tag_fixed _ _ _ H4).
  rewrite (update_xml_tag_fixed _ _ _ H5).
  rewrite (update_xml_tag_fixed _ _ _ H6).
  rewrite (update_xml_tag_fixed _ _ _ H7).
  now rewrite (update_xml_tag_fixed _ _ _ H8).
Qed.

(** The two ways [update_plugin_entry] goes: the entry is there and is
    populated where it stands, or a new populated entry is appended. *)
Lemma update_plugin_entry_cases (metadata : PluginMetadata) (root : Element) :
  (exists i x,
      find_index (is_plugin_node (name metadata)) (children root) = Some i /\
      children root !! i = Some x /\
      update_plugin_entry metadata root =
        with_children root (alter (_update_plugin_node_details metadata) i (children root)))
  \/
  (find_index (is_plugin_node (name metadata)) (children root) = None /\
   update_plugin_entry metadata root =
     with_children root
       (children root ++
          [_update_plugin_node_details metadata (new_plugin_node (name metadata))])).
Proof.
  unfold update_plugin_entry, _find_or_create_plugin_node.
  destruct (find_index (is_plugin_node (name metadata)) (children root)) as [i|] eqn:Hi.
  - left. destruct (find_index_lookup _ _ _ Hi) as (x & Hx & _).
    exists i, x. repeat split; assumption.
  - right. split; [reflexivity|].
    unfold on_child. destruct root as [t a x c]. unfold with_children. simpl.
    f_equal.
    replace (length c) with (length c + 0) by lia.
    now rewrite alter_app_r.
Qed.


(** The entries of the plugin after an update of a manifest that has at
    most one of them. *)
Lemma update_plugin_entry_one (metadata : PluginMetadata) (root : Element) :
  length (entries_for (name metadata) root) <= 1 ->
  exists x,
    entries_for (name metadata) (update_plugin_entry metadata root)
    = [_update_plugin_node_details metadata x].
Proof.
  unfold entries_for. intros Hlen.
  destruct (update_plugin_entry_cases metadata root)
    as [(i & x & Hi & Hx & ->) | (Hi & ->)];
    destruct root as [t a tx c]; unfold with_children in *; simpl in *.
  - exists x.
    assert (Hp : is_plugin_node (name metadata) (_update_plugin_node_details metadata x)
                 = true).
    { rewrite is_plugin_node_details.
      destruct (find_index_lookup _ _ _ Hi) as (y & Hy & Hp). congruence. }
    exact (proj1 (filter_alter_one _ _ i c x Hi Hx Hlen Hp)).
  - exists (new_plugin_node (name metadata)).
    rewrite List.filter_app, (find_index_None _ _ Hi). simpl.
    now rewrite is_plugin_node_details, is_plugin_node_new.
Qed.

Lemma filter_alter_length {A} (p : A -> bool) (f : A -> A) (i : nat) (l : list A) :
  (forall x, p (f x) = p x) ->
  length (List.filter p (alter f i l)) = length (List.filter p l).
Proof.
  intros Hp. revert i. unfold alter.
  induction l as [|y l IH]; intros [|i]; simpl; try reflexivity.
  - rewrite Hp. now destruct (p y).
  - destruct (p y); simpl; now rewrite IH.
Qed.

(** An update keeps the invariant of the manifest: it never adds a second
    entry for a name. *)
Lemma update_plugin_entry_keeps_unique (metadata : PluginMetadata) (root : Element)
    (n : string) :
  length (entries_for n root) <= 1 ->
  length (entries_for n (update_plugin_entry metadata root)) <= 1.
Proof.
  unfold entries_for. intros Hlen.
  destruct (update_plugin_entry_cases metadata root)
    as [(i & x & Hi & Hx & ->) | (Hi & ->)];
    destruct root as [t a tx c]; unfold with_children in *; simpl in *.
  - rewrite filter_alter_length by (intros; apply is_plugin_node_details).
    exact Hlen.
  - rewrite List.filter_app, length_app. simpl.
    rewrite is_plugin_node_details.
    destruct (is_plugin_node n (new_plugin_node (name metadata))) eqn:Hn; simpl; [|lia].
    pose proof (is_plugin_node_unique _ _ _ Hn (is_plugin_node_new (name metadata))) as ->.
    rewrite (find_index_None _ _ Hi). simpl. lia.
Qed.

(** ** The manifest updater: claims on the document *)

(** C6. After [_update_plugin_node_details] the entry's [file_name] is the
    plugin name with spaces replaced by underscores followed by [.zip], its
    [download_url] is the base URL without trailing slashes, a slash and that
    file name, and the [version] attribute equals the text of the [version]
    child (both are the metadata's version). Replacing turns every space of
    the name, and nothing else, into an underscore; stripping takes slashes,
    and nothing else, off the end of the URL until it ends with none. *)
Theorem update_plugin_node_details_derived_fields
    (metadata : PluginMetadata) (plugin_node : Element) :
  let node := _update_plugin_node_details metadata plugin_node in
  let clean_plugin_name := PyStr.replace " " "_" (name metadata) in
  let stripped_url := PyStr.rstrip_chars "/" (url_base metadata) in
  findtext node "file_name" = Some (clean_plugin_name +:+ ".zip") /\
  findtext node "download_url"
    = Some (stripped_url +:+ "/" +:+ (clean_plugin_name +:+ ".zip")) /\
  get node "version" = findtext node "version" /\
  findtext node "version" = Some (version metadata) /\
  clean_plugin_name = map_chars underscore_for_space (name metadata) /\
  (exists k, url_base metadata = stripped_url +:+ slashes k) /\
  PyStr.endswith "/" stripped_url = false.
Proof.
  intros node clean_plugin_name stripped_url.
  pose proof (details_fields metadata plugin_node) as Hf.
  fold node in Hf.
  unfold entry_fields, expected_fields, essential_tags, zip_filename in Hf.
  cbn [map] in Hf.
  injection Hf as Hv H1 H2 H3 H4 H5 H6 H7 H8.
  destruct (rstrip_slash_spec (url_base metadata)) as (k & Hk & Hend).
  split; [exact H7|]. split; [exact H8|]. split; [congruence|]. split; [exact H1|].
  split; [apply replace_space_underscore|]. split; [|exact Hend].
  exists k. exact Hk.
Qed.

Example demo_entry_fields :
  entry_fields (_update_plugin_node_details demo_metadata stale_entry)
  = [ Some "1.2.0"; Some "1.2.0"; Some "Fixes"; Some "A plugin"; Some "3.0";
      Some "UTEC"; Some "dev@example.org"; Some "My_Plugin.zip";
      Some "file:///srv/repo/My_Plugin.zip" ].
Proof. reflexivity. Qed.

(** C7. Updating the manifest for one plugin leaves every entry of a plugin
    with another name where it is and as it is: its attributes and its
    children are unchanged, and the entries found under that name are the
    same as before. ([update_plugin_entry] is what [update_repository_file]
    does to the document between reading and writing it.) *)
Theorem update_leaves_other_entries
    (metadata : PluginMetadata) (root : Element)
    (other : string) (j : nat) (entry : Element) :
  other <> name metadata ->
  children root !! j = Some entry ->
  is_plugin_node other entry = true ->
  children (update_plugin_entry metadata root) !! j = Some entry /\
  entries_for other (update_plugin_entry metadata root) = entries_for other root.
Proof.
  intros Hne Hj Hother. unfold entries_for.
  assert (Hnot : forall x, is_plugin_node (name metadata) x = true ->
                           is_plugin_node other x = false).
  { intros x Hx. destruct (is_plugin_node other x) eqn:Ho; [|reflexivity].
    exfalso. apply Hne. eapply is_plugin_node_unique; eassumption. }
  destruct (update_plugin_entry_cases metadata root)
    as [(i & x & Hi & Hx & ->) | (Hi & ->)];
    destruct root as [t a tx c]; unfold with_children in *; simpl in *.
  - destruct (find_index_lookup _ _ _ Hi) as (y & Hy & Hp).
    assert (y = x) as -> by congruence.
    split.
    + rewrite list_lookup_alter_ne; [assumption|].
      intros ->. rewrite Hx in Hj. injection Hj as ->.
      rewrite (Hnot _ Hp) in Hother. discriminate.
    + apply filter_alter_other. intros z Hz.
      assert (z = x) as -> by congruence.
      rewrite is_plugin_node_details. split; now apply Hnot.
  - split.
    + rewrite lookup_app_l; [assumption|]. now apply lookup_lt_Some in Hj.
    + rewrite List.filter_app. simpl.
      rewrite is_plugin_node_details, (Hnot _ (is_plugin_node_new _)).
      apply app_nil_r.
Qed.

(** The entry of the other plugin in the demo manifest. *)
Lemma update_leaves_other_entries_witness :
  "Other Plugin" <> name demo_metadata /\
  children demo_manifest !! 0 = Some other_entry /\
  is_plugin_node "Other Plugin" other_entry = true /\
  children (update_plugin_entry demo_metadata demo_manifest) !! 0 = Some other_entry /\
  entries_for "Other Plugin" (update_plugin_entry demo_metadata demo_manifest)
  = entries_for "Other Plugin" demo_manifest.
Proof.
  split; [discriminate|]. split; [reflexivity|]. split; [reflexivity|].
  apply (update_leaves_other_entries demo_metadata demo_manifest "Other Plugin" 0 other_entry);
    [discriminate | reflexivity | reflexivity].
Defined.

(** ** The atomic write *)

Section AtomicWrite.

Context `{PyRuntime}.


End AtomicWrite.



(** ** Guards of the packager and of the URL *)

Section Guards.

Context `{PyRuntime}.

(** C3. When the configured package name is not the plugin's name with its
    spaces replaced by underscores, [package_plugin] raises a
    [ReleaseScriptError] and the world is what it was: no archive was
    opened or created. *)
Theorem package_plugin_name_mismatch
    (env : Env) (metadata : PluginMetadata) (w : World) :
  plugin_package_name metadata <> PyStr.replace " " "_" (name metadata) ->
  package_plugin env metadata w
  = (Raised (ReleaseScriptError
               (name_mismatch_msg (plugin_package_name metadata)
                  (PyStr.replace " " "_" (name metadata)))),
     w).
Proof.
  intros Hne. unfold package_plugin.
  apply String.eqb_neq in Hne. rewrite Hne. reflexivity.
Qed.

Lemma file_url_to_path_rejects (url : string) :
  scheme (urlparse url) <> "file" ->
  _file_url_to_path url = Raised (ReleaseScriptError file_scheme_msg).
Proof.
  intros Hne. unfold _file_url_to_path.
  apply String.eqb_neq in Hne. now rewrite Hne.
Qed.

(** C10, as the code has it. For a base URL whose scheme is not [file],
    [update_repository_file] raises the [ReleaseScriptError] that names
    the [file://] scheme and leaves the world as it was. [package_plugin]
    creates nothing either; it raises that error when the package name
    fits the plugin's name and [metadata.txt] can be read, and the
    name-mismatch error when the package name does not fit. *)
Theorem non_file_scheme_rejected
    (env : Env) (metadata : PluginMetadata) (w : World) :
  scheme (urlparse (url_base metadata)) <> "file" ->
  update_repository_file env metadata w
  = (Raised (ReleaseScriptError file_scheme_msg), w) /\
  PyStr.contains "file://" file_scheme_msg = true /\
  snd (package_plugin env metadata w) = w /\
  (plugin_package_name metadata = PyStr.replace " " "_" (name metadata) ->
   is_Some (src_files env !! Path "metadata.txt") ->
   package_plugin env metadata w
   = (Raised (ReleaseScriptError file_scheme_msg), w)) /\
  (plugin_package_name metadata <> PyStr.replace " " "_" (name metadata) ->
   package_plugin env metadata w
   = (Raised (ReleaseScriptError
                (name_mismatch_msg (plugin_package_name metadata)
                   (PyStr.replace " " "_" (name metadata)))),
      w)).
Proof.
  intros Hscheme. pose proof (file_url_to_path_rejects _ Hscheme) as Hurl.
  split; [|split; [reflexivity|]].
  - unfold update_repository_file, except_ParseError, _get_repository_path, bind, lift.
    now rewrite Hurl.
  - assert (Hmatch :
      plugin_package_name metadata = PyStr.replace " " "_" (name metadata) ->
      package_plugin env metadata w
      = match src_files env !! Path "metadata.txt" with
        | Some _ => (Raised (ReleaseScriptError file_scheme_msg), w)
        | None => (Raised (OSError "No such file or directory: 'metadata.txt'"), w)
        end).
    { intros Heq. unfold package_plugin. rewrite Heq, String.eqb_refl. simpl.
      unfold _get_clean_metadata_content, read_metadata_txt, bind, lift, ret, raise.
      destruct (src_files env !! Path "metadata.txt"); [|reflexivity].
      now rewrite Hurl. }
    assert (Hmismatch :
      plugin_package_name metadata <> PyStr.replace " " "_" (name metadata) ->
      package_plugin env metadata w
      = (Raised (ReleaseScriptError
                   (name_mismatch_msg (plugin_package_name metadata)
                      (PyStr.replace " " "_" (name metadata)))),
         w)).
    { intros Hne. unfold package_plugin.
      apply String.eqb_neq in Hne. now rewrite Hne. }
    split; [|split].
    + destruct (String.eqb_spec (plugin_package_name metadata)
                  (PyStr.replace " " "_" (name metadata))) as [Heq|Hne].
      * rewrite (Hmatch Heq). now destruct (src_files env !! Path "metadata.txt").
      * now rewrite (Hmismatch Hne).
    + intros Heq [content Hread]. rewrite (Hmatch Heq). now rewrite Hread.
    + exact Hmismatch.
Qed.

Lemma set_name_same (metadata : PluginMetadata) :
  set_name (name metadata) metadata = metadata.
Proof. now destruct metadata. Qed.

(** C5. [run_release_process] takes as release name the configured name
    with every ["(dev)"] removed and the white space at both ends
    stripped: the release name has no white space at either end, and a
    name without the marker only loses the white space at its ends. When
    the release name is empty the run raises a [ReleaseScriptError] and
    touches nothing; otherwise the manifest update, the translations and
    the packaging all run with the metadata in which the name is the
    release name and the other fields are the configured ones. *)
Theorem run_release_process_release_name
    (env : Env) (metadata : PluginMetadata) (w : World) :
  configured env = Returned metadata ->
  let release_name := PyStr.strip (PyStr.replace "(dev)" "" (name metadata)) in
  let released := set_name release_name metadata in
  starts_with_space release_name = false /\
  ends_with_space release_name = false /\
  (PyStr.contains "(dev)" (name metadata) = false ->
   release_name = PyStr.strip (name metadata)) /\
  (release_name = "" ->
   run_release_process env w = (Raised (ReleaseScriptError empty_name_msg), w)) /\
  (release_name <> "" ->
   name released = release_name /\
   (release_name = name metadata -> released = metadata) /\
   run_release_process env w
   = (update_repository_file env released ;;
      compile_translations env released ;;
      package_plugin env released ;;
      _ <- lift (_file_url_to_path (url_base released)) ;;
      ret tt) w).
Proof.
  intros Hconf release_name released.
  split; [apply strip_trimmed|]. split; [apply strip_trimmed|]. split.
  { intros Habsent. unfold release_name. now rewrite replace_absent. }
  split.
  - intros Hempty. unfold run_release_process, bind, lift. rewrite Hconf.
    unfold release_name_of. fold release_name. now rewrite Hempty.
  - intros Hne. split; [reflexivity|]. split.
    + intros Heq. unfold released. rewrite Heq. apply set_name_same.
    + unfold run_release_process at 1. unfold bind at 1. unfold lift at 1.
      rewrite Hconf. unfold release_name_of. fold release_name.
      apply String.eqb_neq in Hne. rewrite Hne.
      destruct (String.eqb_spec (name metadata) release_name) as [Heq|Hdiff]; simpl.
      * unfold released. rewrite <- Heq, set_name_same. reflexivity.
      * reflexivity.
Qed.

End Guards.

(** The package name [Other] for the plugin [My Plugin]. *)
Lemma package_plugin_name_mismatch_witness :
  plugin_package_name mismatch_metadata <> PyStr.replace " " "_" (name mismatch_metadata) /\
  @package_plugin demo_runtime demo_env mismatch_metadata demo_world
  = (Raised (ReleaseScriptError
               (name_mismatch_msg "Other" (PyStr.replace " " "_" "My Plugin"))),
     demo_world).
Proof.
  split; [vm_compute; discriminate|].
  apply (@package_plugin_name_mismatch demo_runtime demo_env mismatch_metadata demo_world).
  vm_compute. discriminate.
Defined.

(** C10 as stated fails for [package_plugin]: with a base URL that is not a
    [file://] URL and a package name that does not fit, the error it raises
    is the name-mismatch error, whose message does not name the [file://]
    scheme. *)
Lemma package_plugin_scheme_counterexample :
  scheme (@urlparse demo_runtime (url_base mismatch_metadata)) <> "file" /\
  ~ (exists msg,
        fst (@package_plugin demo_runtime demo_env mismatch_metadata demo_world)
        = Raised (ReleaseScriptError msg) /\
        PyStr.contains "file://" msg = true).
Proof.
  split; [vm_compute; discriminate|].
  intros (msg & Hraised & Hnames).
  vm_compute in Hraised. injection Hraised as <-.
  vm_compute in Hnames. discriminate.
Qed.

(** An [https] base URL, the package name fitting and [metadata.txt] there. *)
Lemma non_file_scheme_rejected_witness :
  scheme (@urlparse demo_runtime (url_base http_metadata)) <> "file" /\
  @update_repository_file demo_runtime demo_env http_metadata demo_world
  = (Raised (ReleaseScriptError file_scheme_msg), demo_world) /\
  @package_plugin demo_runtime demo_env http_metadata demo_world
  = (Raised (ReleaseScriptError file_scheme_msg), demo_world).
Proof.
  assert (Hscheme : scheme (@urlparse demo_runtime (url_base http_metadata)) <> "file")
    by (vm_compute; discriminate).
  split; [exact Hscheme|].
  destruct (@non_file_scheme_rejected demo_runtime demo_env http_metadata demo_world Hscheme)
    as (Hupdate & _ & _ & Hpackage & _).
  split; [exact Hupdate|].
  apply Hpackage; [reflexivity|]. vm_compute. eauto.
Defined.

(** The name [My Plugin (dev)] is released as [My Plugin]. *)
Lemma run_release_process_release_name_witness :
  configured dev_env = Returned dev_metadata /\
  PyStr.strip (PyStr.replace "(dev)" "" (name dev_metadata)) = "My Plugin" /\
  @run_release_process demo_runtime dev_env demo_world
  = (@update_repository_file demo_runtime dev_env demo_metadata ;;
     @compile_translations demo_runtime dev_env demo_metadata ;;
     @package_plugin demo_runtime dev_env demo_metadata ;;
     _ <- lift (@_file_url_to_path demo_runtime (url_base demo_metadata)) ;;
     ret tt) demo_world.
Proof.
  split; [reflexivity|]. split; [reflexivity|].
  destruct (@run_release_process_release_name demo_runtime dev_env dev_metadata demo_world
              eq_refl) as (_ & _ & _ & _ & Hrun).
  destruct (Hrun ltac:(vm_compute; discriminate)) as (_ & _ & Hsteps).
  exact Hsteps.
Defined.

(** ** Loops that only append *)

Lemma log_warnings_nil (w : World) : log_warnings [] w = w.
Proof. destruct w. unfold log_warnings. simpl. now rewrite app_nil_r. Qed.

Lemma log_warnings_app (l1 l2 : list Warning) (w : World) :
  log_warnings l2 (log_warnings l1 w) = log_warnings (l1 ++ l2) w.
Proof. unfold log_warnings. simpl. now rewrite app_assoc. Qed.

(** A loop whose body appends to its state and logs warnings appends what
    its items add, in order. *)
Lemma for_each_append {A B} (out : A -> list B) (warn : A -> list Warning)
    (body : A -> list B -> M (list B)) (l : list A) (s : list B) (w : World) :
  (forall x s w, body x s w = (Returned (s ++ out x), log_warnings (warn x) w)) ->
  for_each l body s w
  = (Returned (s ++ flat_map out l), log_warnings (flat_map warn l) w).
Proof.
  intros Hbody. revert s w. induction l as [|x l IH]; intros s w; simpl.
  - unfold ret. now rewrite app_nil_r, log_warnings_nil.
  - unfold bind. rewrite Hbody, IH.
    now rewrite log_warnings_app, app_assoc.
Qed.

Lemma flat_map_filter {A B} (p : A -> bool) (g : A -> B) (l : list A) :
  flat_map (fun x => if p x then [] else [g x]) l = map g (List.filter (fun x => negb (p x)) l).
Proof.
  induction l as [|x l IH]; simpl; [reflexivity|].
  destruct (p x); simpl; now rewrite IH.
Qed.

Lemma flat_map_nil {A B} (l : list A) : flat_map (fun _ : A => @nil B) l = [].
Proof. induction l; simpl; auto. Qed.

Section PackagerFiles.

Context `{PyRuntime}.

Lemma add_files_to_zip_appends (env : Env) (files_ : list string)
    (plugin_zip_dir clean : string) (zipf : list ZipEntry) (w : World) :
  _add_files_to_zip env files_ plugin_zip_dir clean zipf w
  = (Returned (zipf ++ flat_map (listed_file_entries env plugin_zip_dir clean) files_),
     log_warnings (flat_map (listed_file_warnings env) files_) w).
Proof.
  unfold _add_files_to_zip. apply for_each_append.
  intros x s w0. unfold listed_file_entries, listed_file_warnings.
  destruct (String.eqb x "metadata.txt").
  - unfold ret. now rewrite log_warnings_nil.
  - destruct (src_exists env (Path x)).
    + unfold ret. now rewrite log_warnings_nil.
    + unfold bind, logger_warning, ret, log_warnings. now rewrite app_nil_r.
Qed.

(** C8. [_add_files_to_zip] returns, for every list of files: the archive
    has gained what the listed items add one by one, and an item adds
    - for ["metadata.txt"], the cleaned content given in memory, at
      [<plugin_zip_dir>/metadata.txt], and nothing read from the disk;
    - for another file that exists, that file at
      [<plugin_zip_dir>/<its path>];
    - for another file that does not exist, nothing but the warning that
      it was not found; the items after it are still added. *)
Theorem add_files_to_zip_listed
    (env : Env) (files_ : list string) (plugin_zip_dir clean : string)
    (zipf : list ZipEntry) (w : World) :
  exists (adds : string -> list ZipEntry) (warns : string -> list Warning),
    _add_files_to_zip env files_ plugin_zip_dir clean zipf w
    = (Returned (zipf ++ flat_map adds files_),
       mkWorld (files w) (dirs w) (warnings w ++ flat_map warns files_)) /\
    adds "metadata.txt"
    = [ZWritestr (joinpath (Path plugin_zip_dir) (Path "metadata.txt")) clean] /\
    warns "metadata.txt" = [] /\
    (forall file_str,
        file_str <> "metadata.txt" -> src_exists env (Path file_str) = true ->
        adds file_str
        = [ZWrite (Path file_str) (joinpath (Path plugin_zip_dir) (Path file_str))] /\
        warns file_str = []) /\
    (forall file_str,
        file_str <> "metadata.txt" -> src_exists env (Path file_str) = false ->
        adds file_str = [] /\
        warns file_str = [FileNotFound (Path file_str)]).
Proof.
  exists (listed_file_entries env plugin_zip_dir clean), (listed_file_warnings env).
  split; [apply add_files_to_zip_appends|].
  unfold listed_file_entries, listed_file_warnings.
  split; [reflexivity|]. split; [reflexivity|]. split.
  - intros f Hne Hex. apply String.eqb_neq in Hne. now rewrite Hne, Hex.
  - intros f Hne Hex. apply String.eqb_neq in Hne. now rewrite Hne, Hex.
Qed.

End PackagerFiles.

(** The example of the specification: [metadata.txt] and a missing file. *)
Example add_files_demo :
  @_add_files_to_zip demo_runtime demo_env ["metadata.txt"; "missing.txt"; "__init__.py"]
    "My_Plugin" "name=My Plugin" [] demo_world
  = (Returned [ ZWritestr "My_Plugin/metadata.txt" "name=My Plugin";
                ZWrite "__init__.py" "My_Plugin/__init__.py" ],
     mkWorld (files demo_world) (dirs demo_world) [FileNotFound "missing.txt"]).
Proof. vm_compute. reflexivity. Qed.

(** ** Prefixes and substrings *)

Lemma startswith_refl (s : string) : PyStr.startswith s s = true.
Proof. induction s as [|c s IH]; simpl; [reflexivity|]. now rewrite Ascii.eqb_refl. Qed.

Lemma startswith_app (p s : string) : PyStr.startswith p (p +:+ s) = true.
Proof. induction p as [|c p IH]; simpl; [reflexivity|]. now rewrite Ascii.eqb_refl. Qed.

Lemma startswith_trans (a b c : string) :
  PyStr.startswith a b = true -> PyStr.startswith b c = true ->
  PyStr.startswith a c = true.
Proof.
  revert b c. induction a as [|x a IH]; intros [|y b] [|z c]; simpl; try easy.
  rewrite !andb_true_iff, !Ascii.eqb_eq. intros [-> Hab] [-> Hbc].
  split; [reflexivity|]. eauto.
Qed.

(** A substring of a prefix is a substring of the whole. *)
Lemma contains_prefix (x p r : string) :
  PyStr.startswith p r = true -> PyStr.contains x p = true ->
  PyStr.contains x r = true.
Proof.
  revert r. induction p as [|c p IH]; intros r Hpr Hx.
  - simpl in Hx. rewrite orb_false_r in Hx.
    destruct r; simpl; rewrite (startswith_trans _ _ _ Hx Hpr); reflexivity.
  - destruct r as [|d r]; [discriminate|].
    cbn [PyStr.contains] in Hx |- *. apply orb_true_iff in Hx.
    apply orb_true_iff. destruct Hx as [Hx|Hx].
    + left. eapply startswith_trans; eassumption.
    + right. simpl in Hpr. apply andb_true_iff in Hpr. now apply IH.
Qed.

Lemma contains_startswith_slash (n : string) :
  name_ok n = true -> PyStr.startswith "/" n = false.
Proof.
  unfold name_ok. rewrite negb_true_iff.
  destruct n as [|c n]; [reflexivity|]. cbn [PyStr.contains].
  intros Hc. apply orb_false_iff in Hc. tauto.
Qed.

(** [os.path.join] extends its first argument when the second is a name. *)
Lemma os_path_join_prefix (a n : string) :
  name_ok n = true -> PyStr.startswith a (os_path_join a n) = true.
Proof.
  intros Hn. unfold os_path_join. rewrite (contains_startswith_slash _ Hn).
  destruct (String.eqb a "" || PyStr.endswith "/" a); apply startswith_app.
Qed.

(** ** Walking a directory *)

Lemma dirtree_induction (P : dirtree -> Prop) :
  (forall fs ds, Forall (fun d => P (snd d)) ds -> P (DirTree fs ds)) ->
  forall t, P t.
Proof.
  intros Hstep. fix IH 1. intros [fs ds]. apply Hstep.
  induction ds as [|[n d] ds IHds]; constructor; [apply IH | exact IHds].
Qed.

(** Every directory reached by [os.walk] has the top's path as a prefix of
    its own. *)
Lemma os_walk_prefix (t : dirtree) :
  forall top r ds fs,
    wf_dirtree t = true -> In (r, ds, fs) (os_walk top t) ->
    PyStr.startswith top r = true.
Proof.
  induction t as [fs0 ds0 IH] using dirtree_induction.
  intros top r ds fs Hwf Hin. simpl in Hwf, Hin.
  apply andb_true_iff in Hwf. destruct Hwf as [_ Hwf].
  destruct Hin as [Heq|Hin].
  - injection Heq as <- _ _. apply startswith_refl.
  - apply in_flat_map in Hin. destruct Hin as ([n d] & Hd & Hin). simpl in Hin.
    rewrite forallb_forall in Hwf. specialize (Hwf _ Hd). simpl in Hwf.
    apply andb_true_iff in Hwf. destruct Hwf as [Hn Hwfd].
    rewrite Forall_forall in IH.
    assert (Hd' : (n, d) ∈ ds0) by now apply list_elem_of_In.
    specialize (IH _ Hd' _ _ _ _ Hwfd Hin). simpl in IH.
    eapply startswith_trans; [|exact IH]. now apply os_path_join_prefix.
Qed.

(** The directories of a well-formed tree are well formed, and walking one
    of them gives a part of the walk of the whole. *)
Lemma subtrees_walk (t : dirtree) :
  forall top p sub,
    In (p, sub) (subtrees top t) ->
    (wf_dirtree t = true -> wf_dirtree sub = true) /\
    (forall x, In x (os_walk p sub) -> In x (os_walk top t)).
Proof.
  induction t as [fs0 ds0 IH] using dirtree_induction.
  intros top p sub Hin. simpl in Hin. destruct Hin as [Heq|Hin].
  - injection Heq as <- <-. split; auto.
  - apply in_flat_map in Hin. destruct Hin as ([n d] & Hd & Hin). simpl in Hin.
    rewrite Forall_forall in IH.
    assert (Hd' : (n, d) ∈ ds0) by now apply list_elem_of_In.
    destruct (IH _ Hd' _ _ _ Hin) as [Hwf Hsub]. simpl in Hwf, Hsub. split.
    + intros Ht. apply Hwf. simpl in Ht.
      apply andb_true_iff in Ht. destruct Ht as [_ Ht].
      rewrite forallb_forall in Ht. specialize (Ht _ Hd). simpl in Ht.
      apply andb_true_iff in Ht. tauto.
    + intros x Hx. simpl. right. apply in_flat_map.
      exists (n, d). split; [assumption|]. simpl. now apply Hsub.
Qed.

Section PackagerDirectories.

Context `{PyRuntime}.

Lemma kept_true (excluded_dirs_ excluded_extensions_ : list string) (root file : string) :
  kept excluded_dirs_ excluded_extensions_ (root, file) = true <->
  (forall excluded, In excluded excluded_dirs_ -> PyStr.contains excluded root = false) /\
  (forall ext, In ext excluded_extensions_ -> PyStr.endswith ext file = false).
Proof.
  unfold kept, dir_excluded, ext_excluded. simpl.
  rewrite andb_true_iff, !negb_true_iff.
  rewrite <- !not_true_iff_false, !existsb_exists.
  split.
  - intros [Hd He]. split; intros x Hx; apply not_true_iff_false; intros Hc;
      [apply Hd | apply He]; exists x; tauto.
  - intros [Hd He]. split; intros (x & Hx & Hc);
      [rewrite (Hd x Hx) in Hc | rewrite (He x Hx) in Hc]; discriminate.
Qed.

Lemma add_directories_to_zip_appends (env : Env) (dirs_ : list string)
    (plugin_zip_dir : string) (excluded_dirs_ excluded_extensions_ : list string)
    (zipf : list ZipEntry) (w : World) :
  _add_directories_to_zip env dirs_ plugin_zip_dir excluded_dirs_ excluded_extensions_
    zipf w
  = (Returned
       (zipf ++
        map (fun met => dir_entry plugin_zip_dir (fst met) (snd met))
            (List.filter (kept excluded_dirs_ excluded_extensions_)
               (encountered env dirs_))),
     log_warnings (missing_dir_warnings env dirs_) w).
Proof.
  unfold _add_directories_to_zip, encountered, missing_dir_warnings.
  set (entry := fun met : string * string =>
                  dir_entry plugin_zip_dir (fst met) (snd met)).
  set (keep := kept excluded_dirs_ excluded_extensions_).
  rewrite (for_each_append
             (fun dir_str =>
                match src_dirs env !! Path dir_str with
                | Some t =>
                    map entry
                      (List.filter keep
                         (flat_map (fun '(root, _, files_) => map (pair root) files_)
                                   (os_walk (Path dir_str) t)))
                | None => []
                end)
             (fun dir_str =>
                match src_dirs env !! Path dir_str with
                | Some _ => []
                | None => [DirectoryNotFound (Path dir_str)]
                end)).
  - f_equal. f_equal. f_equal.
    induction dirs_ as [|d dirs_ IH]; simpl; [reflexivity|].
    rewrite List.filter_app, map_app, IH. f_equal.
    now destruct (src_dirs env !! Path d).
  - intros d s w0. destruct (src_dirs env !! Path d) as [t|].
    + rewrite (for_each_append
                 (fun '(root, _, files_) =>
                    map entry (List.filter keep (map (pair root) files_)))
                 (fun _ => [])).
      * rewrite flat_map_nil. f_equal. f_equal. f_equal.
        induction (os_walk (Path d) t) as [|[[root ds] fs] l IH]; simpl;
          [reflexivity|].
        now rewrite List.filter_app, map_app, IH.
      * intros [[root ds] fs] s1 w1.
        destruct (dir_excluded excluded_dirs_ root) eqn:Hroot.
        -- unfold ret. rewrite log_warnings_nil. f_equal. f_equal.
           replace (List.filter keep (map (pair root) fs)) with (@nil (string * string)).
           ++ now rewrite app_nil_r.
           ++ symmetry. induction fs as [|f fs IHf]; simpl; [reflexivity|].
              unfold keep at 1, kept. simpl. rewrite Hroot. simpl. exact IHf.
        -- rewrite (for_each_append
                      (fun file =>
                         if ext_excluded excluded_extensions_ file then []
                         else [dir_entry plugin_zip_dir root file])
                      (fun _ => [])).
           ++ rewrite flat_map_nil. f_equal. f_equal. f_equal.
              induction fs as [|f fs IHf]; simpl; [reflexivity|].
              unfold keep at 1, kept. simpl. rewrite Hroot. simpl.
              destruct (ext_excluded excluded_extensions_ f); simpl; now rewrite IHf.
           ++ intros f s2 w2.
              destruct (ext_excluded excluded_extensions_ f);
                unfold ret; now rewrite ?app_nil_r, log_warnings_nil.
    + unfold bind, logger_warning, ret, log_warnings. now rewrite app_nil_r.
Qed.

End PackagerDirectories.

Section PackagerDirectoriesClaim.

Context `{PyRuntime}.

Lemma encountered_In (env : Env) (dirs_ : list string) (root file : string) :
  In (root, file) (encountered env dirs_) <->
  exists dir_str t ds fs,
    In dir_str dirs_ /\ src_dirs env !! Path dir_str = Some t /\
    In (root, ds, fs) (os_walk (Path dir_str) t) /\ In file fs.
Proof.
  unfold encountered. rewrite in_flat_map. split.
  - intros (d & Hd & Hin). destruct (src_dirs env !! Path d) as [t|] eqn:Ht; [|easy].
    apply in_flat_map in Hin. destruct Hin as ([[r ds] fs] & Hw & Hin).
    apply in_map_iff in Hin. destruct Hin as (f & Heq & Hf).
    injection Heq as -> ->. exists d, t, ds, fs. tauto.
  - intros (d & t & ds & fs & Hd & Ht & Hw & Hf).
    exists d. split; [assumption|]. rewrite Ht. apply in_flat_map.
    exists (root, ds, fs). split; [assumption|]. now apply in_map.
Qed.

(** The walk meets the directories of the tree, each with its path, its
    sub-directories and its files. *)
Lemma os_walk_subtrees (t : dirtree) :
  forall top r ds fs,
    In (r, ds, fs) (os_walk top t) <->
    exists sub,
      In (r, sub) (subtrees top t) /\ ds = map fst (subdirs sub) /\ fs = file_names sub.
Proof.
  induction t as [fs0 ds0 IH] using dirtree_induction.
  intros top r ds fs. rewrite Forall_forall in IH. simpl. split.
  - intros [Heq|Hin].
    + injection Heq as <- <- <-. exists (DirTree fs0 ds0). auto.
    + apply in_flat_map in Hin. destruct Hin as ([n d] & Hd & Hin).
      assert (Hd' : (n, d) ∈ ds0) by now apply list_elem_of_In.
      apply (IH _ Hd') in Hin. destruct Hin as (sub & Hsub & -> & ->).
      exists sub. split; [|auto]. right. apply in_flat_map. exists (n, d). auto.
  - intros (sub & [Heq|Hin] & -> & ->).
    + injection Heq as <- <-. now left.
    + right. apply in_flat_map in Hin. destruct Hin as ([n d] & Hd & Hin).
      apply in_flat_map. exists (n, d). split; [assumption|].
      assert (Hd' : (n, d) ∈ ds0) by now apply list_elem_of_In.
      apply (IH _ Hd'). exists sub. auto.
Qed.

(** C4. For the listed directories, [_add_directories_to_zip] adds to the
    archive exactly the files met on the walks that pass the filter, one
    entry each, in the order they are met; the entry of a file [file] met
    in the directory [root] stores the file [root/file] under the name
    [plugin_zip_dir/root/file]. The files met are the files of the
    directories of the listed trees, each with the path of its directory. A
    file met passes the filter if and only if no excluded directory name
    occurs in the path of the directory it is in and its name ends with no
    excluded extension. In particular no file of a directory below one
    whose path contains an excluded name passes. (The names in the
    directory listings hold no separator.) *)
Theorem add_directories_to_zip_filter
    (env : Env) (dirs_ : list string) (plugin_zip_dir : string)
    (excluded_dirs_ excluded_extensions_ : list string)
    (zipf : list ZipEntry) (w : World) :
  (forall dir_str t,
      In dir_str dirs_ -> src_dirs env !! Path dir_str = Some t ->
      wf_dirtree t = true) ->
  let added :=
    List.filter (kept excluded_dirs_ excluded_extensions_) (encountered env dirs_) in
  _add_directories_to_zip env dirs_ plugin_zip_dir excluded_dirs_ excluded_extensions_
    zipf w
  = (Returned
       (zipf ++
        map (fun met =>
               ZWrite (joinpath (Path (fst met)) (Path (snd met)))
                 (joinpath (Path plugin_zip_dir)
                    (joinpath (Path (fst met)) (Path (snd met)))))
            added),
     mkWorld (files w) (dirs w) (warnings w ++ missing_dir_warnings env dirs_)) /\
  (forall root file,
      In (root, file) (encountered env dirs_) <->
      exists dir_str t sub,
        In dir_str dirs_ /\ src_dirs env !! Path dir_str = Some t /\
        In (root, sub) (subtrees (Path dir_str) t) /\ In file (file_names sub)) /\
  (forall root file,
      In (root, file) added <->
      In (root, file) (encountered env dirs_) /\
      (forall excluded,
          In excluded excluded_dirs_ -> PyStr.contains excluded root = false) /\
      (forall ext,
          In ext excluded_extensions_ -> PyStr.endswith ext file = false)) /\
  (forall dir_str t p sub root below file,
      In dir_str dirs_ -> src_dirs env !! Path dir_str = Some t ->
      In (p, sub) (subtrees (Path dir_str) t) ->
      dir_excluded excluded_dirs_ p = true ->
      In (root, below) (subtrees p sub) -> In file (file_names below) ->
      In (root, file) (encountered env dirs_) /\ ~ In (root, file) added).
Proof.
  intros Hwf added.
  assert (Hmet : forall root file,
    In (root, file) (encountered env dirs_) <->
    exists dir_str t sub,
      In dir_str dirs_ /\ src_dirs env !! Path dir_str = Some t /\
      In (root, sub) (subtrees (Path dir_str) t) /\ In file (file_names sub)).
  { intros root file. rewrite encountered_In. split.
    - intros (d & t & ds & fs & Hd & Ht & Hwalk & Hfile).
      apply os_walk_subtrees in Hwalk. destruct Hwalk as (sub & Hsub & _ & ->).
      exists d, t, sub. auto.
    - intros (d & t & sub & Hd & Ht & Hsub & Hfile).
      exists d, t, (map fst (subdirs sub)), (file_names sub).
      repeat split; try assumption. apply os_walk_subtrees. exists sub. auto. }
  split; [apply add_directories_to_zip_appends|]. split; [exact Hmet|]. split.
  - intros root file. unfold added. rewrite List.filter_In, kept_true. tauto.
  - intros d t p sub root below file Hd Ht Hsub Hex Hbelow Hfile.
    destruct (subtrees_walk t _ _ _ Hsub) as [Hwfsub Hpart].
    specialize (Hwfsub (Hwf _ _ Hd Ht)).
    assert (Hwalk : In (root, map fst (subdirs below), file_names below) (os_walk p sub)).
    { apply os_walk_subtrees. exists below. auto. }
    split.
    + apply encountered_In.
      exists d, t, (map fst (subdirs below)), (file_names below). auto.
    + unfold added. rewrite List.filter_In. intros [_ Hkept].
      unfold kept in Hkept. simpl in Hkept.
      apply andb_true_iff in Hkept. destruct Hkept as [Hkept _].
      apply negb_true_iff in Hkept.
      unfold dir_excluded in Hex, Hkept.
      apply existsb_exists in Hex. destruct Hex as (x & Hx & Hc).
      pose proof (os_walk_prefix sub _ _ _ _ Hwfsub Hwalk) as Hprefix.
      pose proof (contains_prefix _ _ _ Hprefix Hc) as Hroot.
      assert (Hsome : existsb (fun excluded => PyStr.contains excluded root)
                        excluded_dirs_ = true).
      { apply existsb_exists. exists x. tauto. }
      congruence.
Qed.

End PackagerDirectoriesClaim.

(** The walk of the demo plugin: what is below [__pycache__] and the
    compiled file are left out. *)
Example add_directories_demo :
  @_add_directories_to_zip demo_runtime demo_env ["modules"; "i18n"] "My_Plugin"
    ["__pycache__"] [".pyc"; ".ts"] [] demo_world
  = (Returned [ ZWrite "modules/context.py" "My_Plugin/modules/context.py";
                ZWrite "modules/ui/dialog.py" "My_Plugin/modules/ui/dialog.py" ],
     mkWorld (files demo_world) (dirs demo_world) [DirectoryNotFound "i18n"]).
Proof. vm_compute. reflexivity. Qed.

Lemma demo_trees_wf :
  forall dir_str t,
    In dir_str ["modules"; "i18n"] ->
    src_dirs demo_env !! @Path demo_runtime dir_str = Some t ->
    wf_dirtree t = true.
Proof.
  intros d t [<-|[<-|[]]] Ht; vm_compute in Ht.
  - injection Ht as <-. reflexivity.
  - discriminate.
Qed.

(** The demo plugin: of [modules], the compiled file and what is in and
    below [__pycache__] are left out, and the two files kept are stored
    under the package directory. *)
Lemma add_directories_to_zip_filter_witness :
  (forall dir_str t,
      In dir_str ["modules"; "i18n"] ->
      src_dirs demo_env !! @Path demo_runtime dir_str = Some t ->
      wf_dirtree t = true) /\
  @_add_directories_to_zip demo_runtime demo_env ["modules"; "i18n"] "My_Plugin"
    ["__pycache__"] [".pyc"; ".ts"] [] demo_world
  = (Returned [ ZWrite "modules/context.py" "My_Plugin/modules/context.py";
                ZWrite "modules/ui/dialog.py" "My_Plugin/modules/ui/dialog.py" ],
     mkWorld (files demo_world) (dirs demo_world) [DirectoryNotFound "i18n"]) /\
  ~ In ("modules/__pycache__/deep", "inner.py")
       (List.filter (kept ["__pycache__"] [".pyc"; ".ts"])
          (@encountered demo_runtime demo_env ["modules"; "i18n"])).
Proof.
  split; [exact demo_trees_wf|].
  destruct (@add_directories_to_zip_filter demo_runtime demo_env ["modules"; "i18n"]
              "My_Plugin" ["__pycache__"] [".pyc"; ".ts"] [] demo_world demo_trees_wf)
    as (Hrun & _ & _ & Hsubtree).
  split.
  - rewrite Hrun. vm_compute. reflexivity.
  - refine (proj2 (Hsubtree "modules" demo_tree "modules/__pycache__"
                     (DirTree ["context.cpython-312.pyc"; "notes.txt"]
                        [("deep", DirTree ["inner.py"] [])])
                     "modules/__pycache__/deep" (DirTree ["inner.py"] []) "inner.py"
                     _ _ _ _ _ _)).
    + now left.
    + vm_compute. reflexivity.
    + vm_compute. tauto.
    + vm_compute. reflexivity.
    + vm_compute. tauto.
    + now left.
Defined.

(** ** Lines *)

(** The lines of a text, put together again, are the text. *)
Lemma join_splitlines_from (n : nat) :
  forall s cur,
    String.length s <= n ->
    PyStr.join (PyStr.splitlines_from cur s) = cur +:+ s.
Proof.
  induction n as [|n IH]; intros s cur Hlen.
  - destruct s; [|simpl in Hlen; lia]. destruct cur; reflexivity.
  - destruct s as [|c s]; [destruct cur; reflexivity|].
    simpl in Hlen. cbn [PyStr.splitlines_from].
    destruct (Ascii.eqb_spec c PyStr.CR) as [->|Hc].
    + destruct s as [|d s]; [simpl; now rewrite append_nil_r|].
      simpl in Hlen. destruct (Ascii.eqb_spec d PyStr.LF) as [->|Hd].
      * unfold PyStr.join. cbn [fold_right]. fold (PyStr.join).
        change (fold_right String.append "" (PyStr.splitlines_from "" s))
          with (PyStr.join (PyStr.splitlines_from "" s)).
        rewrite IH by lia. now rewrite append_assoc.
      * unfold PyStr.join. cbn [fold_right].
        change (fold_right String.append "" (PyStr.splitlines_from "" (String d s)))
          with (PyStr.join (PyStr.splitlines_from "" (String d s))).
        rewrite IH by (simpl; lia). now rewrite append_assoc.
    + destruct (PyStr.is_linebreak c).
      * unfold PyStr.join. cbn [fold_right].
        change (fold_right String.append "" (PyStr.splitlines_from "" s))
          with (PyStr.join (PyStr.splitlines_from "" s)).
        rewrite IH by lia. now rewrite append_assoc.
      * rewrite IH by lia. now rewrite append_assoc.
Qed.

Lemma join_splitlines (s : string) : PyStr.join (PyStr.splitlines s) = s.
Proof. unfold PyStr.splitlines. now rewrite (join_splitlines_from (String.length s)). Qed.

(** No CR is left in a text read with universal newlines. *)
Lemma universal_newlines_no_cr (n : nat) :
  forall s, String.length s <= n ->
            PyStr.contains cr (PyStr.universal_newlines s) = false.
Proof.
  induction n as [|n IH]; intros s Hlen.
  - destruct s; [reflexivity | simpl in Hlen; lia].
  - destruct s as [|c s]; [reflexivity|]. simpl in Hlen.
    cbn [PyStr.universal_newlines].
    destruct (Ascii.eqb_spec c PyStr.CR) as [->|Hc].
    + destruct s as [|d s]; [reflexivity|]. simpl in Hlen.
      destruct (Ascii.eqb d PyStr.LF).
      * cbn [PyStr.contains]. rewrite IH by lia. reflexivity.
      * cbn [PyStr.contains]. rewrite IH by (simpl; lia). reflexivity.
    + cbn [PyStr.contains]. rewrite IH by lia.
      unfold cr. cbn [PyStr.startswith].
      apply Ascii.eqb_neq in Hc. rewrite Ascii.eqb_sym, Hc. reflexivity.
Qed.

(** A text without CR is read as it is. *)
Lemma universal_newlines_id (s : string) :
  PyStr.contains cr s = false -> PyStr.universal_newlines s = s.
Proof.
  induction s as [|c s IH]; [reflexivity|].
  cbn [PyStr.contains PyStr.universal_newlines]. intros Hc.
  apply orb_false_iff in Hc. destruct Hc as [Hhead Htail].
  unfold cr in Hhead. cbn [PyStr.startswith] in Hhead.
  rewrite andb_true_r in Hhead. rewrite Ascii.eqb_sym in Hhead. rewrite Hhead.
  now rewrite IH.
Qed.

Lemma plain_snoc (cur : string) (c : ascii) :
  plain cur = true -> ends_line c = false -> plain (cur +:+ String c "") = true.
Proof.
  intros Hcur Hc. induction cur as [|x cur IH].
  - simpl. now rewrite Hc.
  - rewrite append_cons. simpl in Hcur |- *.
    apply andb_true_iff in Hcur. destruct Hcur as [Hx Hcur].
    rewrite Hx. simpl. now apply IH.
Qed.

Lemma is_line_plain (cur : string) :
  plain cur = true -> cur <> "" -> is_line cur = true.
Proof.
  induction cur as [|x cur IH]; [easy|]. simpl. intros Hcur _.
  apply andb_true_iff in Hcur. destruct Hcur as [Hx Hcur].
  apply negb_true_iff in Hx. rewrite Hx.
  destruct cur as [|y cur]; [reflexivity|].
  rewrite IH by easy. apply orb_true_r.
Qed.

Lemma is_line_ended (cur ending : string) :
  plain cur = true -> is_line ending = true -> is_line (cur +:+ ending) = true.
Proof.
  intros Hcur Hend. induction cur as [|x cur IH]; [exact Hend|].
  rewrite append_cons. simpl in Hcur |- *.
  apply andb_true_iff in Hcur. destruct Hcur as [Hx Hcur].
  apply negb_true_iff in Hx. rewrite Hx, IH by assumption. apply orb_true_r.
Qed.

(** What [splitlines] returns are lines. *)
Lemma splitlines_from_lines (n : nat) :
  forall s cur,
    String.length s <= n -> plain cur = true ->
    Forall (fun l => is_line l = true) (PyStr.splitlines_from cur s).
Proof.
  induction n as [|n IH]; intros s cur Hlen Hcur.
  - destruct s; [|simpl in Hlen; lia]. simpl.
    destruct cur; constructor; [now apply is_line_plain | constructor].
  - destruct s as [|c s].
    { simpl. destruct cur; constructor; [now apply is_line_plain | constructor]. }
    simpl in Hlen. cbn [PyStr.splitlines_from].
    destruct (Ascii.eqb_spec c PyStr.CR) as [->|Hc].
    + destruct s as [|d s].
      * constructor; [|constructor]. now apply is_line_ended.
      * simpl in Hlen. destruct (Ascii.eqb_spec d PyStr.LF) as [->|Hd].
        -- constructor; [now apply is_line_ended | apply IH; [lia | reflexivity]].
        -- constructor; [now apply is_line_ended
                        | apply IH; [simpl; lia | reflexivity]].
    + destruct (PyStr.is_linebreak c) eqn:Hbreak.
      * constructor; [|apply IH; [lia | reflexivity]].
        apply is_line_ended; [assumption|].
        simpl. unfold ends_line. rewrite Hbreak, orb_true_r. reflexivity.
      * apply IH; [lia|]. apply plain_snoc; [assumption|].
        unfold ends_line. rewrite Hbreak.
        apply Ascii.eqb_neq in Hc. now rewrite Hc.
Qed.

Lemma splitlines_lines (s : string) :
  Forall (fun l => is_line l = true) (PyStr.splitlines s).
Proof. apply (splitlines_from_lines (String.length s)); [lia | reflexivity]. Qed.

(** ** The cleaned metadata *)

Section CleanMetadata.

Context `{PyRuntime}.

(** C9, as the code has it. [_get_clean_metadata_content] reads
    [metadata.txt] in text mode, so every CRLF and every lone CR of the
    file has become LF before the lines are looked at. Of the lines of the
    text so read, wherever they are, it replaces every one whose stripped
    form starts with [name=] by [name=<plugin_name>] and LF, whatever
    ended it, and returns every other line as it is in that text. No CR
    is left in the text read, and the text read is the content of the file
    exactly when the file has no CR. *)
Theorem clean_metadata_content_lines
    (env : Env) (plugin_name on_disk : string) (w : World) :
  src_files env !! Path "metadata.txt" = Some on_disk ->
  let text := PyStr.universal_newlines on_disk in
  let lines := PyStr.splitlines text in
  _get_clean_metadata_content env plugin_name w
  = (Returned (PyStr.join (map (clean_line plugin_name) lines)), w) /\
  PyStr.join lines = text /\
  Forall (fun line => is_line line = true) lines /\
  (forall line,
      (PyStr.startswith "name=" (PyStr.strip line) = true ->
       clean_line plugin_name line = "name=" +:+ plugin_name +:+ lf) /\
      (PyStr.startswith "name=" (PyStr.strip line) = false ->
       clean_line plugin_name line = line)) /\
  PyStr.contains cr text = false /\
  (PyStr.contains cr on_disk = false <-> text = on_disk).
Proof.
  intros Hread text lines. split; [|split; [|split; [|split; [|split]]]].
  - unfold _get_clean_metadata_content, read_metadata_txt, bind.
    now rewrite Hread.
  - apply join_splitlines.
  - apply splitlines_lines.
  - intros line. unfold clean_line, is_name_line. split; now intros ->.
  - apply (universal_newlines_no_cr (String.length on_disk)). lia.
  - split; [apply universal_newlines_id|].
    intros Heq. rewrite <- Heq.
    apply (universal_newlines_no_cr (String.length on_disk)). lia.
Qed.

End CleanMetadata.

(** C9 as stated fails on a file with CRLF line endings: the line
    [version=1.2.0] CR LF is no name line, and it does not come back as it is
    in the file but ended by LF alone. *)
Lemma clean_metadata_crlf_counterexample :
  src_files demo_env !! @Path demo_runtime "metadata.txt" = Some demo_metadata_txt /\
  In ("version=1.2.0" +:+ crlf) (PyStr.splitlines demo_metadata_txt) /\
  is_name_line ("version=1.2.0" +:+ crlf) = false /\
  fst (@_get_clean_metadata_content demo_runtime demo_env "My Plugin" demo_world)
  = Returned ("[general]" +:+ lf +:+ "name=My Plugin" +:+ lf +:+ "version=1.2.0" +:+ lf) /\
  claimed_clean_content "My Plugin" demo_metadata_txt
  = "[general]" +:+ crlf +:+ "name=My Plugin" +:+ lf +:+ "version=1.2.0" +:+ crlf /\
  fst (@_get_clean_metadata_content demo_runtime demo_env "My Plugin" demo_world)
  <> Returned (claimed_clean_content "My Plugin" demo_metadata_txt).
Proof.
  split; [vm_compute; reflexivity|].
  split; [vm_compute; tauto|].
  split; [vm_compute; reflexivity|].
  split; [vm_compute; reflexivity|].
  split; [vm_compute; reflexivity|].
  vm_compute. discriminate.
Qed.

(** The [metadata.txt] of the demo plugin. *)
Lemma clean_metadata_content_lines_witness :
  src_files demo_env !! @Path demo_runtime "metadata.txt" = Some demo_metadata_txt /\
  @_get_clean_metadata_content demo_runtime demo_env "My Plugin" demo_world
  = (Returned
       (PyStr.join
          (map (clean_line "My Plugin")
               (PyStr.splitlines (PyStr.universal_newlines demo_metadata_txt)))),
     demo_world).
Proof.
  assert (Hread : src_files demo_env !! @Path demo_runtime "metadata.txt"
                  = Some demo_metadata_txt) by (vm_compute; reflexivity).
  split; [exact Hread|].
  exact (proj1 (@clean_metadata_content_lines demo_runtime demo_env "My Plugin"
                  demo_metadata_txt demo_world Hread)).
Defined.

(** ** The manifest updater on the file system *)

(** The entries of a plugin are what the generator of
    [_find_or_create_plugin_node] runs through: the [pyqgis_plugin] children
    whose [name] is the plugin's. *)
Lemma entries_for_findall (plugin_name : string) (root : Element) :
  entries_for plugin_name root
  = List.filter
      (fun node => match get node "name" with
                   | Some n => String.eqb n plugin_name
                   | None => false
                   end)
      (findall root "pyqgis_plugin").
Proof.
  unfold entries_for, findall, is_plugin_node.
  induction (children root) as [|x l IH]; simpl; [reflexivity|].
  destruct (has_tag "pyqgis_plugin" x); simpl; [|exact IH].
  destruct (get x "name") as [n|]; [|exact IH].
  destruct (String.eqb n plugin_name); now rewrite IH.
Qed.

Section UpdateRepositoryFile.

Context `{PyRuntime}.

(** The document [update_repository_file] writes is [update_plugin_entry]
    of the document it has read. *)
Lemma update_repository_file_steps (env : Env) (metadata : PluginMetadata) (w : World) :
  update_repository_file env metadata w
  = except_ParseError
      (master_xml_path <- _get_repository_path env metadata ;;
       root <- _load_or_create_xml_tree master_xml_path ;;
       _write_plugin_xml env (update_plugin_entry metadata root) master_xml_path)
      (raise (ReleaseScriptError "Error processing repository XML.")) w.
Proof.
  unfold update_repository_file, except_ParseError, bind.
  destruct (_get_repository_path env metadata w) as [[master|e] w1]; [|reflexivity].
  destruct (_load_or_create_xml_tree master w1) as [[root|e] w2]; [|reflexivity].
  unfold update_plugin_entry.
  now destruct (_find_or_create_plugin_node root (name metadata)).
Qed.

Lemma write_plugin_xml_ok (env : Env) (tree : Element) (destination_path : string)
    (w : World) :
  write_error env = None -> replace_error env = None ->
  files w !! tmp_name_for env destination_path = None ->
  tmp_name_for env destination_path <> destination_path ->
  _write_plugin_xml env tree destination_path w
  = (Returned tt, set_files (<[destination_path := Text (xml_write tree)]> (files w)) w).
Proof.
  intros Hwrite Hreplace Hfresh Hne.
  unfold _write_plugin_xml, bind, finally, except_OSError, mkstemp, tree_write,
    path_replace, unlink_missing_ok, raise.
  fold (tmp_name_for env destination_path).
  rewrite Hwrite, Hreplace. simpl.
  rewrite insert_insert_eq, lookup_insert_eq. simpl.
  unfold set_files. simpl. f_equal. f_equal.
  rewrite delete_insert_id by assumption.
  rewrite delete_insert_ne by assumption.
  now rewrite delete_id.
Qed.

Lemma get_repository_path_ok (env : Env) (metadata : PluginMetadata) (w : World)
    (shared_repo_path : string) :
  _file_url_to_path (url_base metadata) = Returned shared_repo_path ->
  mkdir_error env = None ->
  files w !! shared_repo_path = None ->
  _get_repository_path env metadata w
  = (Returned (joinpath shared_repo_path (Path "plugins.xml")),
     mkWorld (files w) (dirs w ∪ list_to_set (path_prefixes "" shared_repo_path))
       (warnings w)).
Proof.
  intros Hurl Hmkdir Hshared.
  unfold _get_repository_path, bind, lift, except_OSError, mkdir_parents, ret.
  now rewrite Hurl, Hmkdir, Hshared.
Qed.

Lemma load_xml_tree_ok (xml_path content : string) (root : Element) (w : World) :
  files w !! xml_path = Some (Text content) ->
  xml_forbidden content = false ->
  xml_parse content = Some root ->
  _load_or_create_xml_tree xml_path w = (Returned root, w).
Proof.
  intros Hfile Hallowed Hparse.
  unfold _load_or_create_xml_tree, repo_exists, except_ParseError, DefET_parse.
  rewrite Hfile, Hallowed, Hparse. rewrite bool_decide_eq_true_2 by eauto. reflexivity.
Qed.

(** A run on a repository whose manifest is there and well formed, with
    nothing failing: the manifest file holds the updated document, and no
    other file has changed. *)
Lemma update_repository_file_writes
    (env : Env) (metadata : PluginMetadata) (w : World)
    (shared_repo_path content : string) (root : Element) :
  _file_url_to_path (url_base metadata) = Returned shared_repo_path ->
  mkdir_error env = None -> write_error env = None -> replace_error env = None ->
  let master_xml_path := joinpath shared_repo_path (Path "plugins.xml") in
  files w !! shared_repo_path = None ->
  files w !! master_xml_path = Some (Text content) ->
  xml_forbidden content = false ->
  xml_parse content = Some root ->
  files w !! tmp_name_for env master_xml_path = None ->
  fst (update_repository_file env metadata w) = Returned tt /\
  files (snd (update_repository_file env metadata w))
  = <[master_xml_path := Text (xml_write (update_plugin_entry metadata root))]> (files w).
Proof.
  intros Hurl Hmkdir Hwrite Hreplace master Hshared Hmaster Hallowed Hparse Hfresh.
  set (w1 := mkWorld (files w)
               (dirs w ∪ list_to_set (path_prefixes "" shared_repo_path)) (warnings w)).
  assert (Hrun :
    update_repository_file env metadata w
    = (Returned tt,
       set_files
         (<[master := Text (xml_write (update_plugin_entry metadata root))]> (files w))
         w1)).
  { rewrite update_repository_file_steps.
    unfold except_ParseError, bind.
    rewrite (get_repository_path_ok _ _ _ _ Hurl Hmkdir Hshared). fold master w1.
    rewrite (load_xml_tree_ok master content root w1) by assumption.
    rewrite write_plugin_xml_ok; try assumption; [reflexivity|].
    intros Heq. simpl files in Hfresh. rewrite Heq in Hfresh. congruence. }
  rewrite Hrun. split; reflexivity.
Qed.

End UpdateRepositoryFile.

(** A whole run on the demo plugin, configured with the development marker
    in its name: the manifest gets one entry under the release name, the
    archive is named after it. *)
Example demo_release_run :
  let result := @run_release_process demo_runtime dev_env demo_world in
  fst result = Returned tt /\
  files (snd result) !! "/srv/repo/plugins.xml"
  = Some (Text (demo_xml_write
                  (update_plugin_entry demo_metadata (mkElement "plugins" [] None [])))) /\
  files (snd result) !! "/srv/repo/My_Plugin.zip"
  = Some (Archive
            [ ZWritestr "My_Plugin/metadata.txt"
                ("[general]" +:+ lf +:+ "name=My Plugin" +:+ lf +:+ "version=1.2.0" +:+ lf);
              ZWrite "__init__.py" "My_Plugin/__init__.py";
              ZWrite "modules/context.py" "My_Plugin/modules/context.py";
              ZWrite "modules/ui/dialog.py" "My_Plugin/modules/ui/dialog.py" ]) /\
  warnings (snd result)
  = [TranslationDirNotFound "i18n"; FileNotFound "missing.txt"; DirectoryNotFound "i18n"].
Proof. vm_compute. repeat split; reflexivity. Qed.

(** ** Joining paths *)

(** For a relative path under a directory that is not the current one,
    [a / b] is the two joined by a separator. *)
Lemma joinpath_relative (a b : string) :
  is_absolute b = false -> a <> "." -> b <> "." -> PyStr.endswith "/" a = false ->
  joinpath a b = a +:+ "/" +:+ b.
Proof.
  intros Hb Ha Hb' Hend. unfold joinpath.
  apply String.eqb_neq in Ha, Hb'. now rewrite Hb, Ha, Hb', Hend.
Qed.

Example joinpath_package_root : joinpath "My_Plugin" "modules/ui/dialog.py"
                                = "My_Plugin/modules/ui/dialog.py".
Proof. reflexivity. Qed.

Example joinpath_absolute : joinpath "My_Plugin" "/etc/hosts" = "/etc/hosts".
Proof. reflexivity. Qed.

Example parent_of_manifest : parent "/srv/repo/plugins.xml" = "/srv/repo".
Proof. reflexivity. Qed.

(** ** The atomic write on the demo repository *)

Example write_plugin_xml_demo_success :
  let result := @_write_plugin_xml demo_runtime demo_env demo_manifest
                  "/srv/repo/plugins.xml" demo_world in
  fst result = Returned tt /\
  map_to_list (files (snd result))
  = [("/srv/repo/plugins.xml", Text (demo_xml_write demo_manifest))].
Proof. vm_compute. split; reflexivity. Qed.

Example write_plugin_xml_demo_rename_fails :
  @_write_plugin_xml demo_runtime failing_rename_env demo_manifest
    "/srv/repo/plugins.xml" demo_world
  = (Raised (ReleaseScriptError
               ("Failed to write/update `/srv/repo/plugins.xml`. " +:+
                "Check permissions on `/srv/repo`: Permission denied")),
     demo_world).
Proof. vm_compute. reflexivity. Qed.

(** * Further properties of the release script *)

(** ** The metadata reader *)

Ltac read_options :=
  repeat match goal with
         | |- context [config_get ?c ?s ?o] =>
             let E := fresh "Hget" in
             destruct (config_get c s o) eqn:E; cbn [and_then]
         end.

Lemma read_metadata_first_error (config : ConfigParser) :
  match first_error config required_options with
  | Some e => read_metadata config = inr e
  | None => exists metadata, read_metadata config = inl metadata
  end.
Proof.
  unfold read_metadata, required_options. cbn [first_error].
  read_options; try reflexivity. eexists. reflexivity.
Qed.

(** The records [get_plugin_metadata] returns, by the values of the
    options. *)
Lemma read_metadata_option_values (config : ConfigParser) :
  ((forall section opt,
       In (section, opt) required_options ->
       is_Some (option_value config section opt)) <->
   exists metadata, get_plugin_metadata true config = Returned metadata) /\
  (forall metadata,
      get_plugin_metadata true config = Returned metadata ->
      option_value config "release" "plugin_package_name"
        = Some (plugin_package_name metadata) /\
      Str.split <$> option_value config "release" "files_to_package"
        = Some (files_to_package metadata) /\
      Str.split <$> option_value config "release" "dirs_to_package"
        = Some (dirs_to_package metadata) /\
      option_value config "release" "translation_dir" = Some (translation_dir metadata) /\
      Str.split <$> option_value config "release" "excluded_dirs"
        = Some (excluded_dirs metadata) /\
      Str.split <$> option_value config "release" "excluded_extensions"
        = Some (excluded_extensions metadata) /\
      option_value config "general" "name" = Some (name metadata) /\
      option_value config "general" "version" = Some (version metadata) /\
      option_value config "general" "changelog" = Some (changelog metadata) /\
      option_value config "general" "description" = Some (description metadata) /\
      option_value config "general" "qgisMinimumVersion"
        = Some (qgis_minimum_version metadata) /\
      option_value config "general" "author" = Some (author metadata) /\
      option_value config "general" "email" = Some (email metadata) /\
      option_value config "general" "download_url_base" = Some (url_base metadata)).
Proof.
  split.
  - split.
    + intros Hall. unfold get_plugin_metadata. cbn [negb].
      pose proof (read_metadata_first_error config) as Hfirst.
      destruct (first_error config required_options) as [e|] eqn:He.
      * exfalso. unfold required_options in He, Hall. cbn [first_error] in He.
        repeat match type of He with
               | context [config_get ?c ?s ?o] =>
                   let E := fresh "Hget" in
                   destruct (config_get c s o) eqn:E;
                   [ | let Hs := fresh in
                       assert (Hs : is_Some (option_value c s o))
                         by (apply Hall; simpl; tauto);
                       unfold option_value in Hs; rewrite E in Hs;
                       destruct Hs; discriminate ]
               end.
        discriminate.
      * destruct Hfirst as (metadata & ->). eauto.
    + intros (metadata & Hret) section opt Hin.
      unfold get_plugin_metadata in Hret. cbn [negb] in Hret.
      unfold read_metadata, option_value in *. unfold required_options in Hin.
      simpl In in Hin.
      repeat match type of Hret with
             | context [config_get ?c ?s ?o] =>
                 let E := fresh "Hget" in
                 destruct (config_get c s o) eqn:E; cbn [and_then] in Hret;
                 [ | discriminate ]
             end.
      repeat (destruct Hin as [Heq|Hin];
              [ injection Heq as <- <-;
                match goal with H : config_get _ _ _ = inl _ |- _ => rewrite H end;
                eauto | ]).
      destruct Hin.
  - intros metadata Hret.
    unfold get_plugin_metadata in Hret. cbn [negb] in Hret.
    unfold read_metadata, option_value in *.
    repeat match type of Hret with
           | context [config_get ?c ?s ?o] =>
               let E := fresh "Hget" in
               destruct (config_get c s o) eqn:E; cbn [and_then] in Hret;
               [ | discriminate ]
           end.
    injection Hret as <-. simpl. repeat split; reflexivity.
Qed.

(** The value of an option of a section other than [DEFAULT], by the
    tables of the parser. *)
Lemma option_value_lookup (config : ConfigParser) (section opt : string) :
  section <> "DEFAULT" ->
  option_value config section opt
  = match _sections config !! section with
    | Some options =>
        match options !! Str.lower opt with
        | Some value => Some value
        | None => _defaults config !! Str.lower opt
        end
    | None => None
    end.
Proof.
  intros Hne. unfold option_value, config_get.
  destruct (_sections config !! section) as [options|].
  - destruct (options !! Str.lower opt); [reflexivity|].
    now destruct (_defaults config !! Str.lower opt).
  - apply String.eqb_neq in Hne. now rewrite Hne.
Qed.

(** X1. With [metadata.txt] there and read by [config.read],
    [get_plugin_metadata] returns a record exactly when each of the
    fourteen options it reads has a value: the six options of the section
    [release] and the eight of the section [general]. The value of an
    option is what the parser holds under the option's name in lower case,
    in the option's section or, where the section does not have it, among
    the defaults; without the section there is no value. The scalar fields
    of the record are these values as they are, and the four list fields
    ([files_to_package], [dirs_to_package], [excluded_dirs],
    [excluded_extensions]) are the values split at white space. *)
Theorem get_plugin_metadata_reads (config : ConfigParser) :
  let value := fun section opt =>
    match _sections config !! section with
    | Some options =>
        match options !! Str.lower opt with
        | Some v => Some v
        | None => _defaults config !! Str.lower opt
        end
    | None => None
    end in
  (Forall (fun so => is_Some (value (fst so) (snd so)))
     [ ("release", "plugin_package_name"); ("release", "files_to_package");
       ("release", "dirs_to_package"); ("release", "translation_dir");
       ("release", "excluded_dirs"); ("release", "excluded_extensions");
       ("general", "name"); ("general", "version"); ("general", "changelog");
       ("general", "description"); ("general", "qgisMinimumVersion");
       ("general", "author"); ("general", "email"); ("general", "download_url_base") ] <->
   exists metadata, get_plugin_metadata true config = Returned metadata) /\
  (forall metadata,
      get_plugin_metadata true config = Returned metadata ->
      value "release" "plugin_package_name" = Some (plugin_package_name metadata) /\
      Str.split <$> value "release" "files_to_package" = Some (files_to_package metadata) /\
      Str.split <$> value "release" "dirs_to_package" = Some (dirs_to_package metadata) /\
      value "release" "translation_dir" = Some (translation_dir metadata) /\
      Str.split <$> value "release" "excluded_dirs" = Some (excluded_dirs metadata) /\
      Str.split <$> value "release" "excluded_extensions"
        = Some (excluded_extensions metadata) /\
      value "general" "name" = Some (name metadata) /\
      value "general" "version" = Some (version metadata) /\
      value "general" "changelog" = Some (changelog metadata) /\
      value "general" "description" = Some (description metadata) /\
      value "general" "qgisMinimumVersion" = Some (qgis_minimum_version metadata) /\
      value "general" "author" = Some (author metadata) /\
      value "general" "email" = Some (email metadata) /\
      value "general" "download_url_base" = Some (url_base metadata)) /\
  Str.lower "qgisMinimumVersion" = "qgisminimumversion".
Proof.
  intros value.
  assert (Hvalue : forall section opt,
    In (section, opt) required_options ->
    option_value config section opt = value section opt).
  { intros section opt Hin. apply option_value_lookup.
    unfold required_options in Hin. simpl In in Hin.
    repeat (destruct Hin as [Heq|Hin]; [injection Heq as <- <-; discriminate|]).
    destruct Hin. }
  destruct (read_metadata_option_values config) as [Hiff Hfields].
  split; [|split; [|reflexivity]].
  - rewrite <- Hiff. change (Forall _ _)
      with (Forall (fun so => is_Some (value (fst so) (snd so))) required_options).
    rewrite Forall_forall. split.
    + intros Hall section opt Hin. rewrite (Hvalue _ _ Hin).
      apply (Hall (section, opt)). now apply list_elem_of_In.
    + intros Hall [section opt] Hin. apply list_elem_of_In in Hin.
      cbn [fst snd]. rewrite <- (Hvalue _ _ Hin). now apply Hall.
  - intros metadata Hret. specialize (Hfields metadata Hret).
    rewrite !Hvalue in Hfields by (unfold required_options; simpl; tauto).
    exact Hfields.
Qed.

Example get_plugin_metadata_demo :
  get_plugin_metadata true demo_config = Returned dev_metadata.
Proof. vm_compute. reflexivity. Qed.

Example get_plugin_metadata_without_email :
  get_plugin_metadata true demo_config_without_email
  = Raised (ReleaseScriptError
              "Missing required key 'email' in section '[general]' in metadata.txt.").
Proof. vm_compute. reflexivity. Qed.

Lemma config_get_error (config : ConfigParser) (section opt : string) (e : ConfigError) :
  config_get config section opt = inr e ->
  (e = NoSectionError section /\ _sections config !! section = None) \/
  e = NoOptionError (Str.lower opt) section.
Proof.
  unfold config_get.
  destruct (_sections config !! section) as [d|] eqn:Hs.
  - destruct (d !! Str.lower opt); [discriminate|].
    destruct (_defaults config !! Str.lower opt); [discriminate|].
    intros [= <-]. now right.
  - destruct (String.eqb section "DEFAULT").
    + rewrite lookup_empty.
      destruct (_defaults config !! Str.lower opt); [discriminate|].
      intros [= <-]. now right.
    + intros [= <-]. left. split; reflexivity.
Qed.

(** X2. When [metadata.txt] is not there, [get_plugin_metadata] raises the
    [ReleaseScriptError] saying so, whatever a read would give. When the
    file is there and [config.read] raises (the file is no INI file, or is
    not UTF-8), that exception is raised as it is: the read is not inside
    the [try], so it is no [ReleaseScriptError]. Once the file is read, an
    option without a value makes the function raise a [ReleaseScriptError]
    and return no record (nothing is defaulted); the error is that of the
    first option, in reading order, that cannot be read, so a missing
    [release] section is reported whatever else is missing; the message
    names the section, or the key in lower case and its section; and
    nothing but a [ReleaseScriptError] is raised then. *)
Theorem get_plugin_metadata_errors (config : ConfigParser) :
  (forall read,
      get_plugin_metadata false read
      = Raised (ReleaseScriptError "Metadata file not found at 'metadata.txt'")) /\
  (forall e, get_plugin_metadata true (ReadRaises e) = Raised e) /\
  (forall e,
      first_error config required_options = Some e ->
      get_plugin_metadata true config = Raised (ReleaseScriptError (config_error_msg e))) /\
  (forall section opt,
      In (section, opt) required_options ->
      option_value config section opt = None ->
      exists e,
        first_error config required_options = Some e /\
        get_plugin_metadata true config
        = Raised (ReleaseScriptError (config_error_msg e))) /\
  (_sections config !! "release" = None ->
   get_plugin_metadata true config
   = Raised (ReleaseScriptError
               "Could not find required section '[release]' in metadata.txt.")) /\
  (forall section opt e,
      config_get config section opt = inr e ->
      config_error_msg e
      = "Could not find required section '[" +:+ section +:+ "]' in metadata.txt." \/
      config_error_msg e
      = "Missing required key '" +:+ Str.lower opt +:+ "' in section '[" +:+ section +:+
        "]' in metadata.txt.") /\
  (forall metadata_exists,
      (exists metadata, get_plugin_metadata metadata_exists config = Returned metadata) \/
      (exists msg,
          get_plugin_metadata metadata_exists config = Raised (ReleaseScriptError msg))).
Proof.
  assert (Hfirst : forall e,
             first_error config required_options = Some e ->
             get_plugin_metadata true config
             = Raised (ReleaseScriptError (config_error_msg e))).
  { intros e He. unfold get_plugin_metadata. cbn [negb].
    pose proof (read_metadata_first_error config) as Hread.
    rewrite He in Hread. now rewrite Hread. }
  split; [reflexivity|]. split; [reflexivity|].
  split; [exact Hfirst|]. split; [|split; [|split]].
  - intros section opt Hin Hnone.
    destruct (first_error config required_options) as [e|] eqn:He.
    + exists e. split; [reflexivity|]. now apply Hfirst.
    + exfalso. unfold required_options in He, Hin. cbn [first_error] in He.
      unfold option_value in Hnone. simpl In in Hin.
      repeat match type of He with
             | context [config_get ?c ?s ?o] =>
                 let E := fresh "Hget" in
                 destruct (config_get c s o) eqn:E; [ | discriminate ]
             end.
      repeat (destruct Hin as [Heq|Hin];
              [ injection Heq as <- <-;
                match goal with
                | H : config_get _ _ _ = inl _ |- _ => rewrite H in Hnone
                end;
                discriminate | ]).
      destruct Hin.
  - intros Hrelease. rewrite (Hfirst (NoSectionError "release")); [reflexivity|].
    unfold required_options. cbn [first_error]. unfold config_get at 1.
    now rewrite Hrelease.
  - intros section opt e He.
    destruct (config_get_error _ _ _ _ He) as [[-> _]| ->]; [left | right]; reflexivity.
  - intros [|].
    + unfold get_plugin_metadata. cbn [negb].
      destruct (read_metadata config); eauto.
    + right. eauto.
Qed.

(** ** White-space separated lists *)

Lemma no_space_snoc (cur : string) (c : ascii) :
  no_space cur = true -> PyStr.is_space c = false ->
  no_space (cur +:+ String c "") = true.
Proof.
  intros Hcur Hc. induction cur as [|x cur IH].
  - simpl. now rewrite Hc.
  - rewrite append_cons. simpl in Hcur |- *.
    apply andb_true_iff in Hcur. destruct Hcur as [Hx Hcur].
    rewrite Hx. simpl. now apply IH.
Qed.

(** What [split] returns are tokens. *)
Lemma split_from_tokens (s : string) :
  forall cur,
    no_space cur = true ->
    Forall (fun t => is_token t = true) (Str.split_from cur s).
Proof.
  induction s as [|c s IH]; intros cur Hcur.
  - simpl. destruct cur; constructor; [|constructor].
    unfold is_token. now rewrite Hcur.
  - cbn [Str.split_from]. destruct (PyStr.is_space c) eqn:Hc.
    + destruct cur as [|x cur]; [now apply IH|].
      constructor; [|now apply IH]. unfold is_token. now rewrite Hcur.
    + apply IH. now apply no_space_snoc.
Qed.

Lemma split_tokens (s : string) : Forall (fun t => is_token t = true) (Str.split s).
Proof. now apply split_from_tokens. Qed.

Lemma split_from_no_space (t : string) :
  forall cur s,
    no_space t = true -> Str.split_from cur (t +:+ s) = Str.split_from (cur +:+ t) s.
Proof.
  induction t as [|c t IH]; intros cur s Ht.
  - now rewrite append_nil_r.
  - simpl in Ht. apply andb_true_iff in Ht. destruct Ht as [Hc Ht].
    apply negb_true_iff in Hc.
    rewrite append_cons. cbn [Str.split_from]. rewrite Hc.
    rewrite IH by assumption. f_equal.
    rewrite append_assoc. reflexivity.
Qed.

Lemma split_token_space (t s : string) :
  is_token t = true ->
  Str.split_from "" (t +:+ " " +:+ s) = t :: Str.split_from "" s.
Proof.
  unfold is_token. intros Ht. apply andb_true_iff in Ht. destruct Ht as [Hne Ht].
  rewrite split_from_no_space by assumption.
  change ("" +:+ t) with t. destruct t as [|c t]; [discriminate|]. reflexivity.
Qed.

(** Tokens written with one space between them are read back as they are. *)
Lemma split_unwords (tokens : list string) :
  Forall (fun t => is_token t = true) tokens -> Str.split (unwords tokens) = tokens.
Proof.
  unfold Str.split. induction 1 as [|t rest Ht Hrest IH]; [reflexivity|].
  destruct rest as [|t' rest].
  - cbn [unwords]. rewrite <- (append_nil_r t) at 1.
    rewrite split_from_no_space.
    + change ("" +:+ t) with t. unfold is_token in Ht.
      destruct t; [discriminate | reflexivity].
    + unfold is_token in Ht. apply andb_true_iff in Ht. tauto.
  - change (unwords (t :: t' :: rest)) with (t +:+ " " +:+ unwords (t' :: rest)).
    rewrite split_token_space by assumption. now rewrite IH.
Qed.

Lemma split_from_blank (s : string) : blank s = true -> Str.split_from "" s = [].
Proof.
  induction s as [|c s IH]; [reflexivity|].
  cbn [blank Str.split_from]. intros Hb. apply andb_true_iff in Hb.
  destruct Hb as [Hc Hs]. rewrite Hc. now apply IH.
Qed.

(** X3. The list fields of a record that [get_plugin_metadata] returns
    ([files_to_package], [dirs_to_package], [excluded_dirs],
    [excluded_extensions]) hold tokens only: no item is empty and no item
    holds white space. In particular the empty string is no excluded
    directory name and no excluded extension. A list option whose value is
    empty or holds white space only gives the empty list. *)
Theorem get_plugin_metadata_list_fields
    (metadata_exists : bool) (config : ConfigParser) (metadata : PluginMetadata) :
  get_plugin_metadata metadata_exists config = Returned metadata ->
  Forall (fun t => is_token t = true) (files_to_package metadata) /\
  Forall (fun t => is_token t = true) (dirs_to_package metadata) /\
  Forall (fun t => is_token t = true) (excluded_dirs metadata) /\
  Forall (fun t => is_token t = true) (excluded_extensions metadata) /\
  ~ In "" (excluded_dirs metadata) /\
  ~ In "" (excluded_extensions metadata) /\
  (forall value,
      blank value = true ->
      (option_value config "release" "files_to_package" = Some value ->
       files_to_package metadata = []) /\
      (option_value config "release" "dirs_to_package" = Some value ->
       dirs_to_package metadata = []) /\
      (option_value config "release" "excluded_dirs" = Some value ->
       excluded_dirs metadata = []) /\
      (option_value config "release" "excluded_extensions" = Some value ->
       excluded_extensions metadata = [])).
Proof.
  intros Hret. unfold get_plugin_metadata in Hret.
  destruct metadata_exists; [|discriminate]. cbn [negb] in Hret.
  unfold read_metadata, option_value in *.
  repeat match type of Hret with
         | context [config_get ?c ?s ?o] =>
             let E := fresh "Hget" in
             destruct (config_get c s o) eqn:E; cbn [and_then] in Hret;
             [ | discriminate ]
         end.
  injection Hret as <-. cbn [files_to_package dirs_to_package excluded_dirs
                               excluded_extensions].
  assert (Hno : forall s, ~ In "" (Str.split s)).
  { intros value Hin. pose proof (split_tokens value) as Htok.
    rewrite Forall_forall in Htok.
    apply list_elem_of_In in Hin. specialize (Htok _ Hin). discriminate. }
  repeat (split; [first [apply split_tokens | apply Hno]|]).
  intros value Hblank.
  repeat split; intros [= ->]; now apply split_from_blank.
Qed.

(** The list fields of the demo configuration. *)
Lemma get_plugin_metadata_list_fields_witness :
  get_plugin_metadata true demo_config = Returned dev_metadata /\
  Forall (fun t => is_token t = true) (files_to_package dev_metadata) /\
  ~ In "" (excluded_dirs dev_metadata).
Proof.
  assert (Hret : get_plugin_metadata true demo_config = Returned dev_metadata)
    by (vm_compute; reflexivity).
  split; [exact Hret|].
  destruct (get_plugin_metadata_list_fields true demo_config dev_metadata Hret)
    as (Hfiles & _ & _ & _ & Hdirs & _ & _).
  split; assumption.
Defined.

(** X4. A list option written as tokens with one space between them is read
    back as exactly these tokens, in their order: so for [files_to_package],
    and so for the other list options, which are read the same way. *)
Theorem get_plugin_metadata_list_round_trip
    (config : ConfigParser) (metadata : PluginMetadata) (tokens : list string) :
  Forall (fun t => is_token t = true) tokens ->
  get_plugin_metadata true config = Returned metadata ->
  (option_value config "release" "files_to_package" = Some (unwords tokens) ->
   files_to_package metadata = tokens) /\
  (option_value config "release" "dirs_to_package" = Some (unwords tokens) ->
   dirs_to_package metadata = tokens) /\
  (option_value config "release" "excluded_dirs" = Some (unwords tokens) ->
   excluded_dirs metadata = tokens) /\
  (option_value config "release" "excluded_extensions" = Some (unwords tokens) ->
   excluded_extensions metadata = tokens).
Proof.
  intros Htokens Hret. unfold get_plugin_metadata in Hret. cbn [negb] in Hret.
  unfold read_metadata, option_value in *.
  repeat match type of Hret with
         | context [config_get ?c ?s ?o] =>
             let E := fresh "Hget" in
             destruct (config_get c s o) eqn:E; cbn [and_then] in Hret;
             [ | discriminate ]
         end.
  injection Hret as <-. cbn [files_to_package dirs_to_package excluded_dirs
                               excluded_extensions].
  repeat split; intros [= ->]; now apply split_unwords.
Qed.

(** The directories of the demo configuration. *)
Lemma get_plugin_metadata_list_round_trip_witness :
  Forall (fun t => is_token t = true) ["modules"; "i18n"] /\
  get_plugin_metadata true demo_config = Returned dev_metadata /\
  dirs_to_package dev_metadata = ["modules"; "i18n"].
Proof.
  assert (Htokens : Forall (fun t => is_token t = true) ["modules"; "i18n"])
    by (repeat constructor).
  assert (Hret : get_plugin_metadata true demo_config = Returned dev_metadata)
    by (vm_compute; reflexivity).
  split; [exact Htokens|]. split; [exact Hret|].
  destruct (get_plugin_metadata_list_round_trip demo_config dev_metadata
              ["modules"; "i18n"] Htokens Hret) as (_ & Hdirs & _).
  apply Hdirs. vm_compute. reflexivity.
Defined.

(** ** The entry of the plugin in the document *)

Lemma find_index_filter_pos {A} (p : A -> bool) (l : list A) (i : nat) :
  find_index p l = Some i -> 1 <= length (List.filter p l).
Proof.
  intros Hi. destruct (find_index_lookup _ _ _ Hi) as (x & Hx & Hp).
  assert (Hin : In x (List.filter p l)).
  { apply List.filter_In. split; [|assumption].
    apply list_elem_of_In. eapply list_elem_of_lookup_2. eassumption. }
  destruct (List.filter p l); [destruct Hin | simpl; lia].
Qed.

Lemma find_index_before {A} (p : A -> bool) (l : list A) (i j : nat) (x : A) :
  find_index p l = Some i -> j < i -> l !! j = Some x -> p x = false.
Proof.
  intros Hi Hlt Hx. destruct (p x) eqn:Hp; [|reflexivity].
  pose proof (find_index_first _ _ _ _ _ Hi Hx Hp). lia.
Qed.

Lemma new_plugin_node_tags (plugin_name t : string) :
  In t essential_tags ->
  is_Some (find (new_plugin_node plugin_name) t) /\
  findtext (new_plugin_node plugin_name) t = None /\
  length (findall (new_plugin_node plugin_name) t) = 1.
Proof.
  unfold essential_tags. simpl In.
  intros Hin.
  repeat (destruct Hin as [<-|Hin]; [vm_compute; eauto|]).
  destruct Hin.
Qed.

(** X5. [_find_or_create_plugin_node] gives the place of the first
    [pyqgis_plugin] child whose [name] is exactly the plugin's name. The
    children that were there stay where they are; when there was no such
    child, one is appended, whose [name] is the plugin's name and which has
    each of the eight field tags once, without text; and the tag, the
    attributes and the text of the root are kept. A second call finds the
    same node and creates nothing. *)
Theorem find_or_create_plugin_node_found (root : Element) (plugin_name : string) :
  let root' := fst (_find_or_create_plugin_node root plugin_name) in
  let i := snd (_find_or_create_plugin_node root plugin_name) in
  (exists node,
      children root' !! i = Some node /\
      tag node = "pyqgis_plugin" /\ get node "name" = Some plugin_name /\
      forall j x, j < i -> children root' !! j = Some x ->
                  is_plugin_node plugin_name x = false) /\
  (entries_for plugin_name root <> [] -> root' = root) /\
  (entries_for plugin_name root = [] ->
   children root' = children root ++ [new_plugin_node plugin_name] /\
   i = length (children root) /\
   forall t, In t essential_tags ->
             is_Some (find (new_plugin_node plugin_name) t) /\
             findtext (new_plugin_node plugin_name) t = None /\
             length (findall (new_plugin_node plugin_name) t) = 1) /\
  tag root' = tag root /\ attrib root' = attrib root /\ text root' = text root /\
  _find_or_create_plugin_node root' plugin_name = (root', i).
Proof.
  unfold _find_or_create_plugin_node, entries_for.
  destruct (find_index (is_plugin_node plugin_name) (children root)) as [i|] eqn:Hi;
    cbn [fst snd].
  - destruct (find_index_lookup _ _ _ Hi) as (node & Hnode & Hp).
    pose proof (find_index_filter_pos _ _ _ Hi) as Hpos.
    split; [|split; [|split; [|split; [|split; [|split]]]]]; try reflexivity.
    + exists node. apply is_plugin_node_true in Hp. destruct Hp as [Ht Hn].
      repeat split; try assumption.
      intros j x Hlt Hx. eapply find_index_before; eassumption.
    + intros Hnil. rewrite Hnil in Hpos. simpl in Hpos. lia.
    + now rewrite Hi.
  - pose proof (find_index_None _ _ Hi) as Hnone.
    destruct root as [t a tx c]. unfold with_children. cbn [children tag attrib text] in *.
    split; [|split; [|split; [|split; [|split; [|split]]]]]; try reflexivity.
    + exists (new_plugin_node plugin_name). split.
      * rewrite lookup_app_r by lia. now rewrite Nat.sub_diag.
      * split; [reflexivity|]. split; [reflexivity|].
        intros j x Hlt Hx. rewrite lookup_app_l in Hx by assumption.
        assert (Hin : In x (List.filter (is_plugin_node plugin_name) c) -> False)
          by (rewrite Hnone; auto).
        destruct (is_plugin_node plugin_name x) eqn:Hp; [|reflexivity].
        exfalso. apply Hin. apply List.filter_In. split; [|assumption].
        apply list_elem_of_In. eapply list_elem_of_lookup_2. eassumption.
    + intros Hne. now destruct Hne.
    + intros _. split; [reflexivity|]. split; [reflexivity|].
      intros t0 Ht0. now apply new_plugin_node_tags.
    + rewrite find_index_app, Hi. cbn [find_index].
      rewrite is_plugin_node_new. simpl. now rewrite Nat.add_0_r.
Qed.

Example find_or_create_demo :
  snd (_find_or_create_plugin_node demo_manifest "My Plugin") = 1 /\
  snd (_find_or_create_plugin_node demo_manifest "my plugin") = 2.
Proof. split; reflexivity. Qed.

(** X6. For a plain tag name (not empty, none of the characters of the path
    syntax in it), [_update_xml_tag] sets the text of the first child with
    the tag and adds a child with that text when there is none: afterwards
    the tag is found with the value, there are as many children with the
    tag as before and at least one, and the children with other tags are
    the same, in the same order. The parent's own tag, attributes and text
    are kept, and a second update with the same value changes nothing. *)
Theorem update_xml_tag_frame (tag_name value : string) (parent_node : Element) :
  plain_tag tag_name = true ->
  let parent' := _update_xml_tag tag_name value parent_node in
  findtext parent' tag_name = Some value /\
  length (findall parent' tag_name) = Nat.max 1 (length (findall parent_node tag_name)) /\
  List.filter (fun c => negb (has_tag tag_name c)) (children parent')
  = List.filter (fun c => negb (has_tag tag_name c)) (children parent_node) /\
  tag parent' = tag parent_node /\
  attrib parent' = attrib parent_node /\
  text parent' = text parent_node /\
  _update_xml_tag tag_name value parent' = parent'.
Proof.
  intros _ parent'.
  split; [apply findtext_update_same|].
  split; [|split; [|split; [apply tag_update_xml_tag
                           |split; [apply attrib_update_xml_tag|split]]]].
  - subst parent'. unfold _update_xml_tag, findall, find.
    destruct (find_index (has_tag tag_name) (children parent_node)) as [i|] eqn:Hi.
    + pose proof (find_index_filter_pos _ _ _ Hi) as Hpos.
      destruct parent_node as [t a tx c]. unfold on_child, with_children.
      cbn [children] in *.
      rewrite filter_alter_length by apply has_tag_set_text. lia.
    + destruct parent_node as [t a tx c]. unfold with_children. cbn [children] in *.
      rewrite List.filter_app, (find_index_None _ _ Hi). simpl.
      unfold has_tag. cbn [tag]. now rewrite String.eqb_refl.
  - subst parent'. unfold _update_xml_tag, find.
    destruct (find_index (has_tag tag_name) (children parent_node)) as [i|] eqn:Hi.
    + destruct (find_index_lookup _ _ _ Hi) as (x & Hx & Hp).
      destruct parent_node as [t a tx c]. unfold on_child, with_children.
      cbn [children] in *.
      apply filter_alter_other. intros y Hy.
      assert (y = x) as -> by congruence.
      rewrite has_tag_set_text, Hp. split; reflexivity.
    + destruct parent_node as [t a tx c]. unfold with_children. cbn [children] in *.
      rewrite List.filter_app. simpl. unfold has_tag at 2. cbn [tag].
      rewrite String.eqb_refl. simpl. apply app_nil_r.
  - subst parent'. unfold _update_xml_tag. now destruct (find parent_node tag_name), parent_node.
  - apply update_xml_tag_fixed, findtext_update_same.
Qed.

(** The tag [changelog] of the stale entry of the demo manifest. *)
Lemma update_xml_tag_frame_witness :
  plain_tag "changelog" = true /\
  findtext (_update_xml_tag "changelog" "Fixes" stale_entry) "changelog" = Some "Fixes" /\
  length (findall (_update_xml_tag "changelog" "Fixes" stale_entry) "changelog") = 1 /\
  plain_tag "*" = false.
Proof.
  destruct (update_xml_tag_frame "changelog" "Fixes" stale_entry eq_refl)
    as (Hfound & Hcount & _).
  split; [reflexivity|]. split; [exact Hfound|]. split; [exact Hcount | reflexivity].
Defined.

(** X7. After [_update_plugin_node_details] the fields that come straight
    from the metadata read back as the metadata has them: [changelog],
    [description], [qgis_minimum_version], [author_name] and [email]; and
    populating a populated entry with the same metadata changes nothing. *)
Theorem update_plugin_node_details_plain_fields
    (metadata : PluginMetadata) (plugin_node : Element) :
  let node := _update_plugin_node_details metadata plugin_node in
  findtext node "changelog" = Some (changelog metadata) /\
  findtext node "description" = Some (description metadata) /\
  findtext node "qgis_minimum_version" = Some (qgis_minimum_version metadata) /\
  findtext node "author_name" = Some (author metadata) /\
  findtext node "email" = Some (email metadata) /\
  _update_plugin_node_details metadata node = node.
Proof.
  intros node. pose proof (details_fields metadata plugin_node) as Hf.
  fold node in Hf.
  unfold entry_fields, expected_fields, essential_tags in Hf. cbn [map] in Hf.
  injection Hf as Hv H1 H2 H3 H4 H5 H6 H7 H8.
  repeat split; try assumption. apply details_idempotent.
Qed.

Lemma update_xml_tag_child (t v : string) (p : Element) (j : nat) (c : Element) :
  children p !! j = Some c ->
  exists c',
    children (_update_xml_tag t v p) !! j = Some c' /\
    same_but_text c c' /\ (tag c <> t -> c' = c).
Proof.
  intros Hj. unfold _update_xml_tag, find.
  destruct (find_index (has_tag t) (children p)) as [i|] eqn:Hi.
  - destruct (find_index_lookup _ _ _ Hi) as (x & Hx & Hp).
    destruct p as [pt pa ptx pc]. unfold on_child, with_children. cbn [children] in *.
    destruct (decide (i = j)) as [->|Hij].
    + assert (x = c) as -> by congruence.
      exists (set_text v c). rewrite list_lookup_alter_eq, Hj.
      split; [reflexivity|]. split; [now destruct c|].
      intros Hne. apply has_tag_true in Hp. contradiction.
    + exists c. rewrite list_lookup_alter_ne by assumption.
      repeat split; auto.
  - destruct p as [pt pa ptx pc]. unfold with_children. cbn [children] in *.
    exists c. rewrite lookup_app_l by (now apply lookup_lt_Some in Hj).
    repeat split; auto.
Qed.

Lemma update_xml_tag_length (t v : string) (p : Element) :
  length (children p) <= length (children (_update_xml_tag t v p)) <= S (length (children p)).
Proof.
  unfold _update_xml_tag, find.
  destruct (find_index (has_tag t) (children p)); destruct p as [pt pa ptx pc];
    unfold on_child, with_children; cbn [children].
  - rewrite length_alter. lia.
  - rewrite length_app. simpl. lia.
Qed.

Lemma update_xml_tag_chain (t v : string) (p : Element) (j : nat) (c : Element) :
  In t essential_tags ->
  (exists c', children p !! j = Some c' /\ same_but_text c c' /\
              (~ In (tag c) essential_tags -> c' = c)) ->
  exists c', children (_update_xml_tag t v p) !! j = Some c' /\ same_but_text c c' /\
             (~ In (tag c) essential_tags -> c' = c).
Proof.
  intros Ht (c1 & Hc1 & (Htag & Hattr & Hch) & Hsame).
  destruct (update_xml_tag_child t v p j c1 Hc1) as (c2 & Hc2 & (Htag2 & Hattr2 & Hch2) & Hsame2).
  exists c2. split; [assumption|]. split.
  - repeat split; congruence.
  - intros Hnot. rewrite Hsame2; [now apply Hsame|].
    rewrite Htag. intros Heq. apply Hnot. rewrite Heq. exact Ht.
Qed.

(** X8. [_update_plugin_node_details] removes no child of the entry and
    moves none: each child keeps its place, its tag, its attributes and its
    own children, and a child whose tag is none of the eight field tags is
    not changed at all. At most eight children are added. The entry keeps
    its tag and its text, and every attribute other than [version]. *)
Theorem update_plugin_node_details_frame
    (metadata : PluginMetadata) (plugin_node : Element) :
  let node := _update_plugin_node_details metadata plugin_node in
  (forall j c,
      children plugin_node !! j = Some c ->
      exists c',
        children node !! j = Some c' /\
        tag c' = tag c /\ attrib c' = attrib c /\ children c' = children c /\
        (~ In (tag c) essential_tags -> c' = c)) /\
  length (children plugin_node) <= length (children node)
                                <= length (children plugin_node) + 8 /\
  tag node = tag plugin_node /\
  text node = text plugin_node /\
  (forall key, key <> "version" -> get node key = get plugin_node key).
Proof.
  intros node. split; [|split; [|split; [|split]]].
  - intros j c Hj.
    assert (Hchain : exists c', children node !! j = Some c' /\ same_but_text c c' /\
                                (~ In (tag c) essential_tags -> c' = c)).
    { subst node. unfold _update_plugin_node_details. cbv zeta.
      repeat (apply update_xml_tag_chain; [unfold essential_tags; simpl; tauto|]).
      exists c. split; [|split; [repeat split|auto]].
      destruct plugin_node. exact Hj. }
    destruct Hchain as (c' & Hc' & (Ht & Ha & Hc) & Hsame).
    exists c'. repeat split; assumption.
  - subst node. unfold _update_plugin_node_details. cbv zeta.
    repeat match goal with
           | |- context [_update_xml_tag ?t ?v ?p] =>
               lazymatch goal with
               | H : _ <= length (children (_update_xml_tag t v p)) <= _ |- _ => fail
               | _ => pose proof (update_xml_tag_length t v p)
               end
           end.
    assert (Hset : children (set "version" (version metadata) plugin_node)
                   = children plugin_node) by now destruct plugin_node.
    rewrite Hset in *. lia.
  - apply tag_details.
  - subst node. unfold _update_plugin_node_details. cbv zeta.
    assert (Htext : forall t v p, text (_update_xml_tag t v p) = text p).
    { intros t v p. unfold _update_xml_tag. now destruct (find p t), p. }
    rewrite !Htext. now destruct plugin_node.
  - intros key Hkey. subst node. unfold _update_plugin_node_details. cbv zeta.
    rewrite !get_update_xml_tag. unfold get, set. cbn [attrib].
    apply dict_get_set_other. congruence.
Qed.

Example details_keep_foreign_child :
  children
    (_update_plugin_node_details demo_metadata
       (mkElement "pyqgis_plugin" [("name", "My Plugin"); ("plugin_id", "7")] None
          [mkElement "icon" [] (Some "icon.png") []])) !! 0
  = Some (mkElement "icon" [] (Some "icon.png") []).
Proof. reflexivity. Qed.

(** X9. An update of the manifest for a plugin leaves, for every other
    name, as many entries as there were, and for the plugin's own name as
    many as there were and at least one. So a manifest with at most one
    entry for every name keeps that after the update. The root keeps its
    tag, attributes and text, and gains one child exactly when the plugin
    had no entry. *)
Theorem update_plugin_entry_counts
    (metadata : PluginMetadata) (root : Element) (n : string) :
  let root' := update_plugin_entry metadata root in
  length (entries_for n root')
  = (if String.eqb n (name metadata)
     then Nat.max 1 (length (entries_for n root))
     else length (entries_for n root)) /\
  length (children root')
  = length (children root)
    + (match entries_for (name metadata) root with [] => 1 | _ => 0 end) /\
  tag root' = tag root /\ attrib root' = attrib root /\ text root' = text root /\
  ((forall m, length (entries_for m root) <= 1) ->
   forall m, length (entries_for m root') <= 1).
Proof.
  intros root'.
  assert (Hcount : forall m,
    length (entries_for m root')
    = (if String.eqb m (name metadata)
       then Nat.max 1 (length (entries_for m root))
       else length (entries_for m root))).
  { intros m. subst root'. unfold entries_for.
    destruct (update_plugin_entry_cases metadata root)
      as [(i & x & Hi & Hx & ->) | (Hi & ->)];
      destruct root as [t a tx c]; unfold with_children; cbn [children] in *.
    - rewrite filter_alter_length by (intros; apply is_plugin_node_details).
      destruct (String.eqb_spec m (name metadata)) as [->|Hne]; [|reflexivity].
      pose proof (find_index_filter_pos _ _ _ Hi). lia.
    - rewrite List.filter_app, length_app. cbn [List.filter].
      rewrite is_plugin_node_details.
      destruct (String.eqb_spec m (name metadata)) as [->|Hne].
      + rewrite is_plugin_node_new, (find_index_None _ _ Hi). reflexivity.
      + destruct (is_plugin_node m (new_plugin_node (name metadata))) eqn:Hm.
        * exfalso. apply Hne.
          exact (is_plugin_node_unique _ _ _ Hm (is_plugin_node_new _)).
        * simpl. lia. }
  split; [apply Hcount|]. split; [|split; [|split; [|split]]].
  - subst root'. unfold entries_for.
    destruct (update_plugin_entry_cases metadata root)
      as [(i & x & Hi & Hx & ->) | (Hi & ->)];
      destruct root as [t a tx c]; unfold with_children; cbn [children] in *.
    + rewrite length_alter.
      pose proof (find_index_filter_pos _ _ _ Hi).
      destruct (List.filter (is_plugin_node (name metadata)) c); simpl in *; lia.
    + rewrite length_app, (find_index_None _ _ Hi). reflexivity.
  - subst root'.
    destruct (update_plugin_entry_cases metadata root)
      as [(i & x & Hi & Hx & ->) | (Hi & ->)]; now destruct root.
  - subst root'.
    destruct (update_plugin_entry_cases metadata root)
      as [(i & x & Hi & Hx & ->) | (Hi & ->)]; now destruct root.
  - subst root'.
    destruct (update_plugin_entry_cases metadata root)
      as [(i & x & Hi & Hx & ->) | (Hi & ->)]; now destruct root.
  - intros Hall m. rewrite Hcount. specialize (Hall m).
    destruct (String.eqb m (name metadata)); lia.
Qed.

(** ** The manifest in the repository *)

(** ** The manifest in the repository *)

Lemma path_prefixes_last (p : string) :
  forall seen, In (seen +:+ p) (path_prefixes seen p).
Proof.
  induction p as [|c p IH]; intros seen.
  - simpl. left. symmetry. apply append_nil_r.
  - cbn [path_prefixes].
    replace (seen +:+ String c p) with ((seen +:+ String c "") +:+ p)
      by (now rewrite append_assoc).
    destruct (Ascii.eqb_spec c "/") as [->|Hc]; simpl.
    + destruct (negb (String.eqb seen "")); [right|]; apply IH.
    + apply IH.
Qed.

Lemma world_eta (w : World) : mkWorld (files w) (dirs w) (warnings w) = w.
Proof. now destruct w. Qed.

Section Repository.

Context `{PyRuntime}.

Lemma get_repository_path_cases (env : Env) (metadata : PluginMetadata) (w : World)
    (shared_repo_path : string) :
  _file_url_to_path (url_base metadata) = Returned shared_repo_path ->
  (mkdir_error env = None /\ files w !! shared_repo_path = None /\
   _get_repository_path env metadata w
   = (Returned (joinpath shared_repo_path (Path "plugins.xml")),
      mkWorld (files w) (dirs w ∪ list_to_set (path_prefixes "" shared_repo_path))
        (warnings w))) \/
  (exists msg made,
      (forall made' e, mkdir_error env = Some (made', e) ->
         made = made' /\
         msg = "Could not access or create shared repository directory: " +:+ e) /\
      _get_repository_path env metadata w
      = (Raised (ReleaseScriptError msg),
         mkWorld (files w)
           (dirs w ∪ list_to_set (take made (path_prefixes "" shared_repo_path)))
           (warnings w))).
Proof.
  intros Hurl.
  destruct (mkdir_error env) as [[made e]|] eqn:Hmkdir.
  - right. unfold _get_repository_path, bind, lift, except_OSError, mkdir_parents, raise.
    rewrite Hurl, Hmkdir. do 2 eexists. split; [|reflexivity].
    intros made' e' [= <- <-]. split; reflexivity.
  - destruct (files w !! shared_repo_path) as [data|] eqn:Hshared.
    + right. unfold _get_repository_path, bind, lift, except_OSError, mkdir_parents, raise.
      rewrite Hurl, Hmkdir, Hshared.
      exists ("Could not access or create shared repository directory: " +:+ "File exists"), 0.
      split; [discriminate|].
      replace (take 0 (path_prefixes "" shared_repo_path)) with (@nil string)
        by reflexivity.
      rewrite list_to_set_nil, (right_id_L ∅ (∪)), world_eta. reflexivity.
    + left. split; [reflexivity|]. split; [reflexivity|].
      now apply get_repository_path_ok.
Qed.

(** X10. [_get_repository_path] never touches a file or a warning, removes
    no directory and makes no directory that is not on the path of the
    shared directory. For a [file://] base URL it either returns the path
    of [plugins.xml] in the shared directory, which then exists, or raises
    a [ReleaseScriptError]: a failure of [mkdir] comes out as that error,
    with the text of the [OSError] in its message, never as the [OSError]
    itself, and the parents [mkdir] made before it failed stay. Calling it
    again after a success returns the same path and changes nothing. *)
Theorem get_repository_path_ensures_directory
    (env : Env) (metadata : PluginMetadata) (w : World) (shared_repo_path : string) :
  _file_url_to_path (url_base metadata) = Returned shared_repo_path ->
  let out := fst (_get_repository_path env metadata w) in
  let w' := snd (_get_repository_path env metadata w) in
  files w' = files w /\ warnings w' = warnings w /\ dirs w ⊆ dirs w' /\
  (forall d, d ∈ dirs w' -> d ∈ dirs w \/ In d (path_prefixes "" shared_repo_path)) /\
  ((out = Returned (joinpath shared_repo_path (Path "plugins.xml")) /\
    shared_repo_path ∈ dirs w' /\
    _get_repository_path env metadata w' = (out, w')) \/
   (exists msg, out = Raised (ReleaseScriptError msg))) /\
  (forall made e,
      mkdir_error env = Some (made, e) ->
      out = Raised (ReleaseScriptError
                      ("Could not access or create shared repository directory: " +:+ e)) /\
      dirs w' = dirs w ∪ list_to_set (take made (path_prefixes "" shared_repo_path))).
Proof.
  intros Hurl out w'. subst out w'.
  destruct (get_repository_path_cases env metadata w _ Hurl)
    as [(Hmk & Hshared & Hok) | (msg & made & Hmsg & Hfail)].
  - rewrite Hok. cbn [fst snd files dirs warnings].
    split; [reflexivity|]. split; [reflexivity|]. split; [apply union_subseteq_l|].
    split; [|split].
    + intros d Hd. apply elem_of_union in Hd. destruct Hd as [Hd|Hd]; [now left|].
      right. apply elem_of_list_to_set in Hd. now apply list_elem_of_In.
    + left. split; [reflexivity|]. split.
      * apply elem_of_union_r, elem_of_list_to_set, list_elem_of_In.
        apply (path_prefixes_last shared_repo_path "").
      * erewrite get_repository_path_ok; [| exact Hurl | exact Hmk | exact Hshared].
        cbn [files dirs warnings].
        f_equal. f_equal. now rewrite <- (assoc_L (∪)), (idemp_L (∪)).
    + intros made e He. congruence.
  - rewrite Hfail. cbn [fst snd files dirs warnings].
    split; [reflexivity|]. split; [reflexivity|]. split; [apply union_subseteq_l|].
    split; [|split].
    + intros d Hd. apply elem_of_union in Hd. destruct Hd as [Hd|Hd]; [now left|].
      right. apply elem_of_list_to_set in Hd. apply list_elem_of_In.
      exact (subseteq_take _ _ _ Hd).
    + right. eauto.
    + intros made' e He. destruct (Hmsg _ _ He) as [-> ->]. split; reflexivity.
Qed.

Lemma load_xml_tree_absent (xml_path : string) (w : World) :
  repo_exists xml_path w = false ->
  _load_or_create_xml_tree xml_path w
  = (Returned empty_manifest, log_warnings [MasterFileNotFound xml_path] w).
Proof.
  intros Hex. unfold _load_or_create_xml_tree. rewrite Hex. reflexivity.
Qed.

Lemma load_xml_tree_cases (xml_path : string) (w : World) :
  (repo_exists xml_path w = false /\
   _load_or_create_xml_tree xml_path w
   = (Returned empty_manifest, log_warnings [MasterFileNotFound xml_path] w)) \/
  (exists content root,
      files w !! xml_path = Some (Text content) /\ xml_forbidden content = false /\
      xml_parse content = Some root /\
      _load_or_create_xml_tree xml_path w = (Returned root, w)) \/
  (is_Some (files w !! xml_path) /\
   _load_or_create_xml_tree xml_path w
   = (Raised (ReleaseScriptError ("Error parsing " +:+ xml_path +:+ ".")), w)) \/
  (exists content,
      files w !! xml_path = Some (Text content) /\ xml_forbidden content = true /\
      _load_or_create_xml_tree xml_path w = (Raised (ValueError "EntitiesForbidden"), w)) \/
  (files w !! xml_path = None /\ xml_path ∈ dirs w /\
   _load_or_create_xml_tree xml_path w = (Raised (OSError "Is a directory"), w)).
Proof.
  destruct (repo_exists xml_path w) eqn:Hex.
  - right. unfold _load_or_create_xml_tree. rewrite Hex.
    unfold except_ParseError, DefET_parse, raise.
    destruct (files w !! xml_path) as [[content|entries]|] eqn:Hfile.
    + destruct (xml_forbidden content) eqn:Hforbidden.
      * right. right. left. exists content. auto.
      * destruct (xml_parse content) as [root|] eqn:Hparse.
        -- left. exists content, root. auto.
        -- right. left. split; [eauto | reflexivity].
    + right. left. split; [eauto | reflexivity].
    + right. right. right. split; [reflexivity|]. split; [|reflexivity].
      unfold repo_exists in Hex. rewrite Hfile in Hex.
      rewrite bool_decide_eq_false_2 in Hex by (intros [? ?]; discriminate).
      simpl in Hex. now apply bool_decide_eq_true in Hex.
  - left. split; [reflexivity|]. now apply load_xml_tree_absent.
Qed.

(** X11. [_load_or_create_xml_tree] changes no file and no directory, and
    no [ParseError] comes out of it. Where there is nothing at the path it
    returns a new [plugins] root without children and logs one warning;
    where the file holds a document the parser accepts it returns that
    document and logs no warning; where the file holds what is no XML it
    raises the [ReleaseScriptError] that names the path; and where the file
    holds a document that [defusedxml] refuses, the [ValueError] of
    [defusedxml] is raised as it is, since only [ParseError] is caught. *)
Theorem load_or_create_xml_tree_behaviour (xml_path : string) (w : World) :
  let out := fst (_load_or_create_xml_tree xml_path w) in
  let w' := snd (_load_or_create_xml_tree xml_path w) in
  files w' = files w /\ dirs w' = dirs w /\ out <> Raised ParseError /\
  (files w !! xml_path = None -> xml_path ∉ dirs w ->
   out = Returned (mkElement "plugins" [] None []) /\
   warnings w' = warnings w ++ [MasterFileNotFound xml_path]) /\
  (forall content root,
      files w !! xml_path = Some (Text content) ->
      xml_forbidden content = false -> xml_parse content = Some root ->
      out = Returned root /\ w' = w) /\
  (forall content,
      files w !! xml_path = Some (Text content) ->
      xml_forbidden content = false -> xml_parse content = None ->
      out = Raised (ReleaseScriptError ("Error parsing " +:+ xml_path +:+ ".")) /\ w' = w) /\
  (forall content,
      files w !! xml_path = Some (Text content) ->
      xml_forbidden content = true ->
      out = Raised (ValueError "EntitiesForbidden") /\ w' = w).
Proof.
  intros out w'. subst out w'.
  split; [|split; [|split; [|split; [|split; [|split]]]]].
  1-3: destruct (load_xml_tree_cases xml_path w)
         as [(_ & Heq) | [(content & root & _ & _ & _ & Heq)
                         | [(_ & Heq) | [(content & _ & _ & Heq) | (_ & _ & Heq)]]]];
       rewrite Heq; cbn [fst snd log_warnings files dirs]; reflexivity || discriminate.
  - intros Hfile Hdir. unfold _load_or_create_xml_tree, repo_exists.
    rewrite Hfile. rewrite bool_decide_eq_false_2 by (intros [? ?]; discriminate).
    rewrite bool_decide_eq_false_2 by assumption. split; reflexivity.
  - intros content root Hfile Hallowed Hparse.
    rewrite (load_xml_tree_ok xml_path content root w Hfile Hallowed Hparse).
    split; reflexivity.
  - intros content Hfile Hallowed Hparse.
    unfold _load_or_create_xml_tree, repo_exists, except_ParseError, DefET_parse, raise.
    rewrite Hfile, Hallowed, Hparse. rewrite bool_decide_eq_true_2 by eauto.
    split; reflexivity.
  - intros content Hfile Hforbidden.
    unfold _load_or_create_xml_tree, repo_exists, except_ParseError, DefET_parse, raise.
    rewrite Hfile, Hforbidden. rewrite bool_decide_eq_true_2 by eauto.
    split; reflexivity.
Qed.

End Repository.

(** The manifest of [entity_world] declares an entity. *)
Example load_or_create_entity_demo :
  @_load_or_create_xml_tree demo_runtime "/srv/repo/plugins.xml" entity_world
  = (Raised (ValueError "EntitiesForbidden"), entity_world).
Proof. vm_compute. reflexivity. Qed.

Section RepositoryFile.

Context `{PyRuntime}.

(** What [_write_plugin_xml] can do to a repository in which the temporary
    name is free. *)
Lemma write_plugin_xml_outcome (env : Env) (tree : Element) (destination_path : string)
    (w : World) :
  files w !! tmp_name_for env destination_path = None ->
  tmp_name_for env destination_path <> destination_path ->
  (write_error env = None /\ replace_error env = None /\
   _write_plugin_xml env tree destination_path w
   = (Returned tt, set_files (<[destination_path := Text (xml_write tree)]> (files w)) w)) \/
  (exists msg,
      _write_plugin_xml env tree destination_path w
      = (Raised (ReleaseScriptError msg), w)) \/
  (exists e,
      _write_plugin_xml env tree destination_path w = (Raised (OSError e), w)).
Proof.
  intros Hfresh Hne.
  assert (Hback : forall a b,
    mkWorld (delete (tmp_name_for env destination_path)
               (<[tmp_name_for env destination_path := a]>
                  (<[tmp_name_for env destination_path := b]> (files w))))
      (dirs w) (warnings w) = w).
  { intros a b. rewrite insert_insert_eq, delete_insert_id by assumption.
    apply world_eta. }
  destruct (write_error env) as [[e|written e]|] eqn:Hwrite.
  - right. right. unfold _write_plugin_xml, bind, mkstemp. rewrite Hwrite. eauto.
  - right. left.
    unfold _write_plugin_xml, bind, finally, except_OSError, mkstemp, tree_write,
      path_replace, unlink_missing_ok, raise.
    fold (tmp_name_for env destination_path). rewrite Hwrite. cbn.
    unfold set_files. cbn [files dirs warnings].
    rewrite Hback. eauto.
  - destruct (replace_error env) as [e|] eqn:Hreplace.
    + right. left.
      unfold _write_plugin_xml, bind, finally, except_OSError, mkstemp, tree_write,
        path_replace, unlink_missing_ok, raise.
      fold (tmp_name_for env destination_path). rewrite Hwrite, Hreplace. cbn.
      unfold set_files. cbn [files dirs warnings].
      rewrite Hback. eauto.
    + left. split; [reflexivity|]. split; [reflexivity|].
      now apply write_plugin_xml_ok.
Qed.

(** A run of the update on a manifest that is there and well formed, with
    nothing failing. *)
Lemma update_repository_file_run
    (env : Env) (metadata : PluginMetadata) (w : World)
    (shared_repo_path content : string) (root : Element) :
  _file_url_to_path (url_base metadata) = Returned shared_repo_path ->
  mkdir_error env = None -> write_error env = None -> replace_error env = None ->
  files w !! shared_repo_path = None ->
  files w !! joinpath shared_repo_path (Path "plugins.xml") = Some (Text content) ->
  xml_forbidden content = false ->
  xml_parse content = Some root ->
  files w !! tmp_name_for env (joinpath shared_repo_path (Path "plugins.xml")) = None ->
  update_repository_file env metadata w
  = (Returned tt,
     mkWorld
       (<[joinpath shared_repo_path (Path "plugins.xml") :=
            Text (xml_write (update_plugin_entry metadata root))]> (files w))
       (dirs w ∪ list_to_set (path_prefixes "" shared_repo_path))
       (warnings w)).
Proof.
  intros Hurl Hmkdir Hwrite Hreplace Hshared Hmaster Hallowed Hparse Hfresh.
  rewrite update_repository_file_steps.
  unfold except_ParseError, bind.
  rewrite (get_repository_path_ok _ _ _ _ Hurl Hmkdir Hshared).
  erewrite load_xml_tree_ok; [| exact Hmaster | exact Hallowed | exact Hparse].
  rewrite write_plugin_xml_ok; try assumption; [reflexivity|].
  intros Heq. cbn [files] in Hfresh. rewrite Heq in Hfresh. congruence.
Qed.

(** X12. A manifest that is there but is not XML stops the update: with a
    [file://] base URL, [update_repository_file] raises a
    [ReleaseScriptError] and leaves every file of the repository, the
    manifest included, as it was; no warning is logged. When the shared
    directory can be made, the error is the one that names the manifest.
    (The manifest declares nothing that [defusedxml] refuses.) *)
Theorem update_repository_file_malformed_manifest
    (env : Env) (metadata : PluginMetadata) (w : World)
    (shared_repo_path content : string) :
  _file_url_to_path (url_base metadata) = Returned shared_repo_path ->
  let master_xml_path := joinpath shared_repo_path (Path "plugins.xml") in
  files w !! master_xml_path = Some (Text content) ->
  xml_forbidden content = false ->
  xml_parse content = None ->
  let out := fst (update_repository_file env metadata w) in
  let w' := snd (update_repository_file env metadata w) in
  (exists msg, out = Raised (ReleaseScriptError msg)) /\
  files w' = files w /\ warnings w' = warnings w /\
  (mkdir_error env = None -> files w !! shared_repo_path = None ->
   out = Raised (ReleaseScriptError ("Error parsing " +:+ master_xml_path +:+ "."))).
Proof.
  intros Hurl master Hmaster Hallowed Hparse out w'. subst out w'.
  rewrite update_repository_file_steps. unfold except_ParseError, bind.
  destruct (get_repository_path_cases env metadata w _ Hurl)
    as [(Hmk & Hshared & Hok) | (msg & made & _ & Hfail)].
  - rewrite Hok. fold master.
    unfold _load_or_create_xml_tree, repo_exists, except_ParseError, DefET_parse, raise.
    cbn [files]. rewrite Hmaster, Hallowed, Hparse.
    rewrite bool_decide_eq_true_2 by eauto. cbn.
    split; [eauto|]. split; [reflexivity|]. split; reflexivity.
  - rewrite Hfail. cbn.
    split; [eauto|]. split; [reflexivity|]. split; [reflexivity|].
    intros Hmk Hshared.
    rewrite (get_repository_path_ok _ _ _ _ Hurl Hmk Hshared) in Hfail. discriminate.
Qed.

(** X13. The first release into a repository without a manifest: when the
    shared directory can be made and nothing fails,
    [update_repository_file] returns, logs the one warning that the manifest
    was not found, and creates the manifest, changing no other file. The
    document it writes is a [plugins] root whose only child is the entry of
    this plugin, filled in from the metadata. *)
Theorem update_repository_file_first_release
    (env : Env) (metadata : PluginMetadata) (w : World) (shared_repo_path : string) :
  _file_url_to_path (url_base metadata) = Returned shared_repo_path ->
  mkdir_error env = None -> write_error env = None -> replace_error env = None ->
  let master_xml_path := joinpath shared_repo_path (Path "plugins.xml") in
  files w !! shared_repo_path = None ->
  repo_exists master_xml_path w = false ->
  ~ In master_xml_path (path_prefixes "" shared_repo_path) ->
  files w !! tmp_name_for env master_xml_path = None ->
  tmp_name_for env master_xml_path <> master_xml_path ->
  let out := fst (update_repository_file env metadata w) in
  let w' := snd (update_repository_file env metadata w) in
  out = Returned tt /\
  warnings w' = warnings w ++ [MasterFileNotFound master_xml_path] /\
  files w'
  = <[master_xml_path :=
        Text (xml_write
                (mkElement "plugins" [] None
                   [_update_plugin_node_details metadata
                      (new_plugin_node (name metadata))]))]> (files w).
Proof.
  intros Hurl Hmkdir Hwrite Hreplace master Hshared Hex Hprefix Hfresh Hne out w'.
  subst out w'.
  rewrite update_repository_file_steps. unfold except_ParseError, bind.
  rewrite (get_repository_path_ok _ _ _ _ Hurl Hmkdir Hshared). fold master.
  rewrite load_xml_tree_absent.
  - rewrite write_plugin_xml_ok by assumption.
    cbn [fst snd files warnings set_files log_warnings].
    split; [reflexivity|]. split; [reflexivity|].
    do 3 f_equal.
  - unfold repo_exists in Hex |- *. apply orb_false_iff in Hex.
    destruct Hex as [Hfile Hdir].
    apply bool_decide_eq_false in Hfile. apply bool_decide_eq_false in Hdir.
    cbn [files dirs]. apply orb_false_iff. split; apply bool_decide_eq_false.
    + exact Hfile.
    + intros Hin. apply elem_of_union in Hin. destruct Hin as [Hin|Hin]; [now apply Hdir|].
      apply elem_of_list_to_set, list_elem_of_In in Hin. now apply Hprefix.
Qed.

(** X14. [update_repository_file] is all or nothing on the files of the
    repository. With a [file://] base URL and the temporary name free, the
    temporary file is never left behind and no [ParseError] comes out.
    Whenever the call does not return, every file is as it was. When it
    returns, nothing has failed and exactly the manifest has changed: it
    holds the serialised entry update of the document that was parsed from
    the old manifest, or of an empty [plugins] root where there was none. *)
Theorem update_repository_file_all_or_nothing
    (env : Env) (metadata : PluginMetadata) (w : World) (shared_repo_path : string) :
  _file_url_to_path (url_base metadata) = Returned shared_repo_path ->
  let master_xml_path := joinpath shared_repo_path (Path "plugins.xml") in
  files w !! tmp_name_for env master_xml_path = None ->
  tmp_name_for env master_xml_path <> master_xml_path ->
  let out := fst (update_repository_file env metadata w) in
  let w' := snd (update_repository_file env metadata w) in
  files w' !! tmp_name_for env master_xml_path = None /\
  out <> Raised ParseError /\
  (out <> Returned tt -> files w' = files w) /\
  (out = Returned tt ->
   mkdir_error env = None /\ write_error env = None /\ replace_error env = None /\
   exists root,
     files w' = <[master_xml_path :=
                    Text (xml_write (update_plugin_entry metadata root))]> (files w) /\
     ((exists content,
          files w !! master_xml_path = Some (Text content) /\
          xml_parse content = Some root) \/
      (files w !! master_xml_path = None /\ root = mkElement "plugins" [] None []))).
Proof.
  intros Hurl master Hfresh Hne out w'. subst out w'.
  rewrite update_repository_file_steps. unfold except_ParseError, bind.
  destruct (get_repository_path_cases env metadata w _ Hurl)
    as [(Hmk & Hshared & Hok) | (msg & made & _ & Hfail)].
  2: { rewrite Hfail. cbn. split; [assumption|]. split; [discriminate|].
       split; [reflexivity|]. discriminate. }
  rewrite Hok. fold master.
  set (w1 := mkWorld (files w)
               (dirs w ∪ list_to_set (path_prefixes "" shared_repo_path)) (warnings w)).
  assert (Hwrite : forall root w2,
    files w2 = files w ->
    (exists content,
        files w !! master = Some (Text content) /\ xml_parse content = Some root) \/
    (files w !! master = None /\ root = mkElement "plugins" [] None []) ->
    let r := match _write_plugin_xml env (update_plugin_entry metadata root) master w2 with
             | (Raised ParseError, w3) =>
                 raise (ReleaseScriptError "Error processing repository XML.") w3
             | r => r
             end in
    files (snd r) !! tmp_name_for env master = None /\
    fst r <> Raised ParseError /\
    (fst r <> Returned tt -> files (snd r) = files w) /\
    (fst r = Returned tt ->
     mkdir_error env = None /\ write_error env = None /\ replace_error env = None /\
     exists root0,
       files (snd r)
       = <[master := Text (xml_write (update_plugin_entry metadata root0))]> (files w) /\
       ((exists content,
            files w !! master = Some (Text content) /\ xml_parse content = Some root0) \/
        (files w !! master = None /\ root0 = mkElement "plugins" [] None [])))).
  { intros root w2 Hfiles Horigin r. subst r.
    assert (Hfresh2 : files w2 !! tmp_name_for env master = None) by now rewrite Hfiles.
    destruct (write_plugin_xml_outcome env (update_plugin_entry metadata root) master w2
                Hfresh2 Hne) as [(Hw & Hr & Heq) | [(msg & Heq) | (e & Heq)]]; rewrite Heq.
    - cbn [fst snd set_files files]. rewrite Hfiles.
      split; [now rewrite lookup_insert_ne by (intros Heq'; now apply Hne)|].
      split; [discriminate|]. split; [congruence|].
      intros _. split; [assumption|]. split; [assumption|]. split; [assumption|].
      exists root. split; [reflexivity | assumption].
    - cbn [fst snd]. split; [assumption|]. split; [discriminate|].
      split; [intros _; assumption | discriminate].
    - cbn [fst snd]. split; [assumption|]. split; [discriminate|].
      split; [intros _; assumption | discriminate]. }
  destruct (load_xml_tree_cases master w1)
    as [(Hex & Heq) | [(content & root & Hfile & _ & Hparse & Heq)
                      | [(Hsome & Heq) | [(content & _ & _ & Heq) | (Hnone & Hdir & Heq)]]]];
    rewrite Heq.
  - apply Hwrite; [reflexivity|]. right. split; [|reflexivity].
    unfold repo_exists in Hex. apply orb_false_iff in Hex. destruct Hex as [Hfile _].
    apply bool_decide_eq_false in Hfile. cbn [files w1] in Hfile.
    destruct (files w !! master); [exfalso; apply Hfile; eauto | reflexivity].
  - apply Hwrite; [reflexivity|]. left. eauto.
  - cbn. split; [assumption|]. split; [discriminate|].
    split; [reflexivity | discriminate].
  - cbn. split; [assumption|]. split; [discriminate|].
    split; [reflexivity | discriminate].
  - cbn. split; [assumption|]. split; [discriminate|].
    split; [reflexivity | discriminate].
Qed.

End RepositoryFile.

Lemma update_repository_file_malformed_manifest_witness :
  (exists msg,
      fst (@update_repository_file demo_runtime demo_env demo_metadata broken_world)
      = Raised (ReleaseScriptError msg)) /\
  files (snd (@update_repository_file demo_runtime demo_env demo_metadata broken_world))
  = files broken_world.
Proof.
  pose proof (@update_repository_file_malformed_manifest demo_runtime
                demo_env demo_metadata broken_world "/srv/repo" "<plugins><pyqgis_plugin"
                eq_refl eq_refl eq_refl eq_refl) as (Hout & Hfiles & _).
  split; assumption.
Defined.

Lemma update_repository_file_first_release_witness :
  fst (@update_repository_file demo_runtime demo_env demo_metadata empty_world)
  = Returned tt /\
  warnings (snd (@update_repository_file demo_runtime demo_env demo_metadata empty_world))
  = [MasterFileNotFound "/srv/repo/plugins.xml"].
Proof.
  assert (Hprefix : ~ In (@joinpath "/srv/repo" (@Path demo_runtime "plugins.xml"))
                        (path_prefixes "" "/srv/repo")).
  { vm_compute. intuition discriminate. }
  assert (Hne : tmp_name_for demo_env
                  (@joinpath "/srv/repo" (@Path demo_runtime "plugins.xml"))
                <> @joinpath "/srv/repo" (@Path demo_runtime "plugins.xml")).
  { vm_compute. discriminate. }
  pose proof (@update_repository_file_first_release demo_runtime
                demo_env demo_metadata empty_world "/srv/repo"
                eq_refl eq_refl eq_refl eq_refl eq_refl eq_refl Hprefix eq_refl Hne)
    as (Hout & Hwarn & _).
  split; assumption.
Defined.

Lemma update_repository_file_all_or_nothing_witness :
  files (snd (@update_repository_file demo_runtime failing_write_env demo_metadata
                demo_world))
  = files demo_world.
Proof.
  assert (Hne : tmp_name_for failing_write_env
                  (@joinpath "/srv/repo" (@Path demo_runtime "plugins.xml"))
                <> @joinpath "/srv/repo" (@Path demo_runtime "plugins.xml")).
  { vm_compute. discriminate. }
  pose proof (@update_repository_file_all_or_nothing demo_runtime
                failing_write_env demo_metadata demo_world "/srv/repo"
                eq_refl eq_refl Hne) as (_ & _ & Hkeep & _).
  apply Hkeep. vm_compute. discriminate.
Defined.

Lemma get_repository_path_ensures_directory_witness :
  files (snd (@_get_repository_path demo_runtime demo_env demo_metadata empty_world))
  = files empty_world.
Proof.
  exact (proj1 (@get_repository_path_ensures_directory demo_runtime
                  demo_env demo_metadata empty_world "/srv/repo" eq_refl)).
Defined.

(** ** Two runs of the update *)

Lemma filter_alter_first {A} (p : A -> bool) (f : A -> A) (i : nat) (l : list A) (x : A) :
  find_index p l = Some i -> l !! i = Some x -> p (f x) = true ->
  exists rest, List.filter p (alter f i l) = f x :: rest /\ List.filter p l = x :: rest.
Proof.
  revert i. unfold alter.
  induction l as [|y l IH]; intros i; simpl; [discriminate|].
  destruct (p y) eqn:Hy.
  - intros [= <-] [= ->] Hfx. simpl. rewrite Hfx. eauto.
  - destruct (find_index p l) as [k|] eqn:Hk; simpl; [|discriminate].
    intros [= <-] Hx Hfx. simpl. rewrite Hy. now apply (IH k).
Qed.

(** The entries of the plugin after the entry update: the first is the one
    filled in, the others are the ones that were there after the first. *)
Lemma entries_for_update (metadata : PluginMetadata) (root : Element) :
  exists entry rest,
    entries_for (name metadata) (update_plugin_entry metadata root) = entry :: rest /\
    tag entry = "pyqgis_plugin" /\
    get entry "name" = Some (name metadata) /\
    entry_fields entry = expected_fields metadata /\
    ((entries_for (name metadata) root = [] /\ rest = []) \/
     (exists old, entries_for (name metadata) root = old :: rest)).
Proof.
  assert (Hentry : forall x,
    is_plugin_node (name metadata) x = true ->
    tag (_update_plugin_node_details metadata x) = "pyqgis_plugin" /\
    get (_update_plugin_node_details metadata x) "name" = Some (name metadata) /\
    entry_fields (_update_plugin_node_details metadata x) = expected_fields metadata).
  { intros x Hx. rewrite <- (is_plugin_node_details _ metadata) in Hx.
    apply is_plugin_node_true in Hx. destruct Hx as [Ht Hn].
    split; [assumption|]. split; [assumption | apply details_fields]. }
  unfold entries_for.
  destruct (update_plugin_entry_cases metadata root)
    as [(i & x & Hi & Hx & ->) | (Hi & ->)];
    destruct root as [t a txt c]; cbn [children with_children] in *.
  - destruct (find_index_lookup _ _ _ Hi) as (x' & Hx' & Hp).
    assert (x' = x) by congruence. subst x'.
    destruct (filter_alter_first (is_plugin_node (name metadata))
                (_update_plugin_node_details metadata) i c x Hi Hx)
      as (rest & Hnew & Hold).
    { now rewrite is_plugin_node_details. }
    exists (_update_plugin_node_details metadata x), rest.
    split; [exact Hnew|]. destruct (Hentry x Hp) as (Ht & Hn & Hf).
    repeat split; try assumption. right. eauto.
  - exists (_update_plugin_node_details metadata (new_plugin_node (name metadata))), [].
    rewrite List.filter_app, (find_index_None _ _ Hi). cbn [List.filter app].
    rewrite is_plugin_node_details, is_plugin_node_new.
    split; [reflexivity|].
    destruct (Hentry _ (is_plugin_node_new (name metadata))) as (Ht & Hn & Hf).
    repeat split; try assumption. left. split; reflexivity.
Qed.

Section TwoRuns.

Context `{PyRuntime}.


End TwoRuns.



(** ** Translations and the search path *)

Section Translations.

Context `{PyRuntime}.

Lemma compile_loop (env : Env) (l : list string) (w : World) :
  for_each l
    (fun ts_file (_ : unit) =>
       except_ReleaseScriptError
         (run_command env ts_file)
         (fun _ =>
            raise (ReleaseScriptError
                     ("Failed to compile '" +:+ ts_file +:+
                      "'. Is 'lrelease' in your PATH?"))))
    tt w
  = match List.find (not_compiled env) l with
    | Some ts_file => (Raised (compile_exception env ts_file), w)
    | None => (Returned tt, w)
    end.
Proof.
  induction l as [|ts l IH]; [reflexivity|].
  cbn [for_each List.find]. unfold bind at 1.
  unfold except_ReleaseScriptError, run_command at 1.
  unfold not_compiled at 1, compile_exception.
  destruct (lrelease env ts) as [| |e] eqn:Hts.
  - unfold ret at 1. apply IH.
  - cbv beta iota. rewrite Hts. reflexivity.
  - cbv beta iota. rewrite Hts. reflexivity.
Qed.

Lemma compile_translations_cases (env : Env) (metadata : PluginMetadata) (w : World) :
  ((forall t ts,
       src_dirs env !! Path (translation_dir metadata) = Some t ->
       In ts (glob_ts (Path (translation_dir metadata)) t) -> lrelease env ts = Completed) /\
   compile_translations env metadata w
   = (Returned tt, log_warnings (translation_warnings env metadata) w)) \/
  (exists t ts,
      src_dirs env !! Path (translation_dir metadata) = Some t /\
      In ts (glob_ts (Path (translation_dir metadata)) t) /\
      lrelease env ts <> Completed /\
      compile_translations env metadata w = (Raised (compile_exception env ts), w)).
Proof.
  unfold compile_translations, translation_warnings.
  destruct (src_dirs env !! Path (translation_dir metadata)) as [t|] eqn:Hdir.
  - rewrite compile_loop.
    destruct (List.find (not_compiled env)
                (glob_ts (Path (translation_dir metadata)) t)) as [ts|] eqn:Hfind.
    + right. apply find_some in Hfind. destruct Hfind as [Hin Hfail].
      exists t, ts. repeat split; try assumption.
      intros Hc. unfold not_compiled in Hfail. rewrite Hc in Hfail. discriminate.
    + left. split; [|now rewrite log_warnings_nil].
      intros t' ts Ht' Hin. injection Ht' as <-.
      pose proof (find_none _ _ Hfind ts Hin) as Hok. unfold not_compiled in Hok.
      now destruct (lrelease env ts).
  - left. split; [discriminate|]. reflexivity.
Qed.

(** X15. [compile_translations] changes no file and no directory of the
    shared repository (what [lrelease] writes, it writes in the working
    directory). Without the translation directory it returns and logs one
    warning, raising nothing. With the directory it logs no warning and
    runs [lrelease] on the entries of the directory whose names end with
    [.ts]. It returns exactly when [lrelease] completes on every one of
    them. When it raises a [ReleaseScriptError], that is the error naming
    one of them on which [lrelease] ended with a non-zero status, in place
    of the error of [run_command]. When [lrelease] is not found, the
    [FileNotFoundError] of the first run is raised as it is, since
    [run_command] catches [CalledProcessError] only. *)
Theorem compile_translations_outcome
    (env : Env) (metadata : PluginMetadata) (w : World) :
  let i18n_dir := Path (translation_dir metadata) in
  let out := fst (compile_translations env metadata w) in
  let w' := snd (compile_translations env metadata w) in
  files w' = files w /\ dirs w' = dirs w /\
  (src_dirs env !! i18n_dir = None ->
   out = Returned tt /\ warnings w' = warnings w ++ [TranslationDirNotFound i18n_dir]) /\
  (forall t,
      src_dirs env !! i18n_dir = Some t ->
      w' = w /\
      (forall ts,
          In ts (glob_ts i18n_dir t) <->
          exists n,
            (In n (file_names t) \/ In n (map fst (subdirs t))) /\
            PyStr.endswith ".ts" n = true /\ ts = joinpath i18n_dir (Path n)) /\
      (out = Returned tt <->
       forall ts, In ts (glob_ts i18n_dir t) -> lrelease env ts = Completed) /\
      (forall msg,
          out = Raised (ReleaseScriptError msg) ->
          exists ts,
            In ts (glob_ts i18n_dir t) /\ lrelease env ts = ExitNonZero /\
            msg = "Failed to compile '" +:+ ts +:+ "'. Is 'lrelease' in your PATH?") /\
      (forall e,
          out = Raised (OSError e) ->
          exists ts, In ts (glob_ts i18n_dir t) /\ lrelease env ts = CommandNotFound e) /\
      (forall e,
          (forall ts, In ts (glob_ts i18n_dir t) -> lrelease env ts = CommandNotFound e) ->
          glob_ts i18n_dir t <> [] ->
          out = Raised (OSError e)) /\
      (out = Returned tt \/ (exists msg, out = Raised (ReleaseScriptError msg)) \/
       (exists e, out = Raised (OSError e)))).
Proof.
  intros i18n_dir out w'. subst out w'.
  split; [|split; [|split]].
  1-2: destruct (compile_translations_cases env metadata w)
         as [(_ & Heq) | (t & ts & _ & _ & _ & Heq)]; rewrite Heq; reflexivity.
  - intros Hdir. unfold compile_translations. fold i18n_dir. rewrite Hdir.
    split; reflexivity.
  - intros t Hdir. unfold compile_translations. fold i18n_dir. rewrite Hdir.
    rewrite compile_loop.
    assert (Hglob : forall ts,
      In ts (glob_ts i18n_dir t) <->
      exists n,
        (In n (file_names t) \/ In n (map fst (subdirs t))) /\
        PyStr.endswith ".ts" n = true /\ ts = joinpath i18n_dir (Path n)).
    { intros ts. unfold glob_ts. rewrite in_map_iff. split.
      - intros (n & <- & Hn). apply List.filter_In in Hn. destruct Hn as [Hn Hts].
        apply in_app_or in Hn. exists n. auto.
      - intros (n & Hn & Hts & ->). exists n. split; [reflexivity|].
        apply List.filter_In. split; [|assumption]. now apply in_or_app. }
    destruct (List.find (not_compiled env) (glob_ts i18n_dir t)) as [ts|] eqn:Hfind;
      cbn [fst snd].
    + apply find_some in Hfind. destruct Hfind as [Hin Hfail].
      unfold not_compiled in Hfail. unfold compile_exception.
      split; [reflexivity|]. split; [exact Hglob|]. split; [|split; [|split; [|split]]].
      * split.
        -- destruct (lrelease env ts); discriminate.
        -- intros Hall. rewrite (Hall ts Hin) in Hfail. discriminate.
      * intros msg Hmsg. exists ts.
        destruct (lrelease env ts) eqn:Hts; try discriminate.
        injection Hmsg as <-. auto.
      * intros e He. exists ts.
        destruct (lrelease env ts) eqn:Hts; try discriminate.
        injection He as <-. auto.
      * intros e Hall _. now rewrite (Hall ts Hin).
      * destruct (lrelease env ts); eauto.
    + split; [reflexivity|]. split; [exact Hglob|]. split; [|split; [|split; [|split]]].
      * split; [|reflexivity]. intros _ ts Hin.
        pose proof (find_none _ _ Hfind ts Hin) as Hok. unfold not_compiled in Hok.
        now destruct (lrelease env ts).
      * discriminate.
      * discriminate.
      * intros e Hall Hne. exfalso.
        destruct (glob_ts i18n_dir t) as [|ts l] eqn:Hl; [now apply Hne|].
        pose proof (find_none _ _ Hfind ts (or_introl eq_refl)) as Hok.
        unfold not_compiled in Hok. rewrite (Hall ts (or_introl eq_refl)) in Hok.
        discriminate.
      * now left.
Qed.

End Translations.

(** A translation that does not compile, and a run without [lrelease]. *)
Example compile_translations_demo :
  fst (@compile_translations demo_runtime failing_lrelease_env demo_metadata demo_world)
  = Raised (ReleaseScriptError
              "Failed to compile 'i18n/fr.ts'. Is 'lrelease' in your PATH?") /\
  fst (@compile_translations demo_runtime missing_lrelease_env demo_metadata demo_world)
  = Raised (OSError "No such file or directory: 'lrelease'").
Proof. split; vm_compute; reflexivity. Qed.

Lemma split_on_from_app (sep : ascii) (a b : string) :
  forall cur,
    Str.split_on_from sep cur (a +:+ String sep b)
    = Str.split_on_from sep cur a ++ Str.split_on sep b.
Proof.
  induction a as [|c a IH]; intros cur.
  - change ("" +:+ String sep b) with (String sep b).
    cbn [Str.split_on_from]. now rewrite Ascii.eqb_refl.
  - rewrite append_cons. cbn [Str.split_on_from].
    destruct (Ascii.eqb c sep).
    + cbn [app]. f_equal. apply IH.
    + apply IH.
Qed.

Lemma split_on_from_no_char (sep : ascii) (s : string) :
  forall cur, no_char sep s = true -> Str.split_on_from sep cur s = [cur +:+ s].
Proof.
  induction s as [|c s IH]; intros cur Hno.
  - cbn. now rewrite append_nil_r.
  - cbn [no_char] in Hno. apply andb_true_iff in Hno. destruct Hno as [Hc Hs].
    apply negb_true_iff in Hc. cbn [Str.split_on_from]. rewrite Hc.
    rewrite (IH _ Hs). now rewrite append_assoc.
Qed.

Lemma existsb_eqb_In (x : string) (l : list string) :
  existsb (String.eqb x) l = true <-> In x l.
Proof.
  rewrite existsb_exists. split.
  - intros (y & Hy & Heq). apply String.eqb_eq in Heq. now subst.
  - intros Hin. exists x. split; [assumption | apply String.eqb_refl].
Qed.

(** X16. The [PATH] [run_command] gives to the subprocess, for an
    interpreter directory that holds no path separator: the directory is
    one of its entries; the entries of the [PATH] of the environment are
    all there, in their order, with at most the directory put in front;
    without a [PATH] in the environment it is the directory alone; and
    computing it again from its own result changes nothing, so a command
    run from within a command does not make it grow. *)
Theorem subprocess_path_has_interpreter
    (pathsep : ascii) (python_bin_dir : string) (env_path : option string) :
  no_char pathsep python_bin_dir = true ->
  let new_path := subprocess_path pathsep python_bin_dir env_path in
  In python_bin_dir (Str.split_on pathsep new_path) /\
  (forall path,
      env_path = Some path ->
      (In python_bin_dir (Str.split_on pathsep path) /\ new_path = path) \/
      (~ In python_bin_dir (Str.split_on pathsep path) /\
       Str.split_on pathsep new_path = python_bin_dir :: Str.split_on pathsep path)) /\
  (env_path = None -> new_path = python_bin_dir) /\
  subprocess_path pathsep python_bin_dir (Some new_path) = new_path.
Proof.
  intros Hno new_path.
  assert (Hbin : Str.split_on pathsep python_bin_dir = [python_bin_dir]).
  { unfold Str.split_on. now rewrite split_on_from_no_char. }
  assert (Hfront : forall path,
    Str.split_on pathsep (python_bin_dir +:+ String pathsep path)
    = python_bin_dir :: Str.split_on pathsep path).
  { intros path. unfold Str.split_on at 1. rewrite split_on_from_app.
    fold (Str.split_on pathsep python_bin_dir). now rewrite Hbin. }
  assert (Hin : In python_bin_dir (Str.split_on pathsep new_path)).
  { subst new_path. unfold subprocess_path. destruct env_path as [path|].
    - destruct (existsb (String.eqb python_bin_dir) (Str.split_on pathsep path)) eqn:Hex;
        cbn [negb].
      + now apply existsb_eqb_In.
      + rewrite Hfront. now left.
    - rewrite Hbin. now left. }
  split; [exact Hin|]. split; [|split].
  - intros path ->. subst new_path. unfold subprocess_path.
    destruct (existsb (String.eqb python_bin_dir) (Str.split_on pathsep path)) eqn:Hex;
      cbn [negb].
    + left. split; [now apply existsb_eqb_In | reflexivity].
    + right. split; [|apply Hfront].
      intros Hcontra. apply existsb_eqb_In in Hcontra. congruence.
  - now intros ->.
  - apply existsb_eqb_In in Hin. unfold subprocess_path at 1. now rewrite Hin.
Qed.

Lemma subprocess_path_has_interpreter_witness :
  subprocess_path ":" "/usr/bin" (Some "/bin:/sbin") = "/usr/bin:/bin:/sbin" /\
  subprocess_path ":" "/usr/bin" (Some "/usr/bin:/bin:/sbin") = "/usr/bin:/bin:/sbin".
Proof.
  split; [reflexivity|].
  exact (proj2 (proj2 (proj2
           (subprocess_path_has_interpreter ":" "/usr/bin" (Some "/bin:/sbin") eq_refl)))).
Defined.

(** ** The archive *)

(** ** The archive *)

Lemma contains_empty (s : string) : PyStr.contains "" s = true.
Proof. now destruct s. Qed.

Lemma endswith_empty (s : string) : PyStr.endswith "" s = true.
Proof.
  induction s as [|c s IH]; [reflexivity|].
  cbn [PyStr.endswith]. rewrite IH. apply orb_true_r.
Qed.

Lemma filter_all {A} (p : A -> bool) (l : list A) :
  (forall x, In x l -> p x = true) -> List.filter p l = l.
Proof.
  induction l as [|x l IH]; intros Hall; [reflexivity|].
  cbn [List.filter]. rewrite (Hall x) by now left.
  f_equal. apply IH. intros y Hy. apply Hall. now right.
Qed.

Lemma filter_none {A} (p : A -> bool) (l : list A) :
  (forall x, In x l -> p x = false) -> List.filter p l = [].
Proof.
  induction l as [|x l IH]; intros Hall; [reflexivity|].
  cbn [List.filter]. rewrite (Hall x) by now left.
  apply IH. intros y Hy. apply Hall. now right.
Qed.

Section Archive.

Context `{PyRuntime}.

(** X17. The edges of the exclusion lists of [_add_directories_to_zip].
    With both lists empty every file met on the walks of the listed
    directories is added, in the order met. An empty string among the
    excluded directory names, or among the excluded extensions, excludes
    every file, since the empty string occurs in every path and ends every
    name: the archive is returned as it was given. The warnings for the
    listed directories that are missing do not depend on the lists. *)
Theorem add_directories_to_zip_exclusion_edges
    (env : Env) (dirs_ : list string) (plugin_zip_dir : string)
    (excluded_dirs_ excluded_extensions_ : list string)
    (zipf : list ZipEntry) (w : World) :
  let run := fun ed ee => _add_directories_to_zip env dirs_ plugin_zip_dir ed ee zipf w in
  fst (run [] [])
  = Returned (zipf ++ map (fun met => dir_entry plugin_zip_dir (fst met) (snd met))
                        (encountered env dirs_)) /\
  (In "" excluded_dirs_ -> fst (run excluded_dirs_ excluded_extensions_) = Returned zipf) /\
  (In "" excluded_extensions_ ->
   fst (run excluded_dirs_ excluded_extensions_) = Returned zipf) /\
  snd (run excluded_dirs_ excluded_extensions_) = snd (run [] []).
Proof.
  intros run. subst run. cbv beta.
  rewrite !add_directories_to_zip_appends. cbn [fst snd].
  split; [|split; [|split]].
  - rewrite filter_all; [reflexivity|]. now intros [root file] _.
  - intros Hin. rewrite filter_none; [now rewrite app_nil_r|].
    intros [root file] _. unfold kept. cbn [fst snd].
    replace (dir_excluded excluded_dirs_ root) with true; [reflexivity|].
    symmetry. unfold dir_excluded. apply existsb_exists.
    exists "". split; [assumption | apply contains_empty].
  - intros Hin. rewrite filter_none; [now rewrite app_nil_r|].
    intros [root file] _. unfold kept. cbn [fst snd].
    replace (ext_excluded excluded_extensions_ file) with true; [apply andb_false_r|].
    symmetry. unfold ext_excluded. apply existsb_exists.
    exists "". split; [assumption | apply endswith_empty].
  - reflexivity.
Qed.

Lemma package_plugin_ok (env : Env) (metadata : PluginMetadata) (w : World)
    (shared_repo_path on_disk : string) :
  plugin_package_name metadata = PyStr.replace " " "_" (name metadata) ->
  src_files env !! Path "metadata.txt" = Some on_disk ->
  _file_url_to_path (url_base metadata) = Returned shared_repo_path ->
  shared_repo_path ∈ dirs w ->
  package_plugin env metadata w
  = (Returned tt,
     mkWorld
       (<[archive_path shared_repo_path metadata :=
            Archive (archive_entries env metadata
                       (cleaned_metadata (name metadata) on_disk))]> (files w))
       (dirs w)
       (warnings w ++ archive_warnings env metadata)).
Proof.
  intros Hname Hread Hurl Hdir. unfold package_plugin.
  assert (Heqb : negb (String.eqb (plugin_package_name metadata)
                         (PyStr.replace " " "_" (name metadata))) = false).
  { rewrite Hname, String.eqb_refl. reflexivity. }
  rewrite Heqb.
  unfold bind at 1. unfold _get_clean_metadata_content, read_metadata_txt.
  rewrite Hread. unfold bind at 1. unfold ret at 1. unfold ret at 1.
  unfold bind at 1. unfold lift. rewrite Hurl.
  unfold with_ZipFile, bind. rewrite bool_decide_eq_true_2 by assumption. cbn [negb].
  rewrite add_files_to_zip_appends, add_directories_to_zip_appends.
  unfold archive_path, archive_entries, archive_warnings, cleaned_metadata,
    set_files, log_warnings.
  cbn [files dirs warnings app].
  rewrite insert_insert_eq, <- app_assoc. reflexivity.
Qed.

(** Without the shared directory the archive cannot be opened: the
    [FileNotFoundError] is raised, and nothing is written. *)
Lemma package_plugin_no_directory (env : Env) (metadata : PluginMetadata) (w : World)
    (shared_repo_path on_disk : string) :
  plugin_package_name metadata = PyStr.replace " " "_" (name metadata) ->
  src_files env !! Path "metadata.txt" = Some on_disk ->
  _file_url_to_path (url_base metadata) = Returned shared_repo_path ->
  shared_repo_path ∉ dirs w ->
  exists e, package_plugin env metadata w = (Raised (OSError e), w).
Proof.
  intros Hname Hread Hurl Hdir. unfold package_plugin.
  assert (Heqb : negb (String.eqb (plugin_package_name metadata)
                         (PyStr.replace " " "_" (name metadata))) = false).
  { rewrite Hname, String.eqb_refl. reflexivity. }
  rewrite Heqb.
  unfold bind at 1. unfold _get_clean_metadata_content, read_metadata_txt.
  rewrite Hread. unfold bind at 1. unfold ret at 1. unfold ret at 1.
  unfold bind at 1. unfold lift. rewrite Hurl.
  unfold with_ZipFile. rewrite bool_decide_eq_false_2 by assumption. cbn [negb].
  eauto.
Qed.

(** X18. [package_plugin] on a plugin whose package name fits its name,
    with a readable [metadata.txt], a [file://] base URL and the shared
    directory there: it returns and writes one file, the archive
    [<shared>/<name with underscores>.zip], replacing what was at that path;
    every other file and the directories are as they were. The archive
    holds the entries of the listed files, in the order listed, then those
    of the files met in the listed directories that pass the filter; its
    [metadata.txt] is the cleaned text, not the file of the working
    directory. Missing files and directories only add their warnings. *)
Theorem package_plugin_writes_archive
    (env : Env) (metadata : PluginMetadata) (w : World)
    (shared_repo_path on_disk : string) :
  plugin_package_name metadata = PyStr.replace " " "_" (name metadata) ->
  src_files env !! Path "metadata.txt" = Some on_disk ->
  _file_url_to_path (url_base metadata) = Returned shared_repo_path ->
  shared_repo_path ∈ dirs w ->
  let zip_path :=
    joinpath shared_repo_path (Path (PyStr.replace " " "_" (name metadata) +:+ ".zip")) in
  let clean :=
    PyStr.join (map (clean_line (name metadata))
                    (PyStr.splitlines (PyStr.universal_newlines on_disk))) in
  let out := fst (package_plugin env metadata w) in
  let w' := snd (package_plugin env metadata w) in
  out = Returned tt /\
  files w'
  = <[zip_path :=
        Archive
          (flat_map (listed_file_entries env (plugin_package_name metadata) clean)
             (files_to_package metadata) ++
           map (fun met => dir_entry (plugin_package_name metadata) (fst met) (snd met))
             (List.filter (kept (excluded_dirs metadata) (excluded_extensions metadata))
                (encountered env (dirs_to_package metadata))))]> (files w) /\
  (forall p, p <> zip_path -> files w' !! p = files w !! p) /\
  dirs w' = dirs w /\
  warnings w'
  = warnings w ++ flat_map (listed_file_warnings env) (files_to_package metadata)
      ++ missing_dir_warnings env (dirs_to_package metadata) /\
  (In "metadata.txt" (files_to_package metadata) ->
   forall entries,
     files w' !! zip_path = Some (Archive entries) ->
     In (ZWritestr (joinpath (Path (plugin_package_name metadata)) (Path "metadata.txt"))
           clean) entries).
Proof.
  intros Hname Hread Hurl Hdir zip_path clean out w'. subst out w'.
  rewrite (package_plugin_ok env metadata w _ _ Hname Hread Hurl Hdir).
  cbn [fst snd files dirs warnings].
  split; [reflexivity|]. split; [reflexivity|]. split; [|split; [|split]].
  - intros p Hp. now rewrite lookup_insert_ne by (intros Heq; now apply Hp).
  - reflexivity.
  - reflexivity.
  - intros Hlisted entries Hentries.
    unfold archive_path in Hentries. rewrite lookup_insert_eq in Hentries.
    injection Hentries as <-. unfold archive_entries.
    apply in_or_app. left. apply in_flat_map.
    exists "metadata.txt". split; [assumption|].
    unfold listed_file_entries. cbn. now left.
Qed.

End Archive.

Lemma package_plugin_writes_archive_witness :
  fst (@package_plugin demo_runtime demo_env demo_metadata demo_world) = Returned tt /\
  dirs (snd (@package_plugin demo_runtime demo_env demo_metadata demo_world))
  = dirs demo_world.
Proof.
  assert (Hdir : "/srv/repo" ∈ dirs demo_world).
  { apply (bool_decide_unpack _). vm_compute. exact I. }
  pose proof (@package_plugin_writes_archive demo_runtime
                demo_env demo_metadata demo_world "/srv/repo" demo_metadata_txt
                eq_refl eq_refl eq_refl Hdir) as (Hout & _ & _ & Hdirs & _).
  split; assumption.
Defined.

(** ** The whole run *)

Section WholeRun.

Context `{PyRuntime}.

Lemma run_release_process_unfold (env : Env) (metadata : PluginMetadata) (w : World) :
  configured env = Returned metadata ->
  release_name_of (name metadata) <> "" ->
  let released := set_name (release_name_of (name metadata)) metadata in
  run_release_process env w
  = (update_repository_file env released ;;
     compile_translations env released ;;
     package_plugin env released ;;
     _ <- lift (_file_url_to_path (url_base released)) ;;
     ret tt) w.
Proof.
  intros Hconf Hne released.
  unfold run_release_process at 1. unfold bind at 1. unfold lift at 1.
  rewrite Hconf. apply String.eqb_neq in Hne. rewrite Hne.
  destruct (String.eqb_spec (name metadata) (release_name_of (name metadata)))
    as [Heq|Hdiff]; cbn [negb].
  - unfold released. rewrite <- Heq, set_name_same. reflexivity.
  - reflexivity.
Qed.

(** X19. A whole run through [main] in which nothing fails: the metadata
    is read, the release name is not empty and fits the package name, the
    base URL is a [file://] URL, the manifest is there and well formed,
    [metadata.txt] can be read and [lrelease] completes on every
    translation; the working directory is given as the packaging finds it,
    with the [.qm] file of every translation file in the translation
    directory. Then [main] returns the exit code 0, and of the files of the
    repository exactly the manifest and the archive have changed: the
    manifest holds the entry update under the release name, the archive the
    packaged files, its [metadata.txt] carrying the release name. The
    shared directory exists afterwards, and the warnings of the
    translations and of the packaging have been logged, in this order. *)
Theorem main_release_succeeds
    (env : Env) (metadata : PluginMetadata) (w : World)
    (shared_repo_path content on_disk : string) (root : Element) :
  configured env = Returned metadata ->
  let released := set_name (release_name_of (name metadata)) metadata in
  let master_xml_path := joinpath shared_repo_path (Path "plugins.xml") in
  release_name_of (name metadata) <> "" ->
  plugin_package_name metadata = PyStr.replace " " "_" (release_name_of (name metadata)) ->
  _file_url_to_path (url_base metadata) = Returned shared_repo_path ->
  mkdir_error env = None -> write_error env = None -> replace_error env = None ->
  files w !! shared_repo_path = None ->
  files w !! master_xml_path = Some (Text content) ->
  xml_forbidden content = false ->
  xml_parse content = Some root ->
  files w !! tmp_name_for env master_xml_path = None ->
  src_files env !! Path "metadata.txt" = Some on_disk ->
  (forall t ts,
      src_dirs env !! Path (translation_dir metadata) = Some t ->
      In ts (glob_ts (Path (translation_dir metadata)) t) -> lrelease env ts = Completed) ->
  (forall t n,
      src_dirs env !! Path (translation_dir metadata) = Some t ->
      In n (file_names t) -> PyStr.endswith ".ts" n = true ->
      In (qm_name n) (file_names t)) ->
  fst (main env w) = Returned 0 /\
  files (snd (main env w))
  = <[joinpath shared_repo_path
        (Path (PyStr.replace " " "_" (release_name_of (name metadata)) +:+ ".zip")) :=
        Archive
          (flat_map
             (listed_file_entries env (plugin_package_name metadata)
                (PyStr.join
                   (map (clean_line (release_name_of (name metadata)))
                      (PyStr.splitlines (PyStr.universal_newlines on_disk)))))
             (files_to_package metadata) ++
           map (fun met =>
                  ZWrite (joinpath (Path (fst met)) (Path (snd met)))
                    (joinpath (Path (plugin_package_name metadata))
                       (joinpath (Path (fst met)) (Path (snd met)))))
             (List.filter (kept (excluded_dirs metadata) (excluded_extensions metadata))
                (encountered env (dirs_to_package metadata))))]>
      (<[master_xml_path := Text (xml_write (update_plugin_entry released root))]>
         (files w)) /\
  shared_repo_path ∈ dirs (snd (main env w)) /\
  warnings (snd (main env w))
  = warnings w ++ translation_warnings env released ++ archive_warnings env released.
Proof.
  intros Hconf released master Hne Hname Hurl Hmkdir Hwrite Hreplace Hshared Hmaster
    Hallowed Hparse Hfresh Hread Hcompile _.
  assert (Hdir : shared_repo_path
                 ∈ dirs w ∪ list_to_set (path_prefixes "" shared_repo_path)).
  { apply elem_of_union_r, elem_of_list_to_set, list_elem_of_In.
    apply (path_prefixes_last shared_repo_path ""). }
  unfold main. rewrite (run_release_process_unfold env metadata w Hconf Hne).
  fold released. unfold bind.
  rewrite (update_repository_file_run env released w shared_repo_path content root
             Hurl Hmkdir Hwrite Hreplace Hshared Hmaster Hallowed Hparse Hfresh).
  fold master.
  match goal with
  | |- context [compile_translations env released ?w1] =>
      destruct (compile_translations_cases env released w1)
        as [(_ & Heq) | (t & ts & Hdir' & Hin & Hfail & _)]
  end.
  2: { exfalso. apply Hfail. exact (Hcompile t ts Hdir' Hin). }
  rewrite Heq.
  erewrite package_plugin_ok; [| exact Hname | exact Hread | exact Hurl | exact Hdir].
  unfold lift. change (url_base released) with (url_base metadata). rewrite Hurl.
  unfold ret, log_warnings. cbn [fst snd files dirs warnings name released set_name].
  split; [reflexivity|]. split; [reflexivity|]. split; [exact Hdir|].
  now rewrite <- app_assoc.
Qed.

(** X20. The steps of a run are not undone. When the manifest update has
    gone through (the conditions of a successful update hold) and a later
    step fails, the repository keeps the updated manifest: of its files
    exactly the manifest has changed, and no archive was written. Where
    [lrelease] is found, and a translation makes it end with a non-zero
    status or the package name does not fit the release name, [main]
    returns the exit code 1. Where [lrelease] is not found and there is a
    translation to compile, [main] returns no exit code: the
    [FileNotFoundError] is no [ReleaseScriptError] and is raised as it
    is. *)
Theorem main_fails_after_manifest_update
    (env : Env) (metadata : PluginMetadata) (w : World)
    (shared_repo_path content : string) (root : Element) :
  configured env = Returned metadata ->
  let released := set_name (release_name_of (name metadata)) metadata in
  let master_xml_path := joinpath shared_repo_path (Path "plugins.xml") in
  release_name_of (name metadata) <> "" ->
  _file_url_to_path (url_base metadata) = Returned shared_repo_path ->
  mkdir_error env = None -> write_error env = None -> replace_error env = None ->
  files w !! shared_repo_path = None ->
  files w !! master_xml_path = Some (Text content) ->
  xml_forbidden content = false ->
  xml_parse content = Some root ->
  files w !! tmp_name_for env master_xml_path = None ->
  let updated :=
    <[master_xml_path := Text (xml_write (update_plugin_entry released root))]> (files w) in
  ((forall ts e, lrelease env ts <> CommandNotFound e) ->
   plugin_package_name metadata <> PyStr.replace " " "_" (release_name_of (name metadata)) \/
   (exists t ts,
       src_dirs env !! Path (translation_dir metadata) = Some t /\
       In ts (glob_ts (Path (translation_dir metadata)) t) /\
       lrelease env ts = ExitNonZero) ->
   fst (main env w) = Returned 1 /\ files (snd (main env w)) = updated) /\
  (forall t e,
      src_dirs env !! Path (translation_dir metadata) = Some t ->
      glob_ts (Path (translation_dir metadata)) t <> [] ->
      (forall ts, lrelease env ts = CommandNotFound e) ->
      fst (main env w) = Raised (OSError e) /\ files (snd (main env w)) = updated).
Proof.
  intros Hconf released master Hne Hurl Hmkdir Hwrite Hreplace Hshared Hmaster
    Hallowed Hparse Hfresh updated.
  unfold main. rewrite (run_release_process_unfold env metadata w Hconf Hne).
  fold released. unfold bind.
  rewrite (update_repository_file_run env released w shared_repo_path content root
             Hurl Hmkdir Hwrite Hreplace Hshared Hmaster Hallowed Hparse Hfresh).
  fold master.
  match goal with
  | |- context [compile_translations env released ?w1] =>
      destruct (compile_translations_cases env released w1)
        as [(Hall & Heq) | (t & ts & Hdir & Hin & Hfail & Heq)]
  end; rewrite Heq.
  - split.
    + intros _ [Hmismatch | (t & ts & Hdir & Hin & Hfail)].
      * unfold package_plugin.
        change (plugin_package_name released) with (plugin_package_name metadata).
        change (name released) with (release_name_of (name metadata)).
        apply String.eqb_neq in Hmismatch. rewrite Hmismatch.
        cbn [negb]. unfold raise, log_warnings. cbn [fst snd files].
        split; reflexivity.
      * rewrite (Hall t ts Hdir Hin) in Hfail. discriminate.
    + intros t e Hdir Hglob Hmissing. exfalso.
      destruct (glob_ts (Path (translation_dir metadata)) t) as [|ts l] eqn:Hl;
        [now apply Hglob|].
      assert (Hin : In ts (glob_ts (Path (translation_dir released)) t)).
      { change (translation_dir released) with (translation_dir metadata).
        rewrite Hl. now left. }
      specialize (Hmissing ts). rewrite (Hall t ts Hdir Hin) in Hmissing.
      discriminate.
  - unfold compile_exception. split.
    + intros Hfound _. destruct (lrelease env ts) as [| |e] eqn:Hts.
      * now exfalso.
      * cbn [fst snd files]. split; reflexivity.
      * exfalso. exact (Hfound ts e Hts).
    + intros t' e _ _ Hmissing. rewrite (Hmissing ts).
      cbn [fst snd files]. split; reflexivity.
Qed.

(** X21. What stops a run before anything is written. When the metadata
    reader raises a [ReleaseScriptError], when the name is empty once the
    development marker and the surrounding white space are removed, and
    when the base URL is not a [file://] URL, [main] returns the exit code 1
    and the repository is exactly as it was, with no warning logged: no
    directory was made, no manifest and no archive written. When the
    metadata reader raises what is no [ReleaseScriptError] (an exception of
    [config.read]), [main] returns no exit code: the exception is raised as
    it is, and the repository is as it was. *)
Theorem main_rejects_before_writing (env : Env) (w : World) :
  (forall msg,
      configured env = Raised (ReleaseScriptError msg) -> main env w = (Returned 1, w)) /\
  (forall metadata,
      configured env = Returned metadata ->
      PyStr.strip (PyStr.replace "(dev)" "" (name metadata)) = "" ->
      main env w = (Returned 1, w)) /\
  (forall metadata,
      configured env = Returned metadata ->
      PyStr.strip (PyStr.replace "(dev)" "" (name metadata)) <> "" ->
      scheme (urlparse (url_base metadata)) <> "file" ->
      main env w = (Returned 1, w)) /\
  (forall e,
      configured env = Raised e ->
      (forall msg, e <> ReleaseScriptError msg) ->
      main env w = (Raised e, w)).
Proof.
  split; [|split; [|split]].
  - intros msg Hconf. unfold main, run_release_process, bind, lift. now rewrite Hconf.
  - intros metadata Hconf Hempty.
    unfold main, run_release_process, bind, lift. rewrite Hconf.
    unfold release_name_of. now rewrite Hempty.
  - intros metadata Hconf Hne Hscheme.
    unfold main. rewrite (run_release_process_unfold env metadata w Hconf Hne).
    unfold bind at 1. rewrite update_repository_file_steps.
    unfold except_ParseError, bind, _get_repository_path, bind, lift.
    change (url_base (set_name (release_name_of (name metadata)) metadata))
      with (url_base metadata).
    now rewrite (file_url_to_path_rejects _ Hscheme).
  - intros e Hconf Hother. unfold main, run_release_process, bind, lift. rewrite Hconf.
    destruct e as [msg| | | |]; try reflexivity. now destruct (Hother msg).
Qed.

End WholeRun.

Lemma main_release_succeeds_witness :
  fst (@main demo_runtime dev_env demo_world) = Returned 0 /\
  "/srv/repo" ∈ dirs (snd (@main demo_runtime dev_env demo_world)).
Proof.
  assert (Hne : release_name_of (name dev_metadata) <> "").
  { vm_compute. discriminate. }
  assert (Hqm : forall t n,
    src_dirs dev_env !! @Path demo_runtime (translation_dir dev_metadata) = Some t ->
    In n (file_names t) -> PyStr.endswith ".ts" n = true ->
    In (qm_name n) (file_names t)).
  { intros t n Ht. vm_compute in Ht. discriminate. }
  pose proof (@main_release_succeeds demo_runtime dev_env dev_metadata demo_world
                "/srv/repo" "<plugins></plugins>" demo_metadata_txt
                (mkElement "plugins" [] None [])
                eq_refl Hne eq_refl eq_refl eq_refl eq_refl eq_refl eq_refl eq_refl
                eq_refl eq_refl eq_refl eq_refl (fun _ _ _ _ => eq_refl) Hqm)
    as (Hout & _ & Hdir & _).
  split; assumption.
Defined.

Lemma main_fails_after_manifest_update_witness :
  fst (@main demo_runtime misnamed_env demo_world) = Returned 1 /\
  files (snd (@main demo_runtime misnamed_env demo_world))
  = <[ "/srv/repo/plugins.xml" :=
         Text (demo_xml_write
                 (update_plugin_entry misnamed_metadata (mkElement "plugins" [] None []))) ]>
      (files demo_world).
Proof.
  assert (Hne : release_name_of (name misnamed_metadata) <> "").
  { vm_compute. discriminate. }
  assert (Hmismatch :
    plugin_package_name misnamed_metadata
    <> PyStr.replace " " "_" (release_name_of (name misnamed_metadata))).
  { vm_compute. discriminate. }
  assert (Hfound : forall ts e, lrelease misnamed_env ts <> CommandNotFound e).
  { intros ts e. discriminate. }
  exact (proj1 (@main_fails_after_manifest_update demo_runtime misnamed_env
                  misnamed_metadata demo_world "/srv/repo" "<plugins></plugins>"
                  (mkElement "plugins" [] None [])
                  eq_refl Hne eq_refl eq_refl eq_refl eq_refl eq_refl eq_refl eq_refl
                  eq_refl eq_refl)
               Hfound (or_introl Hmismatch)).
Defined.

(** A run without [lrelease]: the manifest is updated, and [main] raises. *)
Example main_without_lrelease :
  fst (@main demo_runtime missing_lrelease_env demo_world)
  = Raised (OSError "No such file or directory: 'lrelease'") /\
  is_Some (files (snd (@main demo_runtime missing_lrelease_env demo_world))
             !! "/srv/repo/plugins.xml") /\
  files (snd (@main demo_runtime missing_lrelease_env demo_world))
    !! "/srv/repo/My_Plugin.zip" = None.
Proof. vm_compute. split; [reflexivity|]. split; [eauto | reflexivity]. Qed.

(** ** The manifest and the archive together *)

Section ManifestAndArchive.

Context `{PyRuntime}.

(** X22. The manifest points at the archive. In the document the entry
    update produces, the first entry under the plugin's name is the one
    just filled in: its [file_name] is the name with underscores for
    spaces and [.zip], its [download_url] the base URL without trailing
    slashes, a slash and that file name. [package_plugin], for a package
    name that fits, a readable [metadata.txt] and a [file://] base URL,
    writes the archive under exactly that file name in the shared
    directory when that directory is there; when it is not, the archive
    cannot be opened, an [OSError] is raised and nothing is written. *)
Theorem manifest_entry_names_archive
    (env : Env) (metadata : PluginMetadata) (root : Element) (w : World)
    (shared_repo_path on_disk : string) :
  let file_name := PyStr.replace " " "_" (name metadata) +:+ ".zip" in
  (exists node rest,
      entries_for (name metadata) (update_plugin_entry metadata root) = node :: rest /\
      findtext node "file_name" = Some file_name /\
      findtext node "download_url"
      = Some (PyStr.rstrip_chars "/" (url_base metadata) +:+ "/" +:+ file_name)) /\
  (plugin_package_name metadata = PyStr.replace " " "_" (name metadata) ->
   src_files env !! Path "metadata.txt" = Some on_disk ->
   _file_url_to_path (url_base metadata) = Returned shared_repo_path ->
   (shared_repo_path ∈ dirs w ->
    fst (package_plugin env metadata w) = Returned tt /\
    exists entries,
      files (snd (package_plugin env metadata w))
        !! joinpath shared_repo_path (Path file_name)
      = Some (Archive entries)) /\
   (shared_repo_path ∉ dirs w ->
    (exists e, fst (package_plugin env metadata w) = Raised (OSError e)) /\
    snd (package_plugin env metadata w) = w)).
Proof.
  intros file_name. split.
  - destruct (entries_for_update metadata root)
      as (entry & rest & Hentries & _ & _ & Hf & _).
    exists entry, rest. split; [exact Hentries|].
    unfold entry_fields, expected_fields, essential_tags, zip_filename in Hf.
    cbn [map] in Hf. injection Hf as _ _ _ _ _ _ _ Hfile Hurl.
    split; assumption.
  - intros Hname Hread Hurl. split.
    + intros Hdir.
      rewrite (package_plugin_ok env metadata w _ _ Hname Hread Hurl Hdir).
      cbn [fst snd files]. split; [reflexivity|]. unfold archive_path. fold file_name.
      rewrite lookup_insert_eq. eauto.
    + intros Hdir.
      destruct (package_plugin_no_directory env metadata w _ _ Hname Hread Hurl Hdir)
        as (e & ->).
      cbn [fst snd]. split; [eauto | reflexivity].
Qed.

End ManifestAndArchive.
